(** * Match_filter: time and frequency series over irregular sampling

    A shallow embedding of [mfilter/types/timeseries.py] and
    [mfilter/types/frequencyseries.py], and the properties of the design
    document that can be settled on it.

    Conventions of the embedding.
    - Python floats are read as exact rationals ([Q]); [==] is [Qeq].
      Numpy turns a division by zero into a non-finite value, [Q] turns
      it into [0]: a statement that depends on a quotient assumes the
      divisor is not zero.
    - A Python exception is a value of [exn]; a function that can raise
      returns a [result].
    - A [while] loop of the source is a fixpoint on a fuel argument; [None]
      means that the fuel ran out, and the theorems give a fuel that is
      enough.
    - The libraries the source calls (the periodogram kernel of astropy,
      scipy's Tukey window, the pynfft solver, the regressor, the match
      filter, numpy's random generator) are interfaces: type classes whose
      instances are the capabilities of section 6 of the design. *)

From Stdlib Require Import String QArith Qabs Qround Lqa ZArith Lia Bool List.
From Stdlib Require Import Sorted.
Import ListNotations.
Open Scope Q_scope.

(** ** Exceptions and results *)

Inductive exn : Type :=
| ValueError (msg : string)
| TypeError (msg : string)
| IndexError
| ZeroDivisionError
| AssertionError.

Inductive result (A : Type) : Type :=
| Ok (a : A)
| Raise (e : exn).
Arguments Ok {A} a.
Arguments Raise {A} e.

Definition bind {A B : Type} (m : result A) (f : A -> result B) : result B :=
  match m with
  | Ok a => f a
  | Raise e => Raise e
  end.

Declare Scope py_scope.
Delimit Scope py_scope with py.
Notation "x <- m ;; k" := (bind m (fun x => k))
  (at level 61, m at next level, right associativity) : py_scope.
Notation "m ;;; k" := (bind m (fun _ => k))
  (at level 61, right associativity) : py_scope.
Open Scope py_scope.

(** ** Python and numpy primitives *)

Module Py.

(** [a < b] on floats. *)
Definition Qltb (a b : Q) : bool := negb (Qle_bool b a).

(** [round(x)] of Python 3: to the nearest integer, ties to the even one. *)
Definition round (x : Q) : Z :=
  let f := Qfloor x in
  match Qcompare (x - inject_Z f) (1 # 2) with
  | Lt => f
  | Gt => (f + 1)%Z
  | Eq => if Z.even f then f else (f + 1)%Z
  end.

(** [int(x)]: truncation towards zero. *)
Definition int (x : Q) : Z := Z.quot (Qnum x) (Zpos (Qden x)).

(** [np.arange(n)]: empty when [n <= 0]. *)
Definition arange (n : Z) : list Q :=
  map (fun i => inject_Z (Z.of_nat i)) (seq 0 (Z.to_nat n)).

(** [l[i]] for a Python integer: a negative index counts from the end. *)
Definition index {A : Type} (l : list A) (i : Z) : result A :=
  let n := Z.of_nat (length l) in
  let j := if (i <? 0)%Z then (i + n)%Z else i in
  if ((0 <=? j) && (j <? n))%Z
  then match nth_error l (Z.to_nat j) with
       | Some x => Ok x
       | None => Raise IndexError
       end
  else Raise IndexError.

(** The bound of a slice, clipped as Python clips it. *)
Definition slice_bound (len : nat) (i : Z) : nat :=
  let n := Z.of_nat len in
  if (i <? 0)%Z then Z.to_nat (Z.max 0 (i + n)) else Z.to_nat (Z.min i n).

(** [l[a:b]] for the non-negative indices that [argmin] returns. *)
Definition slice {A : Type} (l : list A) (a b : nat) : list A :=
  firstn (b - a) (skipn a l).

(** [l[a:b] = f(l[a:b])] element by element, the in-place update of a
    span; [b = None] is an open end. *)
Definition update_span (f : Q -> Q) (l : list Q) (a : Z) (b : option Z)
  : list Q :=
  let lo := slice_bound (length l) a in
  let hi := match b with
            | Some b => slice_bound (length l) b
            | None => length l
            end in
  firstn lo l ++ map f (slice l lo hi) ++ skipn (Nat.max lo hi) l.

Fixpoint fold_min (best : Q) (l : list Q) : Q :=
  match l with
  | [] => best
  | x :: r => fold_min (if Qltb x best then x else best) r
  end.

Fixpoint fold_max (best : Q) (l : list Q) : Q :=
  match l with
  | [] => best
  | x :: r => fold_max (if Qltb best x then x else best) r
  end.

(** [a.min()], [min(a)]: an empty sequence is an error. *)
Definition min (l : list Q) : result Q :=
  match l with
  | [] => Raise (ValueError "min of an empty sequence")
  | x :: r => Ok (fold_min x r)
  end.

(** [a.max()], [max(a)]. *)
Definition max (l : list Q) : result Q :=
  match l with
  | [] => Raise (ValueError "max of an empty sequence")
  | x :: r => Ok (fold_max x r)
  end.

Fixpoint argmin_from (best : Q) (besti i : nat) (l : list Q) : nat :=
  match l with
  | [] => besti
  | x :: r =>
      if Qltb x best then argmin_from x i (S i) r
      else argmin_from best besti (S i) r
  end.

(** [a.argmin()]: the first index of the least entry. *)
Definition argmin (l : list Q) : result nat :=
  match l with
  | [] => Raise (ValueError "argmin of an empty sequence")
  | x :: r => Ok (argmin_from x 0 1 r)
  end.

Fixpoint insert_sorted (x : Q) (l : list Q) : list Q :=
  match l with
  | [] => [x]
  | y :: r => if Qle_bool x y then x :: l else y :: insert_sorted x r
  end.

(** [a.sort()]. *)
Definition sort (l : list Q) : list Q := fold_right insert_sorted [] l.

(** [needle in haystack] on strings. *)
Definition contains (needle haystack : string) : bool :=
  match String.index 0 needle haystack with
  | Some _ => true
  | None => false
  end.

(** Element-wise product of two arrays of one shape; numpy also accepts a
    one-element operand on the right and repeats it. *)
Definition mul (a w : list Q) : result (list Q) :=
  if (length a =? length w)%nat then Ok (map (fun p => fst p * snd p) (combine a w))
  else match w with
       | [x] => Ok (map (fun y => y * x) a)
       | _ => Raise (ValueError "operands could not be broadcast together")
       end.

(** Element-wise sum of two arrays, with the same rule. *)
Definition add (a b : list Q) : result (list Q) :=
  if (length a =? length b)%nat then Ok (map (fun p => fst p + snd p) (combine a b))
  else match b with
       | [x] => Ok (map (fun y => y + x) a)
       | _ => Raise (ValueError "operands could not be broadcast together")
       end.

End Py.

(** ** The numeric container *)

(** Modelled from the spec: the class [Array] of [mfilter/types/arrays.py],
    which is not among the sources.  Section 3: "ordered sequence of N
    samples, element type real or complex"; section 4.1: element-wise
    arithmetic "with another same-length container or a scalar", slicing,
    [min], [max].  A complex sample is its real and imaginary part. *)
Inductive Array : Type :=
| RealArray (v : list Q)
| ComplexArray (v : list (Q * Q)).

Inductive Kind : Type := real | complex.

Definition kind (a : Array) : Kind :=
  match a with
  | RealArray _ => real
  | ComplexArray _ => complex
  end.

Definition len (a : Array) : nat :=
  match a with
  | RealArray v => length v
  | ComplexArray v => length v
  end.

(** [a[i:j]]. *)
Definition getslice (a : Array) (i j : nat) : Array :=
  match a with
  | RealArray v => RealArray (Py.slice v i j)
  | ComplexArray v => ComplexArray (Py.slice v i j)
  end.

(** [a / w] for a scalar [w]. *)
Definition div_scalar (a : Array) (w : Q) : Array :=
  match a with
  | RealArray v => RealArray (map (fun x => x / w) v)
  | ComplexArray v => ComplexArray (map (fun z => (fst z / w, snd z / w)) v)
  end.

(** [a += b]; numpy refuses to store a complex sum in a real array. *)
Definition iadd (a b : Array) : result Array :=
  match a, b with
  | RealArray x, RealArray y => r <- Py.add x y ;; Ok (RealArray r)
  | RealArray _, ComplexArray _ =>
      Raise (TypeError "cannot cast complex to float in place")
  | ComplexArray x, RealArray y =>
      re <- Py.add (map fst x) y ;;
      Ok (ComplexArray (combine re (map snd x)))
  | ComplexArray x, ComplexArray y =>
      re <- Py.add (map fst x) (map fst y) ;;
      im <- Py.add (map snd x) (map snd y) ;;
      Ok (ComplexArray (combine re im))
  end.

(** [a *= w] for a real window [w]. *)
Definition imul (a : Array) (w : list Q) : result Array :=
  match a with
  | RealArray v => r <- Py.mul v w ;; Ok (RealArray r)
  | ComplexArray v =>
      re <- Py.mul (map fst v) w ;;
      im <- Py.mul (map snd v) w ;;
      Ok (ComplexArray (combine re im))
  end.

(** ** The data model *)

(** [TimesSamples]: the timestamps and the nominal spacing [_delta]. *)
Record TimesSamples : Type := {
  times_value : list Q;
  _delta : Q
}.

(** [FrequencySamples]: the frequencies, the bin spacing [_df] and the
    oversampling factor [_n_per_peak]. *)
Record FrequencySamples : Type := {
  freq_value : list Q;
  _df : Q;
  _n_per_peak : Q
}.

(** [TimeSeries]: samples bound to a time grid. *)
Record TimeSeries : Type := {
  ts_data : Array;
  _times : TimesSamples
}.

(** [FrequencySeries]: spectral values bound to a frequency grid and an
    epoch. *)
Record FrequencySeries : Type := {
  fs_data : Array;
  _freqs : FrequencySamples;
  _epoch : Q
}.

(** ** The irregular time-grid generator *)

Module IrregularTimeSamples.

(** [self.n], [self.dt], [self.t]. *)
Record state : Type := {
  n : Z;
  dt : Q;
  t : list Q
}.

(** The keyword arguments of [compute]; [None] is an absent key. *)
Record kwargs : Type := {
  offset : option Q;
  sigma : option Q;
  epsilon : option (list Q);
  break_point : option Z;
  empty_window : option Q;
  start_point : option Z;
  end_point : option Z;
  gamma : option Q
}.

(** The values that [np.random] returns to one run of [compute], call by
    call: [normal], [randint], [random], [randint] in [_set_kwargs];
    [choice], [uniform], [uniform], [normal] in [_auto_mix]. *)
Record draws : Type := {
  normal_kwargs : list Q;
  randint_break : Z;
  random_window : Q;
  randint_start : Z;
  choice_gamma : Q;
  uniform_offset : Q;
  uniform_window : Q;
  normal_mix : list Q
}.

(** The keyword arguments once [_set_kwargs] has filled the defaults. *)
Record settings : Type := {
  s_offset : Q;
  s_sigma : Q;
  s_epsilon : list Q;
  s_break_point : Z;
  s_empty_window : Q;
  s_start_point : Z;
  s_end_point : Z;
  s_gamma : option Q
}.

Definition __init__ (n : Z) (dt : Q) (grid : option (list Q)) : result state :=
  if Qle_bool dt 0
  then Raise (ValueError "'dt' need to be positive and non zero")
  else
    let grid := match grid with
                | Some g => g
                | None => map (fun i => i * dt) (Py.arange n)
                end in
    if negb (n =? Z.of_nat (length grid))%Z
    then Raise (ValueError "the 'grid' used need to be of length 'n'")
    else Ok {| n := n; dt := dt; t := grid |}.

Definition default {A : Type} (o : option A) (d : A) : A :=
  match o with
  | Some a => a
  | None => d
  end.

(** [np.random.normal(0, scale, size)] refuses a negative scale and
    [np.random.randint(0, high)] an empty range. *)
Definition _set_kwargs (self : state) (kw : kwargs) (d : draws)
  : result settings :=
  let off := default (offset kw) 0 in
  let sig := default (sigma kw) (5 # 100) in
  if Py.Qltb (sig * dt self) 0 then Raise (ValueError "scale < 0") else
  let eps := default (epsilon kw) (normal_kwargs d) in
  if (n self <=? 0)%Z then Raise (ValueError "low >= high") else
  let bp := default (break_point kw) (randint_break d) in
  let ew := default (empty_window kw)
                    (random_window d * inject_Z (n self) * dt self) in
  let sp := default (start_point kw) (randint_start d) in
  let ep := default (end_point kw) (n self) in
  Ok {| s_offset := off; s_sigma := sig; s_epsilon := eps;
        s_break_point := bp; s_empty_window := ew; s_start_point := sp;
        s_end_point := ep; s_gamma := gamma kw |}.

(** [for i in range(k): t[i] += eps[i]]. *)
Fixpoint add_each (k : nat) (t eps : list Q) : result (list Q) :=
  match k with
  | O => Ok t
  | S k' =>
      match t, eps with
      | x :: t', e :: eps' => r <- add_each k' t' eps' ;; Ok (x + e :: r)
      | _, _ => Raise IndexError
      end
  end.

Definition with_t (self : state) (t' : list Q) : state :=
  {| n := n self; dt := dt self; t := t' |}.

Definition _add_irregularities (self : state) (eps : list Q) : result state :=
  t' <- add_each (Z.to_nat (n self)) (t self) eps ;; Ok (with_t self t').

Definition _normalize (self : state) (offset : Q) : result state :=
  m <- Py.min (t self) ;;
  if Py.Qltb m offset
  then Ok (with_t self (map (fun x => x + (offset - Qabs m)) (t self)))
  else Ok self.

Definition _base (self : state) (kw : settings) : result state :=
  self <- _add_irregularities self (s_epsilon kw) ;;
  _normalize self (s_offset kw).

Definition _outlier (self : state) (kw : settings) : result state :=
  let t' := Py.update_span (fun x => x + s_empty_window kw) (t self)
                           (s_break_point kw) None in
  _base (with_t self t') kw.

Definition _change_spacing (self : state) (kw : settings) : result state :=
  match s_gamma kw with
  | None => Raise (TypeError "unsupported operand type(s) for *=")
  | Some g =>
      let t' := Py.update_span (fun x => x * g) (t self)
                               (s_start_point kw) (Some (s_end_point kw)) in
      _base (with_t self t') kw
  end.

Definition _auto_mix (self : state) (d : draws) : result state :=
  let g := choice_gamma d in
  let off := uniform_offset d in
  let ew := uniform_window d in
  let fifth := (n self / 5)%Z in
  let t1 := Py.sort (t self) in
  let t2 := Py.update_span (fun x => x * g) t1 (2 * fifth) (Some (4 * fifth)%Z) in
  let t3 := Py.update_span (fun x => x + ew) t2 (3 * fifth) None in
  if Py.Qltb ((5 # 100) * dt self) 0 then Raise (ValueError "scale < 0") else
  self <- _add_irregularities (with_t self t3) (normal_mix d) ;;
  _normalize (with_t self (Py.sort (t self))) off.

Definition compute (self : state) (struct : string) (clear : bool)
  (kw : kwargs) (d : draws) : result (list Q) :=
  kw <- _set_kwargs self kw d ;;
  let self := if clear
              then with_t self (map (fun i => i * dt self) (Py.arange (n self)))
              else self in
  self <- (if Py.contains "slight" struct then _base self kw
           else if Py.contains "outlier" struct then _outlier self kw
           else if Py.contains "change" struct && Py.contains "spacing" struct
                then _change_spacing self kw
           else if Py.contains "automix" struct then _auto_mix self d
           else Ok self) ;;
  Ok (t self).

End IrregularTimeSamples.

(** ** The libraries the source calls *)

(** The periodogram kernel: [LombScargle(times, data, normalization)] and
    then [lomb.power(frequencies)].  Between the two calls the source
    multiplies [data] in place by a window; whether the kernel sees the
    product is astropy's business, so the kernel receives the data as
    passed and the window. *)
Class Periodogram : Type := {
  power : string -> list Q -> Array -> list Q -> list Q -> list Q
}.

(** [scipy.signal.windows.tukey(M, alpha)]. *)
Class Window : Type := {
  tukey : nat -> Q -> list Q
}.

(** The regressor and its dictionary ([mfilter.regressions]). *)
Class Regression : Type := {
  Regressor : Type;
  dictionary : Type;
  Dictionary : TimesSamples -> FrequencySamples -> dictionary;
  frequency : Regressor -> FrequencySamples;
  get_ft : Regressor -> TimeSeries -> dictionary -> result Array
}.

(** The transform solver of pynfft: [Solver] stands for the plan, its
    precomputation, the solver on it, the assignment of [y] and
    [before_loop]. *)
Class Nfft : Type := {
  solver : Type;
  solver_flags : Type;
  Solver : Z -> nat -> list Q -> option solver_flags -> Array -> result solver;
  loop_one_step : solver -> solver;
  r_iter : solver -> list Q;
  f_hat_iter : solver -> Array
}.

(** [mfilter.filter.match]. *)
Class MatchFilter : Type := {
  score : Type;
  filter_match : FrequencySeries -> FrequencySeries -> option Array -> result score
}.

(** ** Frequency grids *)

(** What [initial_array] can be: another grid or bare values. *)
Inductive initial : Type :=
| FromGrid (g : FrequencySamples)
| FromValues (v : list Q).

Definition samples_per_peak (self : FrequencySamples) : Q := _n_per_peak self.

Definition basic_df (self : FrequencySamples) : Q := _df self * _n_per_peak self.

(** The constructor.  On the sizing path the source divides by the
    duration of the time grid and by [samples_per_peak]; where one of
    them is zero numpy goes on with non-finite values, which the
    rationals do not have, so the theorems about this path assume a
    positive duration and an oversampling factor that is not zero. *)
Definition FrequencySamples_init (initial_array : option initial)
  (input_time : option (list Q))
  (minimum_frequency maximum_frequency samples_per_peak : option Q)
  (nyquist_factor : Q) (n_samples : option Z) (df : option Q)
  : result FrequencySamples :=
  match initial_array with
  | None =>
      match input_time with
      | None => Raise (ValueError "input_time must be an Array or array-like")
      | Some input_time =>
          let samples_per_peak :=
            match samples_per_peak with Some s => s | None => 5 end in
          hi <- Py.max input_time ;;
          lo <- Py.min input_time ;;
          let duration := hi - lo in
          let df := 1 / duration / samples_per_peak in
          let minimum_frequency :=
            match minimum_frequency with Some m => m | None => 0 end in
          let n_samples :=
            match maximum_frequency with
            | None =>
                match n_samples with
                | None =>
                    let average_nyq :=
                      (5 # 10) * inject_Z (Z.of_nat (length input_time))
                      / duration in
                    let maximum_frequency := nyquist_factor * average_nyq in
                    let freq_duration := maximum_frequency - minimum_frequency in
                    (1 + Py.round (freq_duration / df))%Z
                | Some k => k
                end
            | Some maximum_frequency =>
                let freq_duration := maximum_frequency - minimum_frequency in
                (1 + Py.round (freq_duration / df))%Z
            end in
          Ok {| freq_value :=
                  map (fun i => minimum_frequency + df * i) (Py.arange n_samples);
                _df := df;
                _n_per_peak := samples_per_peak |}
      end
  | Some (FromGrid g) =>
      Ok {| freq_value := freq_value g;
            _df := basic_df g;
            _n_per_peak := _n_per_peak g |}
  | Some (FromValues v) =>
      df <- match df with
            | Some d => Ok d
            | None => a1 <- Py.index v 1 ;; a0 <- Py.index v 0 ;; Ok (a1 - a0)
            end ;;
      let samples_per_peak :=
        match samples_per_peak with Some s => s | None => 1 end in
      Ok {| freq_value := v; _df := df; _n_per_peak := samples_per_peak |}
  end.

Definition check_nsst (self : FrequencySamples) (B : Q) : result bool :=
  m <- Py.max (freq_value self) ;; Ok (Py.Qltb (2 * B) m).

Definition has_zero (self : FrequencySamples) : bool :=
  existsb (fun x => Qeq_bool x 0) (freq_value self).

Fixpoint first_zero (l : list Q) : nat :=
  match l with
  | [] => O
  | x :: r => if Qeq_bool x 0 then O else S (first_zero r)
  end.

Definition zero_idx (self : FrequencySamples) : option nat :=
  if has_zero self then Some (first_zero (freq_value self)) else None.

Definition split_by_zero (self : FrequencySamples)
  : option (list Q) * option (list Q) :=
  match zero_idx self with
  | None => (None, None)
  | Some idx =>
      (Some (firstn idx (freq_value self)),
       Some (skipn (idx + 1) (freq_value self)))
  end.

(** ** Frequency series: the constructor *)

(** [FrequencySeries(initial_array, frequency_grid=..., epoch=...)], the
    way every caller in the two files builds one.  The probe
    [frequency_grid.min()] fails on an empty grid. *)
Definition FrequencySeries_init (initial_array : Array)
  (frequency_grid : FrequencySamples) (epoch : Q) : result FrequencySeries :=
  if (len initial_array <? 1)%nat
  then Raise (ValueError "initial_array must contain at least one sample.")
  else
    Py.min (freq_value frequency_grid) ;;;
    if (len initial_array =? length (freq_value frequency_grid))%nat
    then Ok {| fs_data := initial_array;
               _freqs := frequency_grid;
               _epoch := epoch |}
    else Raise AssertionError.

Definition fs_duration (self : FrequencySeries) : Q := 1 / basic_df (_freqs self).

(** ** The spectral estimator: [lomb_scargle] *)

(** A computation that calls the periodogram kernel: the frequency
    sequences handed to [lomb.power], in call order, and the outcome. *)
Definition traced (A : Type) : Type := (list (list Q) * result A)%type.

Definition tbind {A B : Type} (m : traced A) (f : A -> traced B) : traced B :=
  match m with
  | (calls, Ok a) => let (calls', r) := f a in (calls ++ calls', r)
  | (calls, Raise e) => (calls, Raise e)
  end.

Definition lift {A : Type} (r : result A) : traced A := ([], r).

Notation "x <~ m ;; k" := (tbind m (fun x => k))
  (at level 61, m at next level, right associativity) : py_scope.

(** [psd[a:b] = values]: the values must have the length of the span, or
    be a single value, which numpy repeats. *)
Definition assign_span (span : nat) (values : list Q) : result (list Q) :=
  if (length values =? span)%nat then Ok values
  else match values with
       | [x] => Ok (repeat x span)
       | _ => Raise (ValueError "could not broadcast input array")
       end.

(** [(window ** 2).sum() / len(window)]. *)
Definition taper_power (window : list Q) : Q :=
  fold_right Qplus 0 (map (fun w => w * w) window)
  / inject_Z (Z.of_nat (length window)).

Section Estimator.
Context {kernel : Periodogram} {taper : Window}.

Definition lomb_power (norm : string) (times : list Q) (data : Array)
  (window freqs : list Q) : traced (list Q) :=
  ([freqs], Ok (power norm times data window freqs)).

Definition lomb_scargle (self : FrequencySamples) (times : list Q)
  (data : Array) (package norm : string) : traced FrequencySeries :=
  if negb (String.eqb package "astropy")
  then lift (Raise (ValueError "for now we only use astropy package"))
  else
    let window := tukey (len data) (1 # 8) in
    _ <~ lift (imul data window) ;;
    let W := taper_power window in
    let grid := freq_value self in
    psd <~ match zero_idx self with
           | Some O =>
               tail <~ lomb_power norm times data window (skipn 1 grid) ;;
               tail <~ lift (assign_span (length grid - 1) tail) ;;
               m <~ lift (Py.min tail) ;;
               lift (Ok (m :: tail))
           | Some zero_idx =>
               let neg_freq := firstn zero_idx grid in
               let pos_freq := skipn (zero_idx + 1) grid in
               right_psd <~ lomb_power norm times data window pos_freq ;;
               left_psd <~ lomb_power norm times data window
                             (map Qabs (rev neg_freq)) ;;
               left <~ lift (assign_span zero_idx (rev left_psd)) ;;
               m <~ lift (Py.min left) ;;
               right <~ lift (assign_span (length grid - (zero_idx + 1))
                                          right_psd) ;;
               lift (Ok (left ++ m :: right))
           | None => lomb_power norm times data window (map Qabs grid)
           end ;;
    epoch <~ lift (Py.min times) ;;
    lift (FrequencySeries_init (RealArray (map (fun p => p / W) psd)) self epoch).

End Estimator.

(** ** Time grids and time series *)

Definition duration (self : TimesSamples) : result Q :=
  hi <- Py.max (times_value self) ;;
  lo <- Py.min (times_value self) ;;
  Ok (hi - lo).

(** [TimesSamples(initial_array=a)] for a bare array [a]: it has no
    attribute [dt], and the spacing becomes the sentinel [-1]. *)
Definition TimesSamples_of_array (a : list Q) : TimesSamples :=
  {| times_value := a; _delta := - (1) |}.

(** [TimeSeries(initial_array, times=times)]. *)
Definition TimeSeries_init (initial_array : Array) (times : TimesSamples)
  : result TimeSeries :=
  if (len initial_array <? 1)%nat
  then Raise (ValueError "initial_array must contain at least one sample.")
  else Ok {| ts_data := initial_array; _times := times |}.

Definition epoch (self : TimeSeries) : result Q :=
  Py.min (times_value (_times self)).

Definition ts_duration (self : TimeSeries) : result Q := duration (_times self).

Definition _getslice (self : TimeSeries) (i j : nat) : result TimeSeries :=
  TimeSeries_init (getslice (ts_data self) i j)
    (TimesSamples_of_array (Py.slice (times_value (_times self)) i j)).

Definition get_time_slice (self : TimeSeries) (start_time end_time : Q)
  : result TimeSeries :=
  let times := times_value (_times self) in
  start_idx <- Py.argmin (map (fun x => Qabs (x - start_time)) times) ;;
  end_idx <- Py.argmin (map (fun x => Qabs (x - end_time)) times) ;;
  _getslice self start_idx end_idx.

(** [self._return(ary)]. *)
Definition _return (self : TimeSeries) (ary : Array) : result TimeSeries :=
  TimeSeries_init ary (_times self).

Section Conversion.
Context {kernel : Periodogram} {taper : Window} {regression_backend : Regression}
        {nfft : Nfft} {filter : MatchFilter}.

(** [TimeSeries.psd]: the periodogram of the series on a grid. *)
Definition psd (self : TimeSeries) (frequency_grid : FrequencySamples)
  : result FrequencySeries :=
  snd (lomb_scargle frequency_grid (times_value (_times self)) (ts_data self)
         "astropy" "psd").

Definition regression (self series : TimeSeries) (regressor : option Regressor)
  (frequencies : option FrequencySamples) : result FrequencySeries :=
  match regressor with
  | None => Raise (ValueError "need a Regressor object")
  | Some regressor =>
      let frequencies :=
        match frequencies with
        | Some f => f
        | None => frequency regressor
        end in
      let new_dict := Dictionary (_times self) frequencies in
      ft <- get_ft regressor series new_dict ;;
      e <- epoch self ;;
      FrequencySeries_init ft frequencies e
  end.

(** The refinement loop of [ts_nfft]; it returns the solver and [count]
    as they are when the loop is left. *)
Fixpoint refinement_loop (fuel : nat) (tol : Q) (solv : solver) (count : Z)
  : option (result (solver * Z)) :=
  match fuel with
  | O => None
  | S fuel' =>
      let solv := loop_one_step solv in
      match Py.max (r_iter solv) with
      | Raise e => Some (Raise e)
      | Ok r =>
          if Py.Qltb r tol then Some (Ok (solv, count))
          else if (count =? 500)%Z then Some (Ok (solv, count))
          else refinement_loop fuel' tol solv (count + 1)%Z
      end
  end.

(** [np.fft.fftfreq(n)]: [k / n] for [k = 0 .. (n-1)//2, -(n//2) .. -1]. *)
Definition fftfreq (n : Z) : result (list Q) :=
  if (n =? 0)%Z then Raise ZeroDivisionError
  else if (n <? 0)%Z then Raise (ValueError "negative dimensions are not allowed")
  else
    let val := 1 / (inject_Z n * 1) in
    let N := ((n - 1) / 2 + 1)%Z in
    let p1 := map (fun k => Z.of_nat k) (seq 0 (Z.to_nat N)) in
    let p2 := map (fun k => (Z.of_nat k - n / 2)%Z) (seq 0 (Z.to_nat (n / 2))) in
    Ok (map (fun k => inject_Z k * val) (p1 ++ p2)).

Definition ts_nfft (fuel : nat) (self series : TimeSeries) (Nf : option Z)
  (tol : Q) (flags : option solver_flags) : option (result FrequencySeries) :=
  let Nf := match Nf with
            | Some k => k
            | None => Z.of_nat (len (ts_data self))
            end in
  match Solver Nf (len (ts_data self)) (times_value (_times self)) flags
               (ts_data series) with
  | Raise e => Some (Raise e)
  | Ok solv =>
      match refinement_loop fuel tol solv 0 with
      | None => None
      | Some (Raise e) => Some (Raise e)
      | Some (Ok (solv, _)) =>
          Some (freqs <- fftfreq Nf ;;
                d <- ts_duration self ;;
                let freqs := map (fun f => f * inject_Z Nf / d) freqs in
                freqs <- FrequencySamples_init (Some (FromValues freqs)) None
                           None None None 2 None None ;;
                e <- epoch self ;;
                FrequencySeries_init (f_hat_iter solv) freqs e)
      end
  end.

(** The keyword arguments that [to_frequencyseries] reads. *)
Record conversion_kwargs : Type := {
  reg : option Regressor;
  Nf : option Z;
  flags : option solver_flags
}.

Definition no_kwargs : conversion_kwargs :=
  {| reg := None; Nf := None; flags := None |}.

Definition to_frequencyseries (fuel : nat) (self : TimeSeries)
  (frequency_grid : option FrequencySamples) (method : string)
  (window : option (list Q)) (kwargs : conversion_kwargs)
  : option (result FrequencySeries) :=
  match kind (ts_data self) with
  | complex =>
      Some (Raise (TypeError "transform only work with real timeSeries data"))
  | real =>
      let series :=
        match window with
        | Some w => a <- imul (ts_data self) w ;; _return self a
        | None => _return self (ts_data self)
        end in
      match series with
      | Raise e => Some (Raise e)
      | Ok series =>
          if String.eqb method "regression"
          then Some (regression self series (reg kwargs) frequency_grid)
          else if String.eqb method "nfft"
          then ts_nfft fuel self series (Nf kwargs) (6 # 10) (flags kwargs)
          else Some (Raise (ValueError
                 "for now we have only implemented regressor method"))
      end
  end.

(** ** The segmented estimator: [lomb_welch] *)

(** One segment: slice the series between two timestamps, taper it,
    and add its periodogram, divided by the taper power, to [acc].  A slice
    is a new container (section 4.1 of the design), so the taper touches
    the segment only. *)
Definition welch_segment (self : FrequencySamples) (data : TimeSeries)
  (acc : Array) (start_time end_time : Q) : result Array :=
  aux_timeseries <- get_time_slice data start_time end_time ;;
  let window := tukey (len (ts_data aux_timeseries)) (1 # 8) in
  tapered <- imul (ts_data aux_timeseries) window ;;
  let aux_timeseries :=
    {| ts_data := tapered; _times := _times aux_timeseries |} in
  let W := taper_power window in
  p <- psd aux_timeseries self ;;
  iadd acc (div_scalar (fs_data p) W).

Fixpoint welch_loop (fuel : nat) (self : FrequencySamples) (times : list Q)
  (data : TimeSeries) (data_per_segment : Z) (over : Q)
  (acc : Array) (n counter : Z) : option (result (Array * Z)) :=
  match fuel with
  | O => None
  | S fuel' =>
      if (n <? Z.of_nat (len (ts_data data)) - data_per_segment)%Z
      then
        match (a <- Py.index times n ;;
               b <- Py.index times (n + data_per_segment) ;;
               welch_segment self data acc a b) with
        | Raise e => Some (Raise e)
        | Ok acc =>
            welch_loop fuel' self times data data_per_segment over acc
              (n + Py.int (inject_Z data_per_segment * over))%Z
              (counter + 1)%Z
        end
      else Some (Ok (acc, counter))
  end.

Definition lomb_welch (fuel : nat) (self : FrequencySamples) (times : list Q)
  (data : TimeSeries) (data_per_segment : Z) (over : Q)
  : option (result FrequencySeries) :=
  match (e <- epoch data ;;
         FrequencySeries_init (RealArray (repeat 0 (length (freq_value self))))
                              self e) with
  | Raise e => Some (Raise e)
  | Ok psd0 =>
      match welch_loop fuel self times data data_per_segment over
                       (fs_data psd0) 0 0 with
      | None => None
      | Some (Raise e) => Some (Raise e)
      | Some (Ok (acc, counter)) =>
          let last := Z.of_nat (length times) in
          Some (a <- Py.index times (last - data_per_segment - 1) ;;
                b <- Py.index times (last - 1) ;;
                acc <- welch_segment self data acc a b ;;
                let counter := (counter + 1)%Z in
                Ok {| fs_data := div_scalar acc (inject_Z counter);
                      _freqs := _freqs psd0;
                      _epoch := _epoch psd0 |})
      end
  end.

(** ** Frequency series: equality and match *)

Section Equality.
(** [Array.__eq__], the comparison of the container class, which is not
    among the sources. *)
Variable Array_eq : Array -> Array -> bool.

Definition FrequencySeries_eq (self other : FrequencySeries) : bool :=
  if Array_eq (fs_data self) (fs_data other)
  then Qeq_bool (_epoch self) (_epoch other)
       && Qeq_bool (basic_df (_freqs self)) (basic_df (_freqs other))
  else false.
End Equality.

(** What [match] can be given as [other]. *)
Inductive series : Type :=
| ATimeSeries (s : TimeSeries)
| AFrequencySeries (s : FrequencySeries).

Definition FrequencySeries_match (fuel : nat) (self : FrequencySeries)
  (other : series) (psd : option Array) (tol : Q) : option (result score) :=
  let other :=
    match other with
    | ATimeSeries other =>
        match ts_duration other with
        | Raise e => Some (Raise e)
        | Ok d =>
            if Py.Qltb tol (Qabs (d / fs_duration self - 1))
            then Some (Raise (ValueError
                   "duration of times is higher than given tolerance"))
            else to_frequencyseries fuel other None "regression" None no_kwargs
        end
    | AFrequencySeries other => Some (Ok other)
    end in
  match other with
  | None => None
  | Some (Raise e) => Some (Raise e)
  | Some (Ok other) =>
      if negb (len (fs_data other) =? len (fs_data self))%nat
      then Some (Raise AssertionError)
      else
        match psd with
        | Some p =>
            if negb (len p =? len (fs_data self))%nat
            then Some (Raise AssertionError)
            else Some (filter_match self other psd)
        | None => Some (filter_match self other psd)
        end
  end.

(** [TimeSeries.match].  Its keyword arguments are handed on to
    [to_frequencyseries], the key [window] among them. *)
Definition TimeSeries_match (fuel : nat) (self : TimeSeries) (other : series)
  (psd : option Array) (frequency_grid : option FrequencySamples)
  (method : string) (tol : Q) (window : option (list Q))
  (kwargs : conversion_kwargs)
  : option (result score) :=
  match to_frequencyseries fuel self frequency_grid method window kwargs with
  | None => None
  | Some (Raise e) => Some (Raise e)
  | Some (Ok f) => FrequencySeries_match fuel f other psd tol
  end.

End Conversion.

(** ** Constructors in full *)

(** What [TimesSamples] can be given as [initial_array]: another time
    grid or bare values. *)
Inductive times_initial : Type :=
| TimesGrid (g : TimesSamples)
| TimesValues (v : list Q).

(** Whether the keyword arguments hold a key of the generator. *)
Definition has_option (kw : IrregularTimeSamples.kwargs) : bool :=
  match IrregularTimeSamples.offset kw, IrregularTimeSamples.sigma kw,
        IrregularTimeSamples.epsilon kw, IrregularTimeSamples.break_point kw,
        IrregularTimeSamples.empty_window kw, IrregularTimeSamples.start_point kw,
        IrregularTimeSamples.end_point kw, IrregularTimeSamples.gamma kw with
  | None, None, None, None, None, None, None, None => false
  | _, _, _, _, _, _, _, _ => true
  end.

(** [TimesSamples(initial_array, n, delta, regular, struct, clear,
    **kwargs)]; the keyword arguments are the key [grid] and the keys of
    the generator.  The irregular path hands them all to
    [IrregularTimeSamples(n, delta, **kwargs)], whose only keyword
    is [grid]. *)
Definition TimesSamples__init__ (initial_array : option times_initial) (n : Z)
  (delta : option Q) (regular : bool) (struct : string) (clear : bool)
  (grid : option (list Q)) (kw : IrregularTimeSamples.kwargs)
  (d : IrregularTimeSamples.draws) : result TimesSamples :=
  match initial_array with
  | None =>
      match delta with
      | None => Raise (TypeError "'<=' not supported between NoneType and int")
      | Some delta =>
          if Qle_bool delta 0
          then Raise (ValueError "need to receive a valid delta of times")
          else
            v <- (if regular
                  then
                    let offset :=
                      match IrregularTimeSamples.offset kw with
                      | Some o => o
                      | None => 0
                      end in
                    Ok (map (fun i => offset + i * delta) (Py.arange n))
                  else if has_option kw
                  then Raise (TypeError
                         "__init__() got an unexpected keyword argument")
                  else
                    arr <- IrregularTimeSamples.__init__ n delta grid ;;
                    IrregularTimeSamples.compute arr struct clear kw d) ;;
            Ok {| times_value := v; _delta := delta |}
      end
  | Some (TimesGrid g) =>
      Ok {| times_value := times_value g;
            _delta := match delta with Some x => x | None => _delta g end |}
  | Some (TimesValues v) =>
      Ok {| times_value := v;
            _delta := match delta with Some x => x | None => - (1) end |}
  end.

(** [TimeSeries(initial_array, times, delta_t, regular, **kwargs)].  The
    container has no attribute [delta_t], so a series with neither
    [times] nor [delta_t] is a type error. *)
Definition TimeSeries__init__ (initial_array : Array)
  (times : option TimesSamples) (delta_t : option Q) (regular : bool)
  (struct : string) (clear : bool) (grid : option (list Q))
  (kw : IrregularTimeSamples.kwargs) (d : IrregularTimeSamples.draws)
  : result TimeSeries :=
  if (len initial_array <? 1)%nat
  then Raise (ValueError "initial_array must contain at least one sample.")
  else
    times <- match times with
             | Some t => Ok t
             | None =>
                 match delta_t with
                 | None => Raise (TypeError "must provide either an initial_array with a delta_t attribute, or a value for delta_t")
                 | Some dt =>
                     TimesSamples__init__ None (Z.of_nat (len initial_array))
                       (Some dt) regular struct clear grid kw d
                 end
             end ;;
    Ok {| ts_data := initial_array; _times := times |}.

(** [average_fs]: the number of timestamps over the duration. *)
Definition average_fs (self : TimesSamples) : result Q :=
  d <- duration self ;;
  Ok (inject_Z (Z.of_nat (length (times_value self))) / d).

(** [FrequencySamples._return]. *)
Definition FrequencySamples_return (self : FrequencySamples) (ary : initial)
  : result FrequencySamples :=
  match ary with
  | FromGrid g => Ok g
  | FromValues v =>
      FrequencySamples_init (Some (FromValues v)) None None None
        (Some (samples_per_peak self)) 2 None (Some (basic_df self))
  end.

(** [np.linspace(0, stop, num)]: [num] values in steps of
    [stop / (num - 1)], the last one being [stop]. *)
Definition linspace (stop : Q) (num : nat) : list Q :=
  match num with
  | O => []
  | 1%nat => [0]
  | S k =>
      let step := stop / inject_Z (Z.of_nat k) in
      map (fun i => inject_Z (Z.of_nat i) * step + 0) (seq 0 k) ++ [stop]
  end.

(** What [FrequencySeries] can be given as [initial_array]: a bare
    container, which has none of the attributes the constructor probes,
    or a frequency series, which has them all. *)
Inductive payload : Type :=
| Bare (a : Array)
| Spectrum (s : FrequencySeries).

Definition payload_data (p : payload) : Array :=
  match p with
  | Bare a => a
  | Spectrum s => fs_data s
  end.

(** [FrequencySeries(initial_array, frequency_grid, delta_f,
    minimum_frequency, samples_per_peak, epoch)].  Without a grid the
    constructor calls [FrequencySamples(input_times, ...)], whose first
    positional parameter is [initial_array]. *)
Definition FrequencySeries__init__ (initial_array : payload)
  (frequency_grid : option FrequencySamples)
  (delta_f minimum_frequency samples_per_peak epoch : option Q)
  : result FrequencySeries :=
  let data := payload_data initial_array in
  if (len data <? 1)%nat
  then Raise (ValueError "initial_array must contain at least one sample.")
  else
    frequency_grid <-
      match frequency_grid with
      | None =>
          delta_f <- match delta_f, initial_array with
                     | Some x, _ => Ok x
                     | None, Spectrum s => Ok (basic_df (_freqs s))
                     | None, Bare _ => Raise (TypeError "must provide either an initial_array with a delta_f attribute, or a value of delta_f")
                     end ;;
          if Qle_bool delta_f 0
          then Raise (ValueError "delta_f must be a positive number")
          else
            minimum_frequency <-
              match minimum_frequency, initial_array with
              | Some x, _ => Ok x
              | None, Spectrum s => Py.min (freq_value (_freqs s))
              | None, Bare _ => Ok 0
              end ;;
            let samples_per_peak :=
              match samples_per_peak, initial_array with
              | Some x, _ => x
              | None, Spectrum s => _n_per_peak (_freqs s)
              | None, Bare _ => 1
              end in
            let input_times := linspace (1 / delta_f) (len data) in
            FrequencySamples_init (Some (FromValues input_times)) None
              (Some minimum_frequency) None (Some samples_per_peak) 2
              (Some (Z.of_nat (len data))) None
      | Some g => Py.min (freq_value g) ;;; Ok g
      end ;;
    epoch <- match epoch, initial_array with
             | Some e, _ => Ok e
             | None, Spectrum s => Ok (_epoch s)
             | None, Bare _ => Raise (TypeError "must provide either an initial_array with an epoch attribute, or a value of epoch")
             end ;;
    if (len data =? length (freq_value frequency_grid))%nat
    then Ok {| fs_data := data; _freqs := frequency_grid; _epoch := epoch |}
    else Raise AssertionError.

(** ** Concrete backends, for the examples *)

(** A kernel whose power at [f] is [1 / f]. *)
Definition reciprocal_kernel : Periodogram :=
  {| power := fun _ _ _ _ freqs => map (fun f => 1 / f) freqs |}.

(** A window that leaves the data as it is. *)
Definition rectangular : Window :=
  {| tukey := fun M _ => repeat 1 M |}.

(** A solver whose residual never moves; its state counts the steps. *)
Definition stalled_solver : Nfft :=
  {| solver := nat;
     solver_flags := unit;
     Solver := fun _ _ _ _ _ => Ok O;
     loop_one_step := S;
     r_iter := fun _ => [1];
     f_hat_iter := fun k => RealArray [inject_Z (Z.of_nat k);
                                       inject_Z (Z.of_nat k)] |}.

(** A regression backend that returns the samples it is given. *)
Definition identity_regression : Regression :=
  {| Regressor := FrequencySamples;
     dictionary := unit;
     Dictionary := fun _ _ => tt;
     frequency := fun r => r;
     get_ft := fun _ s _ => Ok (ts_data s) |}.

(** A match filter that scores every pair [1]. *)
Definition constant_filter : MatchFilter :=
  {| score := Q;
     filter_match := fun _ _ _ => Ok 1 |}.

(** Samples are equal when they have one kind, one length and equal
    entries. *)
Fixpoint all_eq (x y : list Q) : bool :=
  match x, y with
  | [], [] => true
  | a :: x', b :: y' => Qeq_bool a b && all_eq x' y'
  | _, _ => false
  end.

Definition samples_eq (a b : Array) : bool :=
  match a, b with
  | RealArray x, RealArray y => all_eq x y
  | ComplexArray x, ComplexArray y =>
      all_eq (map fst x) (map fst y) && all_eq (map snd x) (map snd y)
  | _, _ => false
  end.

(** Keyword arguments that supply the jitter [0.1, 0] and nothing else,
    and the same with an offset of [0.5]. *)
Definition jitter_up : IrregularTimeSamples.kwargs :=
  {| IrregularTimeSamples.offset := None;
     IrregularTimeSamples.sigma := None;
     IrregularTimeSamples.epsilon := Some [1 # 10; 0];
     IrregularTimeSamples.break_point := None;
     IrregularTimeSamples.empty_window := None;
     IrregularTimeSamples.start_point := None;
     IrregularTimeSamples.end_point := None;
     IrregularTimeSamples.gamma := None |}.

Definition jitter_up_offset : IrregularTimeSamples.kwargs :=
  {| IrregularTimeSamples.offset := Some (1 # 2);
     IrregularTimeSamples.sigma := None;
     IrregularTimeSamples.epsilon := Some [1 # 10; 0];
     IrregularTimeSamples.break_point := None;
     IrregularTimeSamples.empty_window := None;
     IrregularTimeSamples.start_point := None;
     IrregularTimeSamples.end_point := None;
     IrregularTimeSamples.gamma := None |}.

(** The jitter [-0.1, 0]. *)
Definition jitter_down : IrregularTimeSamples.kwargs :=
  {| IrregularTimeSamples.offset := None;
     IrregularTimeSamples.sigma := None;
     IrregularTimeSamples.epsilon := Some [- (1 # 10); 0];
     IrregularTimeSamples.break_point := None;
     IrregularTimeSamples.empty_window := None;
     IrregularTimeSamples.start_point := None;
     IrregularTimeSamples.end_point := None;
     IrregularTimeSamples.gamma := None |}.

(** A run in which the generator draws zeros. *)
Definition zero_draws : IrregularTimeSamples.draws :=
  {| IrregularTimeSamples.normal_kwargs := [0; 0];
     IrregularTimeSamples.randint_break := 0%Z;
     IrregularTimeSamples.random_window := 0;
     IrregularTimeSamples.randint_start := 0%Z;
     IrregularTimeSamples.choice_gamma := 1;
     IrregularTimeSamples.uniform_offset := 0;
     IrregularTimeSamples.uniform_window := 0;
     IrregularTimeSamples.normal_mix := [0; 0] |}.

(** The regular grid [0, 1] of two timestamps. *)
Definition two_ticks : IrregularTimeSamples.state :=
  {| IrregularTimeSamples.n := 2;
     IrregularTimeSamples.dt := 1;
     IrregularTimeSamples.t := [0 * 1; 1 * 1] |}.

(** A real series of two samples at the times [0] and [1.5], and a
    frequency series of two bins whose [basic_df] is [1]. *)
Definition two_samples : TimeSeries :=
  {| ts_data := RealArray [1; 2];
     _times := {| times_value := [0; 3 # 2]; _delta := 3 # 2 |} |}.

Definition unit_spectrum : FrequencySeries :=
  {| fs_data := RealArray [1; 1];
     _freqs := {| freq_value := [0; 1]; _df := 1; _n_per_peak := 1 |};
     _epoch := 0 |}.

(** A grid with two frequencies below zero and one above, and a grid in
    which the zero is repeated. *)
Definition low_high_grid : FrequencySamples :=
  {| freq_value := [- (2); - (1); 0; 3]; _df := 1; _n_per_peak := 1 |}.

Definition double_zero_grid : FrequencySamples :=
  {| freq_value := [0; 0; 1]; _df := 1; _n_per_peak := 1 |}.

(** A kernel whose power, at every frequency, is the sum of the samples
    it is given: it tells which samples a segment holds. *)
Definition sum_samples (a : Array) : Q :=
  match a with
  | RealArray v => fold_right Qplus 0 v
  | ComplexArray v => fold_right Qplus 0 (map fst v)
  end.

Definition summing_kernel : Periodogram :=
  {| power := fun _ _ data _ freqs => map (fun _ => sum_samples data) freqs |}.

(** Five samples at the times [0 .. 4], and a grid of two frequencies. *)
Definition five_samples : TimeSeries :=
  {| ts_data := RealArray [10; 20; 30; 40; 50];
     _times := {| times_value := [0; 1; 2; 3; 4]; _delta := 1 |} |}.

Definition two_bins : FrequencySamples :=
  {| freq_value := [1; 2]; _df := 1; _n_per_peak := 1 |}.

(** Five samples in which the timestamp [0] comes twice. *)
Definition repeated_samples : TimeSeries :=
  {| ts_data := RealArray [10; 20; 30; 40; 50];
     _times := {| times_value := [0; 1; 0; 3; 4]; _delta := 1 |} |}.

(** Keyword arguments with no key at all, and with a rescale tag but no
    [gamma]. *)
Definition no_options : IrregularTimeSamples.kwargs :=
  {| IrregularTimeSamples.offset := None;
     IrregularTimeSamples.sigma := None;
     IrregularTimeSamples.epsilon := None;
     IrregularTimeSamples.break_point := None;
     IrregularTimeSamples.empty_window := None;
     IrregularTimeSamples.start_point := None;
     IrregularTimeSamples.end_point := None;
     IrregularTimeSamples.gamma := None |}.

(** The jitter [0.3] alone: one entry for a grid of two. *)
Definition short_jitter : IrregularTimeSamples.kwargs :=
  {| IrregularTimeSamples.offset := None;
     IrregularTimeSamples.sigma := None;
     IrregularTimeSamples.epsilon := Some [3 # 10];
     IrregularTimeSamples.break_point := None;
     IrregularTimeSamples.empty_window := None;
     IrregularTimeSamples.start_point := None;
     IrregularTimeSamples.end_point := None;
     IrregularTimeSamples.gamma := None |}.

(** A generator with no timestamp. *)
Definition no_ticks : IrregularTimeSamples.state :=
  {| IrregularTimeSamples.n := 0;
     IrregularTimeSamples.dt := 1;
     IrregularTimeSamples.t := [] |}.

(** Keyword arguments that hold the key [offset] alone. *)
Definition offset_only : IrregularTimeSamples.kwargs :=
  {| IrregularTimeSamples.offset := Some 3;
     IrregularTimeSamples.sigma := None;
     IrregularTimeSamples.epsilon := None;
     IrregularTimeSamples.break_point := None;
     IrregularTimeSamples.empty_window := None;
     IrregularTimeSamples.start_point := None;
     IrregularTimeSamples.end_point := None;
     IrregularTimeSamples.gamma := None |}.

(** A grid without a zero, and the grid of the single frequency zero. *)
Definition off_zero_grid : FrequencySamples :=
  {| freq_value := [- (2); 1; 3]; _df := 1; _n_per_peak := 1 |}.

Definition only_zero_grid : FrequencySamples :=
  {| freq_value := [0]; _df := 1; _n_per_peak := 1 |}.

(** The grid of [unit_spectrum]. *)
Definition unit_spectrum_grid : FrequencySamples :=
  {| freq_value := [0; 1]; _df := 1; _n_per_peak := 1 |}.

(** ** Vocabulary of the properties *)

(** [m] is a greatest entry of [l]. *)
Definition is_max (m : Q) (l : list Q) : Prop :=
  In m l /\ forall x, In x l -> x <= m.

(** [m] is a least entry of [l]. *)
Definition is_min (m : Q) (l : list Q) : Prop :=
  In m l /\ forall x, In x l -> m <= x.

(** A frequency that is not zero. *)
Definition nonzero (f : Q) : Prop := ~ f == 0.

(** Timestamps that are pairwise different. *)
Definition distinct (l : list Q) : Prop :=
  forall i j x y,
    nth_error l i = Some x -> nth_error l j = Some y -> x == y -> i = j.

(** A grid on which the periodogram can be estimated: it is not empty
    and it is not the single frequency zero. *)
Definition estimable (self : FrequencySamples) : Prop :=
  match freq_value self with
  | [] => False
  | [f] => nonzero f
  | _ => True
  end.

(** [ceil(a / b)] for natural numbers. *)
Definition ceil_div (a b : nat) : nat := (a + b - 1) / b.

Section Contracts.
Context {kernel : Periodogram} {taper : Window}.

(** The kernel returns one power for each frequency it is given. *)
Definition one_power_per_frequency : Prop :=
  forall norm times data window freqs,
    length (power norm times data window freqs) = length freqs.

(** The window has the length it is asked for. *)
Definition window_fits : Prop :=
  forall M alpha, length (tukey M alpha) = M.

(** The periodogram of the segment of [data] between the indices [i] and
    [j], tapered and divided by the power of its taper. *)
Definition segment_periodogram (self : FrequencySamples) (data : TimeSeries)
  (i j : nat) : result Array :=
  aux <- _getslice data i j ;;
  let window := tukey (len (ts_data aux)) (1 # 8) in
  tapered <- imul (ts_data aux) window ;;
  p <- psd {| ts_data := tapered; _times := _times aux |} self ;;
  Ok (div_scalar (fs_data p) (taper_power window)).

(** The sum of the periodograms of a list of segments, from [acc] on. *)
Fixpoint welch_sum (self : FrequencySamples) (data : TimeSeries)
  (segments : list (nat * nat)) (acc : Array) : result Array :=
  match segments with
  | [] => Ok acc
  | (i, j) :: rest =>
      acc <- (q <- segment_periodogram self data i j ;; iadd acc q) ;;
      welch_sum self data rest acc
  end.

End Contracts.

(** The segments of width [d] that start at [i], [i + d], ...: [k] of
    them. *)
Definition segments_from (i d k : nat) : list (nat * nat) :=
  map (fun q => (i + q * d, i + q * d + d)%nat) (seq 0 k).

(** The segments of width [d] that start at [i], [i + s], ...: [k] of
    them, one every [s] samples. *)
Definition segments_step (i s d k : nat) : list (nat * nat) :=
  map (fun q => (i + q * s, i + q * s + d)%nat) (seq 0 k).

(** * Properties *)

(** ** Comparisons, minimum and maximum *)

Lemma Qltb_lt (a b : Q) : Py.Qltb a b = true <-> a < b.
Proof.
  unfold Py.Qltb. rewrite negb_true_iff.
  split; intro H.
  - apply Qnot_le_lt. intro L. apply Qle_bool_iff in L. congruence.
  - destruct (Qle_bool b a) eqn:E; [|reflexivity].
    apply Qle_bool_iff in E. lra.
Qed.

Lemma Qltb_ge (a b : Q) : Py.Qltb a b = false <-> b <= a.
Proof.
  unfold Py.Qltb. rewrite negb_false_iff. apply Qle_bool_iff.
Qed.

Lemma Qltb_shift (a b c : Q) : Py.Qltb (a + c) (b + c) = Py.Qltb a b.
Proof.
  destruct (Py.Qltb a b) eqn:E.
  - apply Qltb_lt in E. apply Qltb_lt. lra.
  - apply Qltb_ge in E. apply Qltb_ge. lra.
Qed.

Lemma fold_max_spec (l : list Q) : forall best,
  (Py.fold_max best l = best \/ In (Py.fold_max best l) l)
  /\ best <= Py.fold_max best l
  /\ forall x, In x l -> x <= Py.fold_max best l.
Proof.
  induction l as [|y r IH]; intro best; simpl.
  - repeat split; [now left | lra | tauto].
  - destruct (Py.Qltb best y) eqn:E.
    + apply Qltb_lt in E. destruct (IH y) as (Hin & Hle & Hall).
      repeat split.
      * destruct Hin as [-> | Hin]; [right; now left | right; now right].
      * lra.
      * intros x [<- | Hx]; [exact Hle | now apply Hall].
    + apply Qltb_ge in E. destruct (IH best) as (Hin & Hle & Hall).
      repeat split.
      * destruct Hin as [Heq | Hin]; [now left | right; now right].
      * exact Hle.
      * intros x [<- | Hx]; [lra | now apply Hall].
Qed.

Lemma fold_min_spec (l : list Q) : forall best,
  (Py.fold_min best l = best \/ In (Py.fold_min best l) l)
  /\ Py.fold_min best l <= best
  /\ forall x, In x l -> Py.fold_min best l <= x.
Proof.
  induction l as [|y r IH]; intro best; simpl.
  - repeat split; [now left | lra | tauto].
  - destruct (Py.Qltb y best) eqn:E.
    + apply Qltb_lt in E. destruct (IH y) as (Hin & Hle & Hall).
      repeat split.
      * destruct Hin as [-> | Hin]; [right; now left | right; now right].
      * lra.
      * intros x [<- | Hx]; [exact Hle | now apply Hall].
    + apply Qltb_ge in E. destruct (IH best) as (Hin & Hle & Hall).
      repeat split.
      * destruct Hin as [Heq | Hin]; [now left | right; now right].
      * exact Hle.
      * intros x [<- | Hx]; [lra | now apply Hall].
Qed.

Lemma max_is_max (l : list Q) (m : Q) : Py.max l = Ok m -> is_max m l.
Proof.
  destruct l as [|x r]; simpl; [discriminate|].
  intro H. injection H as <-.
  destruct (fold_max_spec r x) as (Hin & Hle & Hall). split.
  - destruct Hin as [-> | Hin]; [now left | now right].
  - intros y [<- | Hy]; [exact Hle | now apply Hall].
Qed.

Lemma min_is_min (l : list Q) (m : Q) : Py.min l = Ok m -> is_min m l.
Proof.
  destruct l as [|x r]; simpl; [discriminate|].
  intro H. injection H as <-.
  destruct (fold_min_spec r x) as (Hin & Hle & Hall). split.
  - destruct Hin as [-> | Hin]; [now left | now right].
  - intros y [<- | Hy]; [exact Hle | now apply Hall].
Qed.

Lemma max_nonempty (l : list Q) : l <> [] -> exists m, Py.max l = Ok m.
Proof. destruct l; [congruence | intros _; eexists; reflexivity]. Qed.

Lemma min_nonempty (l : list Q) : l <> [] -> exists m, Py.min l = Ok m.
Proof. destruct l; [congruence | intros _; eexists; reflexivity]. Qed.

Lemma is_max_unique (l : list Q) (a b : Q) : is_max a l -> is_max b l -> a == b.
Proof.
  intros [Ha Ha'] [Hb Hb']. apply Qle_antisym; auto.
Qed.

Lemma is_min_unique (l : list Q) (a b : Q) : is_min a l -> is_min b l -> a == b.
Proof.
  intros [Ha Ha'] [Hb Hb']. apply Qle_antisym; auto.
Qed.

Lemma fold_min_shift (c : Q) (l : list Q) : forall best,
  Py.fold_min (best + c) (map (fun x => x + c) l) = Py.fold_min best l + c.
Proof.
  induction l as [|y r IH]; intro best; simpl; [reflexivity|].
  rewrite Qltb_shift. destruct (Py.Qltb y best); apply IH.
Qed.

Lemma min_shift (c : Q) (l : list Q) (m : Q) :
  Py.min l = Ok m -> Py.min (map (fun x => x + c) l) = Ok (m + c).
Proof.
  destruct l as [|x r]; simpl; [discriminate|].
  intro H. injection H as <-. now rewrite fold_min_shift.
Qed.

(** ** The sampling-theorem check *)

(** C9.  On a grid with greatest entry [m], [check_nsst B] returns a
    boolean, which is true exactly when [2 * B < m]; at the boundary
    [2 * B == m] it is false. *)
Theorem check_nsst_iff (self : FrequencySamples) (B m : Q) :
  is_max m (freq_value self) ->
  exists b, check_nsst self B = Ok b
            /\ (b = true <-> 2 * B < m)
            /\ (2 * B == m -> b = false).
Proof.
  intro Hm. unfold check_nsst.
  destruct (max_nonempty (freq_value self)) as [m' Hm'].
  { destruct Hm as [Hin _]. intro E. rewrite E in Hin. destruct Hin. }
  rewrite Hm'. simpl.
  pose proof (is_max_unique _ _ _ (max_is_max _ _ Hm') Hm) as Heq.
  eexists. split; [reflexivity|]. split.
  - rewrite Qltb_lt. rewrite Heq. tauto.
  - intro Hb. apply Qltb_ge. lra.
Qed.

(** ** Equality of frequency series *)

(** C8.  Whatever the comparison of the container class is, two frequency
    series are equal only when it holds of their samples, their epochs
    are equal and their [basic_df] are equal; series whose [basic_df]
    differ are unequal, their samples and epochs being equal or not. *)
Theorem FrequencySeries_eq_only_when (Array_eq : Array -> Array -> bool)
  (self other : FrequencySeries) :
  (FrequencySeries_eq Array_eq self other = true ->
     Array_eq (fs_data self) (fs_data other) = true
     /\ _epoch self == _epoch other
     /\ basic_df (_freqs self) == basic_df (_freqs other))
  /\ (~ basic_df (_freqs self) == basic_df (_freqs other) ->
      FrequencySeries_eq Array_eq self other = false).
Proof.
  unfold FrequencySeries_eq. split.
  - destruct (Array_eq (fs_data self) (fs_data other)); [|discriminate].
    intro H. apply andb_true_iff in H. destruct H as [He Hd].
    apply Qeq_bool_iff in He, Hd. auto.
  - intro Hne. destruct (Array_eq (fs_data self) (fs_data other)); [|reflexivity].
    apply andb_false_iff. right.
    destruct (Qeq_bool (basic_df (_freqs self)) (basic_df (_freqs other))) eqn:E;
      [|reflexivity].
    apply Qeq_bool_iff in E. contradiction.
Qed.

(** ** The irregular time-grid generator *)

Section Generator.
Import IrregularTimeSamples.

Lemma add_each_ok (k : nat) : forall t eps,
  (k <= length t)%nat -> (k <= length eps)%nat ->
  exists r, add_each k t eps = Ok r /\ length r = length t.
Proof.
  induction k as [|k IH]; intros t eps Ht He; simpl.
  - now exists t.
  - destruct t as [|x t']; [simpl in Ht; lia|].
    destruct eps as [|e eps']; [simpl in He; lia|].
    simpl in Ht, He.
    destruct (IH t' eps') as (r & Hr & Hlen); [lia | lia |].
    rewrite Hr. simpl. exists (x + e :: r). split; [reflexivity|].
    simpl. now rewrite Hlen.
Qed.

Lemma arange_length (n : Z) : length (Py.arange n) = Z.to_nat n.
Proof. unfold Py.arange. now rewrite length_map, length_seq. Qed.

Lemma init_ok (n : Z) (dt : Q) (grid : option (list Q)) (self : state) :
  __init__ n dt grid = Ok self ->
  IrregularTimeSamples.n self = n /\ IrregularTimeSamples.dt self = dt
  /\ 0 < dt /\ length (t self) = Z.to_nat n.
Proof.
  unfold __init__.
  destruct (Qle_bool dt 0) eqn:Edt; [discriminate|].
  match goal with |- context [negb ?c] => destruct c eqn:En end;
    simpl; [|discriminate].
  intro H. injection H as <-. simpl.
  apply Z.eqb_eq in En. repeat split.
  - destruct (Qlt_le_dec 0 dt) as [L|L]; [exact L|].
    apply Qle_bool_iff in L. congruence.
  - apply Nat2Z.inj. rewrite Z2Nat.id; [now symmetry | lia].
Qed.

Lemma shifted_pointwise (c c' : Q) (l : list Q) :
  c == c' -> Forall2 (fun x y => y == x + c') l (map (fun x => x + c) l).
Proof.
  intro H. induction l as [|x r IH]; simpl; constructor; [lra | exact IH].
Qed.

(** C1, as the code has it.  For a generator built with [n >= 1] and
    [dt > 0], a recipe whose tag contains [slight] returns [n]
    timestamps.  With [m] the least timestamp after the jitter has been
    added: when [m] is at least the offset the grid is returned as it is,
    so its minimum is [m]; when [0 <= m < offset] every timestamp is
    moved up by [offset - m], and the minimum of the result equals the
    offset. *)
Theorem compute_slight_normalized (n : Z) (dt : Q) (grid : option (list Q))
  (self : state) (struct : string) (clear : bool) (kw : kwargs) (d : draws) :
  __init__ n dt grid = Ok self ->
  (1 <= n)%Z ->
  0 <= default (sigma kw) (5 # 100) ->
  (Z.to_nat n <= length (default (epsilon kw) (normal_kwargs d)))%nat ->
  Py.contains "slight" struct = true ->
  let off := default (offset kw) 0 in
  let start := if clear then map (fun i => i * dt) (Py.arange n) else t self in
  exists pre m out,
    add_each (Z.to_nat n) start (default (epsilon kw) (normal_kwargs d)) = Ok pre
    /\ Py.min pre = Ok m
    /\ compute self struct clear kw d = Ok out
    /\ length out = Z.to_nat n
    /\ (off <= m -> out = pre)
    /\ (0 <= m < off ->
        Forall2 (fun x y => y == x + (off - m)) pre out
        /\ exists m', Py.min out = Ok m' /\ m' == off).
Proof.
  intros Hinit Hn Hsig Heps Hslight off start.
  destruct (init_ok _ _ _ _ Hinit) as (En & Edt & Hdt & Hlen).
  assert (Hstart : length start = Z.to_nat n).
  { unfold start. destruct clear; [|exact Hlen].
    now rewrite length_map, arange_length. }
  destruct (add_each_ok (Z.to_nat n) start
              (default (epsilon kw) (normal_kwargs d))) as (pre & Hpre & Lpre);
    [lia | exact Heps |].
  destruct (min_nonempty pre) as [m Hm].
  { intro E. rewrite E in Lpre. simpl in Lpre. lia. }
  assert (Hset : exists s, _set_kwargs self kw d = Ok s
                 /\ s_epsilon s = default (epsilon kw) (normal_kwargs d)
                 /\ s_offset s = off).
  { unfold _set_kwargs. rewrite En, Edt.
    destruct (Py.Qltb (default (sigma kw) (5 # 100) * dt) 0) eqn:E.
    - apply Qltb_lt in E. nra.
    - destruct (n <=? 0)%Z eqn:E0; [apply Z.leb_le in E0; lia|].
      eexists. split; [reflexivity|]. simpl. split; reflexivity. }
  destruct Hset as (s & Hs & Hse & Hso).
  assert (Hbase : forall self',
            IrregularTimeSamples.n self' = n -> t self' = start ->
            exists out, _base self' s = Ok (with_t self' out)
              /\ out = (if Py.Qltb m off
                        then map (fun x => x + (off - Qabs m)) pre else pre)).
  { intros self' En' Et'. unfold _base, _add_irregularities.
    rewrite En', Et', Hse, Hpre. simpl. unfold _normalize. simpl.
    rewrite Hm. simpl. rewrite Hso.
    destruct (Py.Qltb m off); eexists; split; reflexivity. }
  exists pre, m.
  assert (Hout : exists out, compute self struct clear kw d = Ok out
            /\ out = (if Py.Qltb m off
                      then map (fun x => x + (off - Qabs m)) pre else pre)).
  { unfold compute. rewrite Hs. simpl. rewrite Hslight.
    match goal with |- context [_base ?s' s] =>
      destruct (Hbase s') as (out & Hb & Ho) end.
    - now destruct clear.
    - destruct clear; simpl; [now rewrite En, Edt | reflexivity].
    - rewrite Hb. simpl. now exists out. }
  destruct Hout as (out & Hc & Ho). exists out.
  split; [exact Hpre|]. split; [exact Hm|]. split; [exact Hc|].
  split; [|split].
  - rewrite Ho. destruct (Py.Qltb m off); [rewrite length_map|]; lia.
  - intro Hle. rewrite Ho.
    destruct (Py.Qltb m off) eqn:E; [|reflexivity].
    apply Qltb_lt in E. lra.
  - intros [H0 Hlt]. rewrite Ho.
    assert (E : Py.Qltb m off = true) by now apply Qltb_lt.
    rewrite E.
    assert (Habs : Qabs m == m) by now apply Qabs_pos.
    split.
    + apply shifted_pointwise. now rewrite Habs.
    + exists (m + (off - Qabs m)). split; [now apply min_shift|].
      rewrite Habs. lra.
Qed.

End Generator.

(** C1, a grid whose minimum is not the offset.  With two timestamps,
    spacing [1], the default offset [0] and the jitter [0.1, 0], the
    recipe [slight] returns a grid whose minimum is [0.1]: the
    normalization moves a grid only when its minimum is below the offset. *)
Lemma compute_slight_minimum_above_offset :
  IrregularTimeSamples.__init__ 2 1 None = Ok two_ticks
  /\ exists out m,
       IrregularTimeSamples.compute two_ticks "slight" true jitter_up zero_draws
       = Ok out
       /\ length out = 2%nat
       /\ Py.min out = Ok m
       /\ ~ m == 0.
Proof.
  split; [reflexivity|].
  exists [0 * 1 + (1 # 10); 1 * 1 + 0], (0 * 1 + (1 # 10)).
  repeat split. intro H. vm_compute in H. discriminate.
Qed.

(** With the jitter [-0.1, 0] the minimum [-0.1] is below the offset [0],
    and [_normalize] adds [0 - abs(-0.1)]: the grid moves down and its
    minimum becomes [-0.2]. *)
Example compute_slight_negative_minimum :
  exists out m,
    IrregularTimeSamples.compute two_ticks "slight" true jitter_down zero_draws
    = Ok out
    /\ Py.min out = Ok m
    /\ m == - (2 # 10).
Proof.
  eexists. eexists. split; [vm_compute; reflexivity|].
  split; [vm_compute; reflexivity|]. reflexivity.
Qed.

Lemma compute_slight_normalized_witness :
  exists pre m out,
    IrregularTimeSamples.add_each 2 [0 * 1; 1 * 1] [1 # 10; 0] = Ok pre
    /\ Py.min pre = Ok m
    /\ IrregularTimeSamples.compute two_ticks "slight" true jitter_up_offset
         zero_draws = Ok out
    /\ length out = 2%nat
    /\ ((1 # 2) <= m -> out = pre)
    /\ (0 <= m < (1 # 2) ->
        Forall2 (fun x y => y == x + ((1 # 2) - m)) pre out
        /\ exists m', Py.min out = Ok m' /\ m' == (1 # 2)).
Proof.
  apply (compute_slight_normalized 2 1 None two_ticks "slight" true
           jitter_up_offset zero_draws).
  - reflexivity.
  - lia.
  - simpl. unfold Qle. simpl. lia.
  - simpl. lia.
  - reflexivity.
Defined.

Lemma check_nsst_iff_witness :
  is_max 4 [1; 2; 4]
  /\ exists b, check_nsst {| freq_value := [1; 2; 4]; _df := 1; _n_per_peak := 1 |} 2
               = Ok b
       /\ (b = true <-> 2 * 2 < 4)
       /\ (2 * 2 == 4 -> b = false).
Proof.
  assert (H : is_max 4 [1; 2; 4]).
  { split; [simpl; tauto|].
    intros x [<- | [<- | [<- | []]]]; unfold Qle; simpl; lia. }
  split; [exact H|].
  apply (check_nsst_iff {| freq_value := [1; 2; 4]; _df := 1; _n_per_peak := 1 |}
           2 4 H).
Defined.

Lemma FrequencySeries_eq_only_when_witness :
  ~ basic_df {| freq_value := [1]; _df := 1; _n_per_peak := 1 |}
    == basic_df {| freq_value := [1]; _df := 2; _n_per_peak := 1 |}
  /\ FrequencySeries_eq samples_eq
       {| fs_data := RealArray [3];
          _freqs := {| freq_value := [1]; _df := 1; _n_per_peak := 1 |};
          _epoch := 0 |}
       {| fs_data := RealArray [3];
          _freqs := {| freq_value := [1]; _df := 2; _n_per_peak := 1 |};
          _epoch := 0 |} = false.
Proof.
  assert (H : ~ basic_df {| freq_value := [1]; _df := 1; _n_per_peak := 1 |}
                == basic_df {| freq_value := [1]; _df := 2; _n_per_peak := 1 |}).
  { intro E. vm_compute in E. discriminate. }
  split; [exact H|].
  exact (proj2 (FrequencySeries_eq_only_when samples_eq
           {| fs_data := RealArray [3];
              _freqs := {| freq_value := [1]; _df := 1; _n_per_peak := 1 |};
              _epoch := 0 |}
           {| fs_data := RealArray [3];
              _freqs := {| freq_value := [1]; _df := 2; _n_per_peak := 1 |};
              _epoch := 0 |}) H).
Defined.

(** ** Sizing of the frequency grid *)

Lemma arange_nth (n : Z) (i : nat) :
  (i < Z.to_nat n)%nat ->
  nth_error (Py.arange n) i = Some (inject_Z (Z.of_nat i)).
Proof.
  intro H. unfold Py.arange. rewrite nth_error_map, nth_error_seq.
  apply Nat.ltb_lt in H. now rewrite H.
Qed.

(** C4, as the code has it.  For a grid built from a source time grid of
    positive duration and an oversampling factor that is not zero, with
    [maximum_frequency] given, or derived as
    [nyquist_factor * 0.5 * n / duration] when neither it nor [n_samples]
    is given: [samples_per_peak] defaults to 5,
    [df = 1 / duration / samples_per_peak], [minimum_frequency] defaults to
    0, and with [N = 1 + round((maximum_frequency - minimum_frequency) / df)]
    the grid has [N] entries when [N >= 0] and none when [N < 0]; entry [i]
    is [minimum_frequency + df * i], so that a grid which is not empty
    starts at [minimum_frequency]. *)
Theorem sizing_grid (input_time : list Q)
  (minimum_frequency maximum_frequency samples_per_peak : option Q)
  (nyquist_factor : Q) (n_samples : option Z) (df0 : option Q) (hi lo : Q) :
  Py.max input_time = Ok hi ->
  Py.min input_time = Ok lo ->
  lo < hi ->
  ~ match samples_per_peak with Some s => s | None => 5 end == 0 ->
  (maximum_frequency = None -> n_samples = None) ->
  let spp := match samples_per_peak with Some s => s | None => 5 end in
  let duration := hi - lo in
  let df := 1 / duration / spp in
  let minf := match minimum_frequency with Some m => m | None => 0 end in
  let maxf := match maximum_frequency with
              | Some M => M
              | None => nyquist_factor
                        * ((5 # 10) * inject_Z (Z.of_nat (length input_time))
                           / duration)
              end in
  let N := (1 + Py.round ((maxf - minf) / df))%Z in
  exists g,
    FrequencySamples_init None (Some input_time) minimum_frequency
      maximum_frequency samples_per_peak nyquist_factor n_samples df0 = Ok g
    /\ _n_per_peak g = spp
    /\ _df g = df
    /\ ((0 <= N)%Z -> Z.of_nat (length (freq_value g)) = N)
    /\ ((N < 0)%Z -> freq_value g = [])
    /\ (forall i, (i < length (freq_value g))%nat ->
          nth_error (freq_value g) i
          = Some (minf + df * inject_Z (Z.of_nat i)))
    /\ ((1 <= N)%Z ->
          exists f0, nth_error (freq_value g) 0 = Some f0 /\ f0 == minf).
Proof.
  intros Hhi Hlo Hdur Hspp Hscope spp duration df minf maxf N.
  assert (Hinit : FrequencySamples_init None (Some input_time) minimum_frequency
            maximum_frequency samples_per_peak nyquist_factor n_samples df0
          = Ok {| freq_value := map (fun i => minf + df * i) (Py.arange N);
                  _df := df; _n_per_peak := spp |}).
  { unfold FrequencySamples_init. rewrite Hhi, Hlo. simpl.
    destruct maximum_frequency as [M|]; [reflexivity|].
    rewrite (Hscope eq_refl). reflexivity. }
  eexists. split; [exact Hinit|]. cbn [freq_value _df _n_per_peak].
  assert (Hlen : length (map (fun i => minf + df * i) (Py.arange N)) = Z.to_nat N).
  { now rewrite length_map, arange_length. }
  repeat split.
  - intro HN. rewrite Hlen. now apply Z2Nat.id.
  - intro HN. apply length_zero_iff_nil. rewrite Hlen. lia.
  - intros i Hi. rewrite Hlen in Hi.
    rewrite nth_error_map, (arange_nth N i Hi). reflexivity.
  - intro HN. exists (minf + df * inject_Z (Z.of_nat 0)). split.
    + rewrite nth_error_map, (arange_nth N 0); [reflexivity | lia].
    + simpl. unfold inject_Z. lra.
Qed.

Lemma sizing_grid_witness :
  exists g,
    FrequencySamples_init None (Some [0; 1]) None (Some 1) None 2 None None = Ok g
    /\ _n_per_peak g = 5
    /\ _df g = 1 / (1 - 0) / 5
    /\ ((0 <= 1 + Py.round ((1 - 0) / (1 / (1 - 0) / 5)))%Z ->
        Z.of_nat (length (freq_value g))
        = (1 + Py.round ((1 - 0) / (1 / (1 - 0) / 5)))%Z)
    /\ ((1 + Py.round ((1 - 0) / (1 / (1 - 0) / 5)) < 0)%Z -> freq_value g = [])
    /\ (forall i, (i < length (freq_value g))%nat ->
          nth_error (freq_value g) i
          = Some (0 + 1 / (1 - 0) / 5 * inject_Z (Z.of_nat i)))
    /\ ((1 <= 1 + Py.round ((1 - 0) / (1 / (1 - 0) / 5)))%Z ->
          exists f0, nth_error (freq_value g) 0 = Some f0 /\ f0 == 0).
Proof.
  apply (sizing_grid [0; 1] None (Some 1) None 2 None None 1 0).
  - reflexivity.
  - reflexivity.
  - unfold Qlt. simpl. lia.
  - intro H. discriminate H.
  - discriminate.
Defined.

(** C4, a grid shorter than the formula.  For the time grid [0, 1] and
    [maximum_frequency = -1] the formula gives
    [1 + round(-1 / 0.2) = -4]; the grid that is built is empty, and it
    has no entry [0]. *)
Lemma sizing_grid_below_minimum :
  exists g,
    FrequencySamples_init None (Some [0; 1]) None (Some (- (1))) None 2 None None
    = Ok g
    /\ (1 + Py.round ((- (1) - 0) / (1 / (1 - 0) / 5)))%Z = (-4)%Z
    /\ length (freq_value g) = 0%nat
    /\ nth_error (freq_value g) 0 = None.
Proof.
  eexists. split; [vm_compute; reflexivity|]. repeat split.
Qed.

(** ** The refinement loop of [ts_nfft] *)

Section Refinement.
Context {nfft : Nfft}.

(** The loop ends: from [count] between 0 and 500, [501 - count] units of
    fuel are enough. *)
Lemma refinement_terminates (fuel : nat) : forall tol solv count,
  (0 <= count <= 500)%Z -> (Z.to_nat (501 - count) <= fuel)%nat ->
  exists r, refinement_loop fuel tol solv count = Some r.
Proof.
  induction fuel as [|fuel IH]; intros tol solv count Hc Hf; [lia|].
  simpl. destruct (Py.max (r_iter (loop_one_step solv))) as [r|e];
    [|eexists; reflexivity].
  destruct (Py.Qltb r tol); [eexists; reflexivity|].
  destruct (count =? 500)%Z eqn:E; [eexists; reflexivity|].
  apply Z.eqb_neq in E. apply IH; lia.
Qed.

(** When the loop is left, [count' - count + 1] steps have been made, and
    [count'] is at most 500. *)
Lemma refinement_steps (fuel : nat) : forall tol solv count solv' count',
  (count <= 500)%Z ->
  refinement_loop fuel tol solv count = Some (Ok (solv', count')) ->
  (count <= count' <= 500)%Z
  /\ solv' = Nat.iter (Z.to_nat (count' - count + 1)) loop_one_step solv.
Proof.
  induction fuel as [|fuel IH]; intros tol solv count solv' count' Hc H;
    [discriminate|].
  simpl in H. destruct (Py.max (r_iter (loop_one_step solv))) as [r|e];
    [|discriminate].
  assert (Hstop : Some (Ok (loop_one_step solv, count)) = Some (Ok (solv', count'))
                  -> (count <= count' <= 500)%Z
                     /\ solv' = Nat.iter (Z.to_nat (count' - count + 1))
                                         loop_one_step solv).
  { intro E. injection E as <- <-. split; [lia|].
    replace (count - count + 1)%Z with 1%Z by lia. reflexivity. }
  destruct (Py.Qltb r tol); [now apply Hstop|].
  destruct (count =? 500)%Z eqn:E; [now apply Hstop|].
  apply Z.eqb_neq in E.
  apply IH in H; [|lia]. destruct H as [Hle ->]. split; [lia|].
  replace (Z.to_nat (count' - count + 1))
    with (S (Z.to_nat (count' - (count + 1) + 1))) by lia.
  now rewrite Nat.iter_succ_r.
Qed.

(** The loop is left at once when the residual of a step is below the
    tolerance. *)
Lemma refinement_stops_early (fuel : nat) (tol : Q) (solv : solver) (count : Z) (r : Q) :
  Py.max (r_iter (loop_one_step solv)) = Ok r -> r < tol ->
  refinement_loop (S fuel) tol solv count = Some (Ok (loop_one_step solv, count)).
Proof.
  intros Hr Hlt. simpl. rewrite Hr.
  apply Qltb_lt in Hlt. now rewrite Hlt.
Qed.

(** A residual that stays at or above the tolerance is refined until the
    cap: from [count = 0] the 501st step is the last one. *)
Lemma refinement_at_cap (fuel : nat) : forall tol solv count,
  (0 <= count <= 500)%Z -> (Z.to_nat (501 - count) <= fuel)%nat ->
  (forall k, (1 <= k <= Z.to_nat (501 - count))%nat ->
     exists r, Py.max (r_iter (Nat.iter k loop_one_step solv)) = Ok r
               /\ tol <= r) ->
  refinement_loop fuel tol solv count
  = Some (Ok (Nat.iter (Z.to_nat (501 - count)) loop_one_step solv, 500%Z)).
Proof.
  induction fuel as [|fuel IH]; intros tol solv count Hc Hf Hres; [lia|].
  cbn [refinement_loop].
  destruct (Hres 1%nat) as (r & Hr & Hge); [lia|].
  cbn [Nat.iter nat_rect] in Hr. rewrite Hr.
  apply Qltb_ge in Hge. rewrite Hge.
  destruct (count =? 500)%Z eqn:E.
  - apply Z.eqb_eq in E. subst count. reflexivity.
  - apply Z.eqb_neq in E. rewrite IH; [| lia | lia |].
    + replace (Z.to_nat (501 - count))
        with (S (Z.to_nat (501 - (count + 1)))) by lia.
      now rewrite Nat.iter_succ_r.
    + intros k Hk. rewrite <- Nat.iter_succ_r. apply Hres. lia.
Qed.

End Refinement.

(** C5, the cap.  With a solver whose residual stays at [1] and the
    tolerance [0.6], the loop of [ts_nfft] makes 501 refinement steps
    before it stops with [count = 500]: 500 units of fuel do not reach the
    end of the loop, 501 do, and the coefficients that [ts_nfft] returns
    are those of the solver after its 501st step. *)
Theorem ts_nfft_cap_is_501_steps :
  @refinement_loop stalled_solver 500 (6 # 10) O 0 = None
  /\ @refinement_loop stalled_solver 501 (6 # 10) O 0 = Some (Ok (501%nat, 500%Z))
  /\ exists f,
       @ts_nfft stalled_solver 501 two_samples two_samples None (6 # 10) None
       = Some (Ok f)
       /\ fs_data f = RealArray [inject_Z 501; inject_Z 501].
Proof.
  split; [vm_compute; reflexivity|].
  split; [vm_compute; reflexivity|].
  eexists. split; vm_compute; reflexivity.
Qed.

(** ** Match against a time series *)

Section Match.
Context {regression_backend : Regression} {nfft : Nfft} {filter : MatchFilter}.

(** Without a regressor the regression is refused. *)
Lemma regression_needs_regressor (self series : TimeSeries)
  (frequencies : option FrequencySamples) :
  regression self series None frequencies
  = Raise (ValueError "need a Regressor object").
Proof. reflexivity. Qed.

(** A real series with at least one sample, converted with no keyword
    argument, is refused by the regression. *)
Lemma to_frequencyseries_default (fuel : nat) (t : TimeSeries) :
  kind (ts_data t) = real -> (1 <= len (ts_data t))%nat ->
  to_frequencyseries fuel t None "regression" None no_kwargs
  = Some (Raise (ValueError "need a Regressor object")).
Proof.
  intros Hk Hlen. unfold to_frequencyseries. rewrite Hk.
  unfold _return, TimeSeries_init.
  destruct (len (ts_data t) <? 1)%nat eqn:E; [apply Nat.ltb_lt in E; lia|].
  reflexivity.
Qed.

(** The test of the duration: the error of the tolerance is raised
    exactly when the relative deviation exceeds [tol]. *)
Lemma match_duration_error_iff (fuel : nat) (self : FrequencySeries)
  (t : TimeSeries) (psd : option Array) (tol d : Q) :
  kind (ts_data t) = real -> (1 <= len (ts_data t))%nat ->
  ts_duration t = Ok d ->
  FrequencySeries_match fuel self (ATimeSeries t) psd tol
  = Some (Raise (ValueError "duration of times is higher than given tolerance"))
  <-> tol < Qabs (d / fs_duration self - 1).
Proof.
  intros Hk Hlen Hd. unfold FrequencySeries_match. rewrite Hd.
  destruct (Py.Qltb tol (Qabs (d / fs_duration self - 1))) eqn:E.
  - apply Qltb_lt in E. tauto.
  - rewrite (to_frequencyseries_default fuel t Hk Hlen).
    apply Qltb_ge in E. split; [discriminate | lra].
Qed.

(** Two frequency series of different lengths are refused, and so is a
    PSD whose length is not that of the series. *)
Lemma match_lengths_enforced (fuel : nat) (self other : FrequencySeries)
  (psd : option Array) (tol : Q) :
  (len (fs_data other) <> len (fs_data self)
   \/ exists p, psd = Some p /\ len p <> len (fs_data self)) ->
  FrequencySeries_match fuel self (AFrequencySeries other) psd tol
  = Some (Raise AssertionError).
Proof.
  intro H. unfold FrequencySeries_match.
  destruct (len (fs_data other) =? len (fs_data self))%nat eqn:E; simpl;
    [|reflexivity].
  apply Nat.eqb_eq in E. destruct H as [H | (p & -> & Hp)]; [contradiction|].
  apply Nat.eqb_neq in Hp. now rewrite Hp.
Qed.

(** Within the tolerance, [match] goes on to the conversion, which is
    refused. *)
Lemma match_within_tolerance (fuel : nat) (self : FrequencySeries)
  (t : TimeSeries) (psd : option Array) (tol d : Q) :
  kind (ts_data t) = real ->
  (1 <= len (ts_data t))%nat ->
  ts_duration t = Ok d ->
  Qabs (d / fs_duration self - 1) <= tol ->
  FrequencySeries_match fuel self (ATimeSeries t) psd tol
  = Some (Raise (ValueError "need a Regressor object")).
Proof.
  intros Hk Hlen Hd Htol. unfold FrequencySeries_match. rewrite Hd.
  apply Qltb_ge in Htol. rewrite Htol.
  now rewrite (to_frequencyseries_default fuel t Hk Hlen).
Qed.

(** C10.  For a real time series with at least one sample whose duration
    is within the tolerance of the duration of the frequency series,
    [match] raises the error of the missing regressor, and so reaches no
    similarity score: the conversion is called with no keyword argument,
    the default method is the regression, and the regression refuses a
    missing regressor whatever its other arguments are. *)
Theorem match_time_series_always_raises (fuel : nat) (self : FrequencySeries)
  (t : TimeSeries) (psd : option Array) (tol d : Q) :
  kind (ts_data t) = real ->
  (1 <= len (ts_data t))%nat ->
  ts_duration t = Ok d ->
  Qabs (d / fs_duration self - 1) <= tol ->
  FrequencySeries_match fuel self (ATimeSeries t) psd tol
  = Some (Raise (ValueError "need a Regressor object")).
Proof. exact (match_within_tolerance fuel self t psd tol d). Qed.

End Match.

Lemma match_time_series_always_raises_witness :
  kind (ts_data two_samples) = real
  /\ (1 <= len (ts_data two_samples))%nat
  /\ ts_duration two_samples = Ok ((3 # 2) - 0)
  /\ Qabs (((3 # 2) - 0) / fs_duration unit_spectrum - 1) <= 6 # 10
  /\ @FrequencySeries_match identity_regression stalled_solver constant_filter
       O unit_spectrum (ATimeSeries two_samples) None (6 # 10)
     = Some (Raise (ValueError "need a Regressor object")).
Proof.
  assert (H : Qabs (((3 # 2) - 0) / fs_duration unit_spectrum - 1) <= 6 # 10).
  { vm_compute. discriminate. }
  split; [reflexivity|]. split; [simpl; lia|]. split; [reflexivity|].
  split; [exact H|].
  apply (@match_time_series_always_raises identity_regression stalled_solver
           constant_filter O unit_spectrum two_samples None (6 # 10)
           ((3 # 2) - 0)); [reflexivity | simpl; lia | reflexivity | exact H].
Defined.

(** C6, at the boundary.  The frequency series has duration [1], the
    time series duration [1.5] and the tolerance is [0.5]: the relative
    deviation equals the tolerance, the error of the tolerance is not
    raised, and yet [match] raises: the conversion that follows the test
    asks for a regression and passes no regressor. *)
Theorem match_raises_at_tolerance_boundary
  (regression_backend : Regression) (nfft : Nfft) (filter : MatchFilter)
  (fuel : nat) :
  ts_duration two_samples = Ok ((3 # 2) - 0)
  /\ Qabs (((3 # 2) - 0) / fs_duration unit_spectrum - 1) == 1 # 2
  /\ FrequencySeries_match fuel unit_spectrum (ATimeSeries two_samples) None (1 # 2)
     = Some (Raise (ValueError "need a Regressor object")).
Proof.
  split; [reflexivity|]. split; [reflexivity|].
  apply (match_within_tolerance fuel unit_spectrum two_samples None (1 # 2)
           ((3 # 2) - 0)); [reflexivity | simpl; lia | reflexivity |].
  vm_compute. discriminate.
Qed.

(** ** The periodogram on a grid with a zero *)

Lemma tbind_ok {A B : Type} (calls : list (list Q)) (a : A)
  (f : A -> traced B) :
  tbind (calls, Ok a) f = (calls ++ fst (f a), snd (f a)).
Proof. simpl. now destruct (f a). Qed.

Lemma tbind_lift_ok {A B : Type} (a : A) (f : A -> traced B) :
  tbind (lift (Ok a)) f = f a.
Proof. unfold lift. rewrite tbind_ok. now destruct (f a). Qed.

Lemma mul_ok (a w : list Q) :
  length a = length w -> exists r, Py.mul a w = Ok r /\ length r = length a.
Proof.
  intro H. unfold Py.mul. rewrite H, Nat.eqb_refl.
  eexists. split; [reflexivity|].
  rewrite length_map, length_combine. lia.
Qed.

Lemma add_ok (a b : list Q) :
  length a = length b -> exists r, Py.add a b = Ok r /\ length r = length a.
Proof.
  intro H. unfold Py.add. rewrite H, Nat.eqb_refl.
  eexists. split; [reflexivity|].
  rewrite length_map, length_combine. lia.
Qed.

Lemma imul_ok (a : Array) (w : list Q) :
  length w = len a -> exists r, imul a w = Ok r /\ len r = len a /\ kind r = kind a.
Proof.
  intro H. destruct a as [v|v]; simpl in *.
  - destruct (mul_ok v w) as (r & Hr & Hl); [lia|].
    rewrite Hr. simpl. eexists. split; [reflexivity|]. simpl. auto.
  - destruct (mul_ok (map fst v) w) as (re & Hre & Hlre);
      [rewrite length_map; lia|].
    destruct (mul_ok (map snd v) w) as (im & Him & Hlim);
      [rewrite length_map; lia|].
    rewrite Hre. simpl. rewrite Him. simpl.
    eexists. split; [reflexivity|]. simpl. split; [|reflexivity].
    rewrite length_combine, Hlre, Hlim, !length_map. lia.
Qed.

Lemma assign_span_ok (span : nat) (values : list Q) :
  length values = span -> assign_span span values = Ok values.
Proof. intro H. unfold assign_span. now rewrite H, Nat.eqb_refl. Qed.

Lemma Qabs_nonzero (f : Q) : nonzero f -> nonzero (Qabs f).
Proof.
  unfold nonzero. intros H E. apply H.
  destruct (Qlt_le_dec f 0) as [L|L].
  - rewrite Qabs_neg in E by lra. lra.
  - rewrite Qabs_pos in E by lra. exact E.
Qed.

Lemma first_zero_split (neg pos : list Q) (z0 : Q) :
  Forall nonzero neg -> z0 == 0 ->
  first_zero (neg ++ z0 :: pos) = length neg
  /\ existsb (fun x => Qeq_bool x 0) (neg ++ z0 :: pos) = true.
Proof.
  intros Hneg Hz. induction Hneg as [|x r Hx Hr IH]; simpl.
  - apply Qeq_bool_iff in Hz. rewrite Hz. auto.
  - destruct (Qeq_bool x 0) eqn:E.
    + apply Qeq_bool_iff in E. contradiction.
    + destruct IH as [-> ->]. auto.
Qed.

Lemma zero_idx_split (self : FrequencySamples) (neg pos : list Q) (z0 : Q) :
  freq_value self = neg ++ z0 :: pos ->
  Forall nonzero neg -> z0 == 0 ->
  zero_idx self = Some (length neg).
Proof.
  intros Hg Hneg Hz. unfold zero_idx, has_zero. rewrite Hg.
  destruct (first_zero_split neg pos z0 Hneg Hz) as [-> ->]. reflexivity.
Qed.

Section Spectrum.
Context {kernel : Periodogram} {taper : Window}.

(** C2, as the code has it.  The grid has its only zero at index
    [z = length neg], the kernel returns one power for each frequency and
    the window has the length of the data.  Then [lomb_scargle] calls the
    kernel on the frequencies above the zero and, when [z > 0], on the
    magnitudes of the frequencies below it, reversed, never on the
    frequency zero; it writes the powers into their spans, and the bin at
    [z] is the least of the powers written below it when [z > 0], the
    least of all the other powers when [z = 0]; every bin is then divided
    by the power of the taper.  ([left] is empty when [z = 0].) *)
Theorem lomb_scargle_zero_bin (self : FrequencySamples) (times : list Q)
  (data : Array) (norm : string) (neg pos : list Q) (z0 e : Q) :
  one_power_per_frequency ->
  window_fits ->
  Py.min times = Ok e ->
  freq_value self = neg ++ z0 :: pos ->
  z0 == 0 ->
  Forall nonzero neg ->
  Forall nonzero pos ->
  (neg = [] -> pos <> []) ->
  let window := tukey (len data) (1 # 8) in
  let W := taper_power window in
  let right := power norm times data window pos in
  let left := rev (power norm times data window (map Qabs (rev neg))) in
  let run := lomb_scargle self times data "astropy" norm in
  exists m,
    Py.min (match neg with [] => right | _ => left end) = Ok m
    /\ fst run = match neg with
                 | [] => [pos]
                 | _ => [pos; map Qabs (rev neg)]
                 end
    /\ Forall (Forall nonzero) (fst run)
    /\ snd run = Ok {| fs_data := RealArray (map (fun p => p / W)
                                               (left ++ m :: right));
                       _freqs := self;
                       _epoch := e |}
    /\ nth_error (left ++ m :: right) (length neg) = Some m.
Proof.
  intros Hpow Hwin He Hg Hz Hneg Hpos Hne window W right left run.
  pose proof (zero_idx_split self neg pos z0 Hg Hneg Hz) as Hidx.
  destruct (imul_ok data window) as (tapered & Htap & _); [apply Hwin|].
  assert (Hright : length right = length pos) by apply Hpow.
  assert (Hleft : length left = length neg).
  { unfold left. now rewrite length_rev, Hpow, length_map, length_rev. }
  assert (Hmin : exists m, Py.min (match neg with [] => right | _ => left end)
                           = Ok m).
  { apply min_nonempty. destruct neg as [|a neg'].
    - intro E. rewrite E in Hright. simpl in Hright.
      apply (Hne eq_refl). now apply length_zero_iff_nil.
    - intro E. rewrite E in Hleft. discriminate. }
  destruct Hmin as [m Hm]. exists m. split; [exact Hm|].
  assert (Hinit : FrequencySeries_init
                    (RealArray (map (fun p => p / W) (left ++ m :: right)))
                    self e
                  = Ok {| fs_data := RealArray (map (fun p => p / W)
                                                  (left ++ m :: right));
                          _freqs := self; _epoch := e |}).
  { unfold FrequencySeries_init. simpl len.
    rewrite length_map, length_app. simpl length.
    rewrite Hg, length_app. simpl length. rewrite Hleft, Hright.
    destruct (length neg + S (length pos) <? 1)%nat eqn:E;
      [apply Nat.ltb_lt in E; lia|].
    destruct (min_nonempty (neg ++ z0 :: pos)) as [g0 Hg0];
      [now destruct neg|].
    rewrite Hg0. simpl. now rewrite Nat.eqb_refl. }
  assert (Hrun : fst run = match neg with
                           | [] => [pos]
                           | _ => [pos; map Qabs (rev neg)]
                           end
                 /\ snd run = Ok {| fs_data := RealArray (map (fun p => p / W)
                                                  (left ++ m :: right));
                                    _freqs := self; _epoch := e |}).
  { assert (Hpair : run
              = (match neg with
                 | [] => [pos]
                 | _ => [pos; map Qabs (rev neg)]
                 end,
                 Ok {| fs_data := RealArray (map (fun p => p / W)
                                               (left ++ m :: right));
                       _freqs := self; _epoch := e |})).
    2:{ rewrite Hpair. split; reflexivity. }
    unfold run, lomb_scargle.
    change (negb (String.eqb "astropy" "astropy")) with false. cbv iota.
    fold window. fold W. rewrite Hidx, Hg, Htap, tbind_lift_ok.
    destruct neg as [|a neg'].
    - assert (Hl0 : left = []) by (apply length_zero_iff_nil; exact Hleft).
      rewrite Hl0 in Hinit. rewrite Hl0.
      change (length (@nil Q)) with O. cbv iota.
      change (skipn 1 ([] ++ z0 :: pos)) with pos.
      unfold lomb_power. fold right. rewrite tbind_ok.
      rewrite assign_span_ok by (simpl; lia).
      rewrite tbind_lift_ok, Hm, tbind_lift_ok.
      unfold lift. cbn [fst snd]. rewrite tbind_ok.
      rewrite He, tbind_ok. cbn [fst snd app]. cbn [app] in Hinit.
      now rewrite Hinit.
    - assert (Hfirst : firstn (length (a :: neg')) ((a :: neg') ++ z0 :: pos)
                       = a :: neg').
      { rewrite firstn_app, firstn_all, Nat.sub_diag. simpl.
        now rewrite app_nil_r. }
      assert (Hskip : skipn (length (a :: neg') + 1) ((a :: neg') ++ z0 :: pos)
                      = pos).
      { rewrite skipn_app.
        rewrite skipn_all2 by lia.
        replace (length (a :: neg') + 1 - length (a :: neg'))%nat with 1%nat
          by lia.
        reflexivity. }
      change (length (a :: neg')) with (S (length neg')) at 1. cbv iota.
      change (S (length neg')) with (length (a :: neg')).
      rewrite Hfirst, Hskip.
      unfold lomb_power. fold right. rewrite tbind_ok. cbn [fst snd].
      rewrite tbind_ok. cbn [fst snd]. fold left.
      rewrite assign_span_ok by exact Hleft.
      rewrite tbind_lift_ok, Hm, tbind_lift_ok.
      rewrite assign_span_ok
        by (rewrite Hright, length_app; simpl; lia).
      rewrite tbind_lift_ok.
      unfold lift. cbn [fst snd]. rewrite tbind_ok.
      rewrite He, tbind_ok. cbn [fst snd].
      rewrite Hinit. reflexivity. }
  destruct Hrun as [Hfst Hsnd].
  split; [exact Hfst|]. split; [|split; [exact Hsnd|]].
  - rewrite Hfst. destruct neg as [|a neg'].
    + constructor; [exact Hpos | constructor].
    + constructor; [exact Hpos|]. constructor; [|constructor].
      apply Forall_map. apply Forall_rev.
      eapply Forall_impl; [|exact Hneg]. intros f Hf. now apply Qabs_nonzero.
  - rewrite nth_error_app2 by lia. rewrite Hleft, Nat.sub_diag. reflexivity.
Qed.

End Spectrum.

Lemma reciprocal_kernel_contract : @one_power_per_frequency reciprocal_kernel.
Proof. intros norm times data window freqs. apply length_map. Qed.

Lemma rectangular_fits : @window_fits rectangular.
Proof. intros M alpha. apply repeat_length. Qed.

Lemma lomb_scargle_zero_bin_witness :
  Forall (Forall nonzero)
    (fst (@lomb_scargle reciprocal_kernel rectangular low_high_grid [0; 1; 2]
            (RealArray [1; 1; 1]) "astropy" "psd"))
  /\ exists m,
       snd (@lomb_scargle reciprocal_kernel rectangular low_high_grid [0; 1; 2]
              (RealArray [1; 1; 1]) "astropy" "psd")
       = Ok {| fs_data :=
                 RealArray
                   (map (fun p => p / taper_power (@tukey rectangular 3 (1 # 8)))
                      (rev (@power reciprocal_kernel "psd" [0; 1; 2]
                              (RealArray [1; 1; 1]) (@tukey rectangular 3 (1 # 8))
                              (map Qabs (rev [- (2); - (1)])))
                       ++ m :: @power reciprocal_kernel "psd" [0; 1; 2]
                                 (RealArray [1; 1; 1])
                                 (@tukey rectangular 3 (1 # 8)) [3]));
               _freqs := low_high_grid;
               _epoch := 0 |}.
Proof.
  destruct (@lomb_scargle_zero_bin reciprocal_kernel rectangular low_high_grid
              [0; 1; 2] (RealArray [1; 1; 1]) "psd" [- (2); - (1)] [3] 0 0)
    as (m & _ & _ & Hcalls & Hrun & _).
  - exact reciprocal_kernel_contract.
  - exact rectangular_fits.
  - reflexivity.
  - reflexivity.
  - reflexivity.
  - repeat constructor; intro H; discriminate H.
  - repeat constructor; intro H; discriminate H.
  - discriminate.
  - split; [exact Hcalls|]. exists m. exact Hrun.
Defined.

(** C2, two grids on which the statement fails.  On the grid [0, 0, 1]
    the zero index is 0 and the kernel is called on [0, 1]: it is invoked
    at the frequency zero.  On the grid [-2, -1, 0, 3], with a kernel
    whose power at [f] is [1 / f], the bin at the zero is [1/2], the
    least power below the zero, while its right neighbour holds [1/3]:
    the bin is not the least of its neighbours. *)
Lemma lomb_scargle_zero_bin_not_least_neighbour :
  (zero_idx double_zero_grid = Some O
   /\ In 0 (concat (fst (@lomb_scargle reciprocal_kernel rectangular
                           double_zero_grid [0; 1; 2] (RealArray [1; 1; 1])
                           "astropy" "psd"))))
  /\ (zero_idx low_high_grid = Some 2%nat
      /\ exists f bins at_zero right_neighbour,
           snd (@lomb_scargle reciprocal_kernel rectangular low_high_grid
                  [0; 1; 2] (RealArray [1; 1; 1]) "astropy" "psd") = Ok f
           /\ fs_data f = RealArray bins
           /\ nth_error bins 2 = Some at_zero
           /\ nth_error bins 3 = Some right_neighbour
           /\ at_zero == 1 # 2
           /\ right_neighbour == 1 # 3
           /\ right_neighbour < at_zero).
Proof.
  split.
  - split; [reflexivity|]. vm_compute. left. reflexivity.
  - split; [reflexivity|].
    eexists. eexists. eexists. eexists.
    split; [vm_compute; reflexivity|].
    split; [reflexivity|].
    split; [reflexivity|].
    split; [reflexivity|].
    split; [reflexivity|].
    split; [reflexivity|].
    reflexivity.
Qed.

(** ** Slices of a time series *)

Lemma argmin_from_keep (l : list Q) : forall best besti i,
  (forall y, In y l -> best <= y) -> Py.argmin_from best besti i l = besti.
Proof.
  induction l as [|x r IH]; intros best besti i H; simpl; [reflexivity|].
  destruct (Py.Qltb x best) eqn:E.
  - apply Qltb_lt in E. specialize (H x (or_introl eq_refl)). lra.
  - apply IH. intros y Hy. apply H. now right.
Qed.

Lemma argmin_from_first_zero (l1 : list Q) : forall l2 z best besti i,
  0 < best -> (forall y, In y l1 -> 0 < y) -> z == 0 ->
  (forall y, In y l2 -> 0 <= y) ->
  Py.argmin_from best besti i (l1 ++ z :: l2) = (i + length l1)%nat.
Proof.
  induction l1 as [|x r IH]; intros l2 z best besti i Hb H1 Hz H2; simpl.
  - assert (E : Py.Qltb z best = true) by (apply Qltb_lt; lra).
    rewrite E. rewrite argmin_from_keep; [lia|].
    intros y Hy. specialize (H2 y Hy). lra.
  - assert (Hx : 0 < x) by (apply H1; now left).
    assert (Hr : forall y, In y r -> 0 < y) by (intros y Hy; apply H1; now right).
    destruct (Py.Qltb x best); rewrite IH; auto; simpl; lia.
Qed.

Lemma Qabs_distance_pos (x t : Q) : ~ x == t -> 0 < Qabs (x - t).
Proof.
  intro H. destruct (Qlt_le_dec (x - t) 0) as [L|L].
  - rewrite Qabs_neg by lra. lra.
  - rewrite Qabs_pos by lra.
    destruct (Qlt_le_dec 0 (x - t)) as [L'|L']; [exact L'|].
    exfalso. apply H. lra.
Qed.

(** Among pairwise different timestamps, the one closest to the
    timestamp at index [k] is at index [k]. *)
Lemma argmin_distance (times : list Q) (k : nat) (tk : Q) :
  distinct times -> nth_error times k = Some tk ->
  Py.argmin (map (fun x => Qabs (x - tk)) times) = Ok k.
Proof.
  intros Hd Hk.
  destruct (nth_error_split times k Hk) as (l1 & l2 & Heq & Hlen).
  assert (H1 : forall y, In y l1 -> ~ y == tk).
  { intros y Hy E. destruct (In_nth_error l1 y Hy) as [i Hi].
    assert (Hi' : nth_error times i = Some y).
    { rewrite Heq, nth_error_app1; [exact Hi|].
      apply nth_error_Some. congruence. }
    pose proof (Hd i k y tk Hi' Hk E) as Eik.
    assert (i < length l1)%nat by (apply nth_error_Some; congruence).
    lia. }
  assert (Hz : Qabs (tk - tk) == 0).
  { rewrite Qabs_pos; lra. }
  assert (H2 : forall y, In y (map (fun x => Qabs (x - tk)) l2) -> 0 <= y).
  { intros y Hy. apply in_map_iff in Hy. destruct Hy as (x & <- & _).
    apply Qabs_nonneg. }
  rewrite Heq, map_app. cbn [map].
  destruct l1 as [|x r]; cbn [map app Py.argmin].
  - f_equal. rewrite argmin_from_keep; [simpl in Hlen; lia|].
    intros y Hy. specialize (H2 y Hy). lra.
  - f_equal. rewrite argmin_from_first_zero; auto.
    + rewrite length_map. simpl in Hlen. lia.
    + apply Qabs_distance_pos. apply H1. now left.
    + intros y Hy. apply in_map_iff in Hy. destruct Hy as (x' & <- & Hx').
      apply Qabs_distance_pos. apply H1. now right.
Qed.

Lemma get_time_slice_indices (data : TimeSeries) (i j : nat) (ti tj : Q) :
  distinct (times_value (_times data)) ->
  nth_error (times_value (_times data)) i = Some ti ->
  nth_error (times_value (_times data)) j = Some tj ->
  get_time_slice data ti tj = _getslice data i j.
Proof.
  intros Hd Hi Hj. unfold get_time_slice.
  rewrite (argmin_distance _ i ti Hd Hi). cbn [bind].
  rewrite (argmin_distance _ j tj Hd Hj). reflexivity.
Qed.

Lemma index_nat {A : Type} (l : list A) (i : nat) (x : A) :
  nth_error l i = Some x -> Py.index l (Z.of_nat i) = Ok x.
Proof.
  intro H. unfold Py.index.
  assert (i < length l)%nat by (apply nth_error_Some; congruence).
  destruct (Z.of_nat i <? 0)%Z eqn:E; [apply Z.ltb_lt in E; lia|].
  destruct ((0 <=? Z.of_nat i)%Z && (Z.of_nat i <? Z.of_nat (length l))%Z) eqn:E'.
  - now rewrite Nat2Z.id, H.
  - apply andb_false_iff in E'. destruct E' as [E'|E'].
    + apply Z.leb_gt in E'. lia.
    + apply Z.ltb_ge in E'. lia.
Qed.

Lemma nth_error_defined {A : Type} (l : list A) (i : nat) :
  (i < length l)%nat -> exists x, nth_error l i = Some x.
Proof.
  intro H. destruct (nth_error l i) eqn:E; [eauto|].
  apply nth_error_None in E. lia.
Qed.

Lemma slice_length {A : Type} (l : list A) (i j : nat) :
  length (Py.slice l i j) = Nat.min (j - i) (length l - i).
Proof. unfold Py.slice. now rewrite length_firstn, length_skipn. Qed.

Lemma getslice_len (a : Array) (i j : nat) :
  len (getslice a i j) = Nat.min (j - i) (len a - i).
Proof. destruct a; simpl; apply slice_length. Qed.

Lemma getslice_ok (data : TimeSeries) (i j : nat) :
  (i < j)%nat -> (i < len (ts_data data))%nat ->
  _getslice data i j
  = Ok {| ts_data := getslice (ts_data data) i j;
          _times := TimesSamples_of_array
                      (Py.slice (times_value (_times data)) i j) |}.
Proof.
  intros Hij Hi. unfold _getslice, TimeSeries_init.
  rewrite getslice_len.
  destruct (Nat.min (j - i) (len (ts_data data) - i) <? 1)%nat eqn:E;
    [apply Nat.ltb_lt in E; lia | reflexivity].
Qed.

(** ** The segmented estimator *)

Lemma first_zero_lt (l : list Q) :
  existsb (fun x => Qeq_bool x 0) l = true -> (first_zero l < length l)%nat.
Proof.
  induction l as [|x r IH]; simpl; [discriminate|].
  destruct (Qeq_bool x 0); simpl; [lia|].
  intro H. specialize (IH H). lia.
Qed.

Lemma FrequencySeries_init_ok (a : Array) (self : FrequencySamples) (e : Q) :
  (1 <= len a)%nat -> len a = length (freq_value self) ->
  FrequencySeries_init a self e
  = Ok {| fs_data := a; _freqs := self; _epoch := e |}.
Proof.
  intros H1 Hlen. unfold FrequencySeries_init.
  destruct (len a <? 1)%nat eqn:E; [apply Nat.ltb_lt in E; lia|].
  destruct (min_nonempty (freq_value self)) as [g0 Hg0].
  { intro E0. rewrite E0 in Hlen. simpl in Hlen. lia. }
  rewrite Hg0. cbn [bind]. now rewrite Hlen, Nat.eqb_refl.
Qed.

Lemma int_of_integer (z : Z) : Py.int (inject_Z z * 1) = z.
Proof.
  unfold Py.int. simpl. rewrite Z.mul_1_r. apply Z.quot_1_r.
Qed.

Lemma ceil_div_zero (d : nat) : (0 < d)%nat -> ceil_div 0 d = O.
Proof. intro H. unfold ceil_div. apply Nat.div_small. lia. Qed.

Lemma ceil_div_step (x d : nat) :
  (0 < d)%nat -> (0 < x)%nat -> ceil_div x d = S (ceil_div (x - d) d).
Proof.
  intros Hd Hx. unfold ceil_div.
  destruct (Nat.le_gt_cases d x) as [L|L].
  - replace (x + d - 1)%nat with ((x - d + d - 1) + 1 * d)%nat by lia.
    rewrite Nat.div_add by lia. lia.
  - replace (x - d)%nat with O by lia. simpl.
    rewrite (Nat.div_small (d - 1) d) by lia.
    replace (x + d - 1)%nat with ((x - 1) + 1 * d)%nat by lia.
    rewrite Nat.div_add by lia.
    rewrite (Nat.div_small (x - 1) d) by lia. reflexivity.
Qed.

(** [ceil_div a b] is the least [k] with [a <= k * b]. *)
Lemma ceil_div_least (a b : nat) :
  (0 < b)%nat ->
  (a <= ceil_div a b * b)%nat
  /\ forall k, (a <= k * b)%nat -> (ceil_div a b <= k)%nat.
Proof.
  intro Hb. unfold ceil_div. split.
  - pose proof (Nat.div_mod (a + b - 1) b ltac:(lia)) as E.
    pose proof (Nat.mod_upper_bound (a + b - 1) b ltac:(lia)) as U. nia.
  - intros k Hk. apply Nat.lt_succ_r.
    apply Nat.Div0.div_lt_upper_bound. nia.
Qed.

Lemma segments_from_succ (i d k : nat) :
  segments_from i d (S k) = (i, (i + d)%nat) :: segments_from (i + d) d k.
Proof.
  unfold segments_from. rewrite <- cons_seq, <- seq_shift. simpl.
  rewrite Nat.add_0_r. f_equal. rewrite map_map.
  apply map_ext. intro q. f_equal; lia.
Qed.

Lemma segments_from_length (i d k : nat) : length (segments_from i d k) = k.
Proof. unfold segments_from. now rewrite length_map, length_seq. Qed.

Lemma segments_from_bounds (d k : nat) : forall i a b,
  In (a, b) (segments_from i d k) ->
  exists q, (q < k)%nat /\ a = (i + q * d)%nat /\ b = (a + d)%nat.
Proof.
  intros i a b H. unfold segments_from in H.
  apply in_map_iff in H. destruct H as (q & E & Hq).
  apply in_seq in Hq. injection E as <- <-. exists q. lia.
Qed.

Section Welch.
Context {kernel : Periodogram} {taper : Window}.
Hypothesis kernel_contract : one_power_per_frequency.
Hypothesis window_contract : window_fits.

Lemma lomb_scargle_ok (self : FrequencySamples) (times : list Q) (data : Array)
  (norm : string) (e : Q) :
  Py.min times = Ok e -> estimable self ->
  exists bins,
    snd (lomb_scargle self times data "astropy" norm)
    = Ok {| fs_data := RealArray bins; _freqs := self; _epoch := e |}
    /\ length bins = length (freq_value self).
Proof.
  intros He Hest.
  destruct (imul_ok data (tukey (len data) (1 # 8))) as (tapered & Htap & _);
    [apply window_contract|].
  set (window := tukey (len data) (1 # 8)) in *.
  set (grid := freq_value self) in *.
  assert (Hgrid : (1 <= length grid)%nat).
  { unfold estimable in Hest. fold grid in Hest.
    destruct grid; [contradiction | simpl; lia]. }
  assert (Hbins : exists calls bins,
    match zero_idx self with
    | Some O =>
        tail <~ lomb_power norm times data window (skipn 1 grid) ;;
        tail <~ lift (assign_span (length grid - 1) tail) ;;
        m <~ lift (Py.min tail) ;;
        lift (Ok (m :: tail))
    | Some zero_idx =>
        right_psd <~ lomb_power norm times data window
                       (skipn (zero_idx + 1) grid) ;;
        left_psd <~ lomb_power norm times data window
                      (map Qabs (rev (firstn zero_idx grid))) ;;
        left <~ lift (assign_span zero_idx (rev left_psd)) ;;
        m <~ lift (Py.min left) ;;
        right <~ lift (assign_span (length grid - (zero_idx + 1)) right_psd) ;;
        lift (Ok (left ++ m :: right))
    | None => lomb_power norm times data window (map Qabs grid)
    end = (calls, Ok bins) /\ length bins = length grid).
  { unfold zero_idx. fold grid. destruct (has_zero self) eqn:Ez.
    - pose proof (first_zero_lt grid Ez) as Hlt.
      destruct (first_zero grid) as [|k] eqn:Ek.
      + assert (H2 : (2 <= length grid)%nat).
        { unfold estimable in Hest. fold grid in Hest.
          destruct grid as [|x [|y r]]; simpl; try lia.
          simpl in Ek. destruct (Qeq_bool x 0) eqn:Ex; [|discriminate].
          apply Qeq_bool_iff in Ex. contradiction. }
        set (tail := power norm times data window (skipn 1 grid)).
        assert (Htail : length tail = (length grid - 1)%nat).
        { unfold tail. now rewrite kernel_contract, length_skipn. }
        destruct (min_nonempty tail) as [m Hm].
        { intro E. rewrite E in Htail. simpl in Htail. lia. }
        exists [skipn 1 grid], (m :: tail). split.
        * unfold lomb_power. fold tail. rewrite tbind_ok.
          rewrite assign_span_ok by exact Htail.
          rewrite tbind_lift_ok, Hm, tbind_lift_ok. reflexivity.
        * simpl. lia.
      + set (z := S k) in *.
        set (right := power norm times data window (skipn (z + 1) grid)).
        set (left := rev (power norm times data window
                            (map Qabs (rev (firstn z grid))))).
        assert (Hright : length right = (length grid - (z + 1))%nat).
        { unfold right. now rewrite kernel_contract, length_skipn. }
        assert (Hleft : length left = z).
        { unfold left.
          rewrite length_rev, kernel_contract, length_map, length_rev,
            length_firstn. lia. }
        destruct (min_nonempty left) as [m Hm].
        { intro E. rewrite E in Hleft. unfold z in Hleft. discriminate. }
        exists [skipn (z + 1) grid; map Qabs (rev (firstn z grid))],
               (left ++ m :: right). split.
        * unfold z at 1. cbv iota zeta. fold z.
          unfold lomb_power. fold right. rewrite tbind_ok. cbn [fst snd].
          rewrite tbind_ok. cbn [fst snd]. fold left.
          rewrite assign_span_ok by exact Hleft.
          rewrite tbind_lift_ok, Hm, tbind_lift_ok.
          rewrite assign_span_ok by exact Hright.
          rewrite tbind_lift_ok. reflexivity.
        * rewrite length_app. simpl. lia.
    - exists [map Qabs grid], (power norm times data window (map Qabs grid)).
      split; [reflexivity|]. now rewrite kernel_contract, length_map. }
  destruct Hbins as (calls & bins & Hrun & Hlen).
  exists (map (fun p => p / taper_power window) bins).
  split; [|now rewrite length_map].
  unfold lomb_scargle.
  change (negb (String.eqb "astropy" "astropy")) with false. cbv iota.
  fold window. fold grid. rewrite Htap, tbind_lift_ok.
  rewrite Hrun, tbind_ok. unfold lift. rewrite He, tbind_ok. cbn [fst snd].
  apply FrequencySeries_init_ok; simpl; rewrite length_map; unfold grid in *; lia.
Qed.

Lemma segment_periodogram_ok (self : FrequencySamples) (data : TimeSeries)
  (i j : nat) :
  estimable self -> (i < j)%nat -> (i < len (ts_data data))%nat ->
  (i < length (times_value (_times data)))%nat ->
  exists bins,
    segment_periodogram self data i j = Ok (RealArray bins)
    /\ length bins = length (freq_value self).
Proof.
  intros Hest Hij Hi Hti. unfold segment_periodogram.
  rewrite getslice_ok by assumption. cbn [bind ts_data _times].
  set (seg := getslice (ts_data data) i j).
  destruct (imul_ok seg (tukey (len seg) (1 # 8))) as (tapered & Htap & _);
    [apply window_contract|].
  rewrite Htap. cbn [bind]. unfold psd. cbn [ts_data _times times_value].
  destruct (min_nonempty (Py.slice (times_value (_times data)) i j)) as [e He].
  { intro E. apply (f_equal (@length Q)) in E.
    rewrite slice_length in E. simpl in E. lia. }
  unfold TimesSamples_of_array. cbn [times_value].
  destruct (lomb_scargle_ok self _ tapered "psd" e He Hest) as (bins & Hb & Hl).
  rewrite Hb. cbn [bind fs_data div_scalar].
  eexists. split; [reflexivity|]. now rewrite length_map.
Qed.

Lemma welch_sum_app (self : FrequencySamples) (data : TimeSeries)
  (s1 s2 : list (nat * nat)) : forall acc,
  welch_sum self data (s1 ++ s2) acc
  = (acc' <- welch_sum self data s1 acc ;; welch_sum self data s2 acc').
Proof.
  induction s1 as [|[i j] r IH]; intro acc; simpl; [reflexivity|].
  destruct (segment_periodogram self data i j) as [q|e]; simpl; [|reflexivity].
  destruct (iadd acc q) as [acc'|e]; simpl; [apply IH | reflexivity].
Qed.

Lemma welch_sum_ok (self : FrequencySamples) (data : TimeSeries)
  (segments : list (nat * nat)) : forall acc,
  estimable self ->
  (forall a b, In (a, b) segments ->
     (a < b)%nat /\ (a < len (ts_data data))%nat
     /\ (a < length (times_value (_times data)))%nat) ->
  length acc = length (freq_value self) ->
  exists total,
    welch_sum self data segments (RealArray acc) = Ok (RealArray total)
    /\ length total = length (freq_value self).
Proof.
  induction segments as [|[i j] r IH]; intros acc Hest Hseg Hacc; simpl.
  - now exists acc.
  - destruct (Hseg i j (or_introl eq_refl)) as (Hij & Hi & Hti).
    destruct (segment_periodogram_ok self data i j Hest Hij Hi Hti)
      as (bins & Hb & Hl).
    rewrite Hb. cbn [bind iadd].
    destruct (add_ok acc bins) as (acc' & Ha & Hl'); [congruence|].
    rewrite Ha. cbn [bind]. apply IH; auto.
    + intros a b Hab. apply Hseg. now right.
    + congruence.
Qed.

End Welch.

Section Segments.
Context {kernel : Periodogram} {taper : Window}.
Variables (self : FrequencySamples) (data : TimeSeries) (d : nat).

Let times : list Q := times_value (_times data).
Let L : nat := length times.
Let zeros : Array := RealArray (repeat 0 (length (freq_value self))).

Hypothesis same_length : len (ts_data data) = L.
Hypothesis different : distinct times.
Hypothesis width : (0 < d < L)%nat.

Lemma welch_segment_indices (acc : Array) (i j : nat) (ti tj : Q) :
  nth_error times i = Some ti -> nth_error times j = Some tj ->
  welch_segment self data acc ti tj
  = (q <- segment_periodogram self data i j ;; iadd acc q).
Proof.
  intros Hi Hj. unfold welch_segment, segment_periodogram.
  rewrite (get_time_slice_indices data i j ti tj different Hi Hj).
  destruct (_getslice data i j) as [aux|e]; cbn [bind]; [|reflexivity].
  destruct (imul (ts_data aux) (tukey (len (ts_data aux)) (1 # 8)))
    as [tapered|e]; cbn [bind]; [|reflexivity].
  destruct (psd _ self) as [p|e]; reflexivity.
Qed.

(** With no overlap the loop processes the segments that start at [i],
    [i + d], ... below [L - d], and counts them. *)
Lemma welch_loop_run (fuel : nat) : forall i acc counter,
  (ceil_div (L - d - i) d < fuel)%nat ->
  welch_loop fuel self times data (Z.of_nat d) 1 acc (Z.of_nat i) counter
  = Some (acc' <- welch_sum self data
                    (segments_from i d (ceil_div (L - d - i) d)) acc ;;
          Ok (acc', (counter + Z.of_nat (ceil_div (L - d - i) d))%Z)).
Proof.
  induction fuel as [|fuel IH]; intros i acc counter Hf; [lia|].
  cbn [welch_loop]. rewrite same_length.
  destruct (Z.ltb_spec (Z.of_nat i) (Z.of_nat L - Z.of_nat d)) as [Hlt|Hge].
  - destruct (nth_error_defined times i) as [ti Hi]; [fold L; lia|].
    destruct (nth_error_defined times (i + d)) as [tj Hj]; [fold L; lia|].
    rewrite (index_nat times i ti Hi). cbn [bind].
    rewrite <- Nat2Z.inj_add, (index_nat times (i + d) tj Hj). cbn [bind].
    rewrite (welch_segment_indices acc i (i + d) ti tj Hi Hj).
    rewrite int_of_integer, <- Nat2Z.inj_add.
    rewrite (ceil_div_step (L - d - i) d) by lia.
    rewrite segments_from_succ. cbn [welch_sum].
    replace (L - d - i - d)%nat with (L - d - (i + d))%nat by lia.
    destruct (q <- segment_periodogram self data i (i + d) ;; iadd acc q)
      as [acc1|e]; cbn [bind]; [|reflexivity].
    rewrite IH.
    + destruct (welch_sum self data _ acc1) as [acc'|e]; cbn [bind];
        [|reflexivity].
      do 3 f_equal. lia.
    + rewrite (ceil_div_step (L - d - i) d) in Hf by lia.
      replace (L - d - i - d)%nat with (L - d - (i + d))%nat in Hf by lia. lia.
  - replace (L - d - i)%nat with O by lia.
    rewrite ceil_div_zero by lia. cbn [segments_from seq map welch_sum bind].
    now rewrite Z.add_0_r.
Qed.

(** When the loop is left, the segment between the timestamps at
    [L - d - 1] and [L - 1] is added, whatever the loop has covered. *)
Lemma lomb_welch_after_loop (fuel : nat) (over : Q) (acc : Array)
  (counter : Z) (e : Q) :
  freq_value self <> [] ->
  epoch data = Ok e ->
  welch_loop fuel self times data (Z.of_nat d) over zeros 0 0
  = Some (Ok (acc, counter)) ->
  lomb_welch fuel self times data (Z.of_nat d) over
  = Some (total <- (q <- segment_periodogram self data (L - d - 1) (L - 1) ;;
                    iadd acc q) ;;
          Ok {| fs_data := div_scalar total (inject_Z (counter + 1));
                _freqs := self;
                _epoch := e |}).
Proof.
  intros Hgrid He Hloop. unfold lomb_welch. rewrite He. cbn [bind].
  rewrite FrequencySeries_init_ok.
  2:{ simpl. rewrite repeat_length.
      destruct (freq_value self); [congruence | simpl; lia]. }
  2:{ simpl. now rewrite repeat_length. }
  cbn [fs_data _freqs _epoch]. fold zeros. rewrite Hloop.
  destruct (nth_error_defined times (L - d - 1)) as [ta Ha]; [fold L; lia|].
  destruct (nth_error_defined times (L - 1)) as [tb Hb]; [fold L; lia|].
  fold L.
  replace (Z.of_nat L - Z.of_nat d - 1)%Z with (Z.of_nat (L - d - 1)) by lia.
  replace (Z.of_nat L - 1)%Z with (Z.of_nat (L - 1)) by lia.
  rewrite (index_nat times _ ta Ha). cbn [bind].
  rewrite (index_nat times _ tb Hb). cbn [bind].
  rewrite (welch_segment_indices acc _ _ ta tb Ha Hb). reflexivity.
Qed.

Lemma epoch_defined : exists e, epoch data = Ok e.
Proof.
  unfold epoch. fold times. apply min_nonempty.
  intro E. unfold L in width. rewrite E in width. simpl in width. lia.
Qed.

(** C7, as the code has it.  For pairwise different timestamps and a
    width [0 < d < L], the final segment of [lomb_welch] is the slice
    between the timestamps at the indices [L - d - 1] and [L - 1]: it has
    [d] samples, those at the indices [L - d - 1] to [L - 2], and the
    last sample of the series is not in it.  Once the loop is left, with
    whatever sum and count, the periodogram of this segment is added and
    counted. *)
Theorem lomb_welch_tail_segment (fuel : nat) (over : Q) (acc : Array)
  (counter : Z) :
  freq_value self <> [] ->
  welch_loop fuel self times data (Z.of_nat d) over zeros 0 0
  = Some (Ok (acc, counter)) ->
  exists ta tb tail e,
    Py.index times (Z.of_nat L - Z.of_nat d - 1) = Ok ta
    /\ Py.index times (Z.of_nat L - 1) = Ok tb
    /\ get_time_slice data ta tb = Ok tail
    /\ ts_data tail = getslice (ts_data data) (L - d - 1) (L - 1)
    /\ len (ts_data tail) = d
    /\ (forall k, (k < d)%nat ->
          nth_error (times_value (_times tail)) k
          = nth_error times (L - d - 1 + k))
    /\ length (times_value (_times tail)) = d
    /\ epoch data = Ok e
    /\ lomb_welch fuel self times data (Z.of_nat d) over
       = Some (total <- (q <- segment_periodogram self data (L - d - 1) (L - 1) ;;
                         iadd acc q) ;;
               Ok {| fs_data := div_scalar total (inject_Z (counter + 1));
                     _freqs := self;
                     _epoch := e |}).
Proof.
  intros Hgrid Hloop.
  destruct (nth_error_defined times (L - d - 1)) as [ta Ha]; [fold L; lia|].
  destruct (nth_error_defined times (L - 1)) as [tb Hb]; [fold L; lia|].
  destruct epoch_defined as [e He].
  exists ta, tb,
    {| ts_data := getslice (ts_data data) (L - d - 1) (L - 1);
       _times := TimesSamples_of_array (Py.slice times (L - d - 1) (L - 1)) |},
    e.
  split.
  { replace (Z.of_nat L - Z.of_nat d - 1)%Z with (Z.of_nat (L - d - 1)) by lia.
    now apply index_nat. }
  split.
  { replace (Z.of_nat L - 1)%Z with (Z.of_nat (L - 1)) by lia.
    now apply index_nat. }
  split.
  { rewrite (get_time_slice_indices data _ _ ta tb different Ha Hb).
    apply getslice_ok; lia. }
  cbn [ts_data _times TimesSamples_of_array times_value].
  split; [reflexivity|].
  split; [rewrite getslice_len; lia|].
  split.
  { intros k Hk. unfold Py.slice.
    rewrite nth_error_firstn, nth_error_skipn.
    destruct (k <? L - 1 - (L - d - 1))%nat eqn:E; [reflexivity|].
    apply Nat.ltb_ge in E. lia. }
  split; [rewrite slice_length; fold L; lia|].
  split; [exact He|].
  now apply lomb_welch_after_loop.
Qed.

(** C3, as the code has it.  For pairwise different timestamps, a
    width [0 < d < L], no overlap, a grid that is not empty and is not
    the single frequency zero, a kernel that returns one power for each
    frequency and a window of the length it is asked for, [lomb_welch]
    returns: its loop
    processes [m = ceil((L - d) / d)] segments, the final segment is
    added, and the result is the sum of the [m + 1] periodograms, each
    divided by the power of its taper, divided by [m + 1]. *)
Theorem lomb_welch_segment_count (fuel : nat) :
  one_power_per_frequency ->
  window_fits ->
  estimable self ->
  (ceil_div (L - d) d < fuel)%nat ->
  let m := ceil_div (L - d) d in
  let segments := segments_from 0 d m ++ [((L - d - 1)%nat, (L - 1)%nat)] in
  exists loop_sum total e,
    welch_loop fuel self times data (Z.of_nat d) 1 zeros 0 0
    = Some (Ok (loop_sum, Z.of_nat m))
    /\ length segments = (m + 1)%nat
    /\ welch_sum self data segments zeros = Ok total
    /\ epoch data = Ok e
    /\ lomb_welch fuel self times data (Z.of_nat d) 1
       = Some (Ok {| fs_data := div_scalar total (inject_Z (Z.of_nat m + 1));
                     _freqs := self;
                     _epoch := e |}).
Proof.
  intros Hkernel Hwindow Hest Hfuel m segments.
  assert (Hgrid : freq_value self <> []).
  { unfold estimable in Hest. destruct (freq_value self); [contradiction|].
    discriminate. }
  destruct epoch_defined as [e He].
  assert (Hbounds : forall a b, In (a, b) segments ->
            (a < b)%nat /\ (a < len (ts_data data))%nat
            /\ (a < length (times_value (_times data)))%nat).
  { intros a b Hab. fold times. fold L. rewrite same_length.
    unfold segments in Hab. apply in_app_iff in Hab.
    destruct Hab as [Hab | [Hab | []]].
    - apply segments_from_bounds in Hab. destruct Hab as (q & Hq & -> & ->).
      destruct (ceil_div_least (L - d) d) as [_ Hleast]; [lia|].
      assert (q * d < L - d)%nat.
      { destruct (Nat.le_gt_cases (L - d) (q * d)) as [Hle|Hgt]; [|exact Hgt].
        specialize (Hleast q Hle). fold m in Hleast. lia. }
      lia.
    - injection Hab as <- <-. lia. }
  destruct (welch_sum_ok Hkernel Hwindow self data segments
              (repeat 0 (length (freq_value self))) Hest Hbounds)
    as (total & Htotal & _); [apply repeat_length|].
  fold zeros in Htotal.
  pose proof (welch_loop_run fuel 0 zeros 0) as Hrun.
  replace (L - d - 0)%nat with (L - d)%nat in Hrun by lia.
  fold m in Hrun. specialize (Hrun Hfuel). simpl (Z.of_nat 0) in Hrun.
  unfold segments in Htotal. rewrite welch_sum_app in Htotal.
  destruct (welch_sum self data (segments_from 0 d m) zeros) as [loop_sum|err]
    eqn:Eloop; [|discriminate].
  cbn [bind] in Hrun, Htotal. rewrite Z.add_0_l in Hrun.
  exists loop_sum, (RealArray total), e.
  split; [exact Hrun|].
  split.
  { unfold segments. rewrite length_app, segments_from_length. reflexivity. }
  split.
  { unfold segments. rewrite welch_sum_app, Eloop. exact Htotal. }
  split; [exact He|].
  rewrite (lomb_welch_after_loop fuel 1 loop_sum (Z.of_nat m) e Hgrid He Hrun).
  cbn [welch_sum] in Htotal.
  destruct (q <- segment_periodogram self data (L - d - 1) (L - 1) ;;
            iadd loop_sum q) as [t|err]; cbn [bind] in *; [|discriminate].
  now injection Htotal as ->.
Qed.

End Segments.

Lemma summing_kernel_contract : @one_power_per_frequency summing_kernel.
Proof. intros norm times data window freqs. apply length_map. Qed.

Lemma five_samples_distinct : distinct (times_value (_times five_samples)).
Proof.
  intros i j x y Hi Hj E.
  destruct i as [|[|[|[|[|i]]]]]; destruct j as [|[|[|[|[|j]]]]];
    simpl in Hi, Hj;
    try (destruct i; discriminate Hi); try (destruct j; discriminate Hj);
    injection Hi as <-; injection Hj as <-;
    try reflexivity; discriminate E.
Defined.

Lemma five_samples_loop :
  exists acc counter,
    @welch_loop summing_kernel rectangular 10 two_bins [0; 1; 2; 3; 4]
      five_samples 2 1 (RealArray (repeat 0 2)) 0 0
    = Some (Ok (acc, counter)).
Proof. eexists. eexists. vm_compute. reflexivity. Defined.

Lemma lomb_welch_tail_segment_witness :
  exists ta tb tail,
    Py.index [0; 1; 2; 3; 4] (5 - 2 - 1) = Ok ta
    /\ Py.index [0; 1; 2; 3; 4] (5 - 1) = Ok tb
    /\ get_time_slice five_samples ta tb = Ok tail
    /\ ts_data tail = getslice (ts_data five_samples) 2 4
    /\ len (ts_data tail) = 2%nat.
Proof.
  destruct five_samples_loop as (acc & counter & Hloop).
  destruct (@lomb_welch_tail_segment summing_kernel rectangular two_bins
              five_samples 2 eq_refl five_samples_distinct
              (conj (le_S _ _ (le_n 1)) (le_S _ _ (le_S _ _ (le_n 3))))
              10 1 acc counter)
    as (ta & tb & tail & e & Ha & Hb & Hslice & Hdata & Hlen & _).
  - discriminate.
  - exact Hloop.
  - exists ta, tb, tail. repeat split; assumption.
Defined.

(** C7, the samples of the final segment.  For five samples at the
    times [0 .. 4] and [d = 2] the final segment is the slice [2:4],
    the samples [30, 40]; the last two samples are [40, 50].  With a
    kernel that returns the sum of the samples of a segment, the three
    segments of [lomb_welch] sum to [30 + 70 + 70]: the last sample is in
    none of them. *)
Lemma lomb_welch_tail_misses_last_sample :
  exists ta tb tail f bin,
    Py.index [0; 1; 2; 3; 4] (5 - 2 - 1) = Ok ta
    /\ Py.index [0; 1; 2; 3; 4] (5 - 1) = Ok tb
    /\ get_time_slice five_samples ta tb = Ok tail
    /\ ts_data tail = RealArray [30; 40]
    /\ getslice (ts_data five_samples) (5 - 2) 5 = RealArray [40; 50]
    /\ @lomb_welch summing_kernel rectangular 10 two_bins [0; 1; 2; 3; 4]
         five_samples 2 1 = Some (Ok f)
    /\ fs_data f = RealArray [bin; bin]
    /\ bin == (30 + 70 + 70) / 3.
Proof.
  eexists. eexists. eexists. eexists. eexists.
  split; [reflexivity|]. split; [reflexivity|].
  split; [vm_compute; reflexivity|].
  split; [reflexivity|]. split; [reflexivity|].
  split; [vm_compute; reflexivity|].
  split; [reflexivity|]. reflexivity.
Qed.

(** C3, a series for which no segment is processed.  In the times
    [0, 1, 0, 3, 4] the timestamp [0] comes twice: for [d = 2] the first
    segment is asked for between [times[0]] and [times[2]], both nearest
    to index 0, the slice is empty and [lomb_welch] raises inside its
    loop.  The same happens for a width of 0 on different timestamps,
    and on the grid of the single frequency zero the periodogram of the
    first segment cannot be estimated. *)
Lemma lomb_welch_repeated_timestamp_raises :
  get_time_slice repeated_samples 0 0
  = Raise (ValueError "initial_array must contain at least one sample.")
  /\ @welch_loop summing_kernel rectangular 10 two_bins [0; 1; 0; 3; 4]
       repeated_samples 2 1 (RealArray (repeat 0 2)) 0 0
     = Some (Raise (ValueError "initial_array must contain at least one sample."))
  /\ @lomb_welch summing_kernel rectangular 10 two_bins [0; 1; 0; 3; 4]
       repeated_samples 2 1
     = Some (Raise (ValueError "initial_array must contain at least one sample."))
  /\ @lomb_welch summing_kernel rectangular 10 two_bins [0; 1; 2; 3; 4]
       five_samples 0 1
     = Some (Raise (ValueError "initial_array must contain at least one sample."))
  /\ @lomb_welch summing_kernel rectangular 10 only_zero_grid [0; 1; 2; 3; 4]
       five_samples 2 1
     = Some (Raise (ValueError "min of an empty sequence")).
Proof. repeat split; vm_compute; reflexivity. Qed.

Lemma lomb_welch_segment_count_witness :
  exists loop_sum total e,
    @welch_loop summing_kernel rectangular 10 two_bins [0; 1; 2; 3; 4]
      five_samples 2 1 (RealArray (repeat 0 2)) 0 0
    = Some (Ok (loop_sum, 2%Z))
    /\ length (segments_from 0 2 2 ++ [(2%nat, 4%nat)]) = 3%nat
    /\ @welch_sum summing_kernel rectangular two_bins five_samples
         (segments_from 0 2 2 ++ [(2%nat, 4%nat)]) (RealArray (repeat 0 2))
       = Ok total
    /\ epoch five_samples = Ok e
    /\ @lomb_welch summing_kernel rectangular 10 two_bins [0; 1; 2; 3; 4]
         five_samples 2 1
       = Some (Ok {| fs_data := div_scalar total (inject_Z 3);
                     _freqs := two_bins;
                     _epoch := e |}).
Proof.
  apply (@lomb_welch_segment_count summing_kernel rectangular two_bins
           five_samples 2 eq_refl five_samples_distinct
           (conj (le_S _ _ (le_n 1)) (le_S _ _ (le_S _ _ (le_n 3)))) 10).
  - exact summing_kernel_contract.
  - exact rectangular_fits.
  - exact I.
  - vm_compute. lia.
Defined.

(** * Further properties *)

(** ** The generator: construction, recipes, errors *)

Section GeneratorRecipes.
Import IrregularTimeSamples.

(** The constructor of the generator: a spacing that is not positive is
    refused, then a grid whose length is not [n]; without a grid a
    negative [n] is refused, since [np.arange(n)] is empty. *)
Theorem generator_init_cases (n : Z) (dt : Q) (grid : option (list Q)) :
  let g := match grid with
           | Some g => g
           | None => map (fun i => i * dt) (Py.arange n)
           end in
  (dt <= 0 ->
   __init__ n dt grid
   = Raise (ValueError "'dt' need to be positive and non zero"))
  /\ (0 < dt -> Z.of_nat (length g) <> n ->
      __init__ n dt grid
      = Raise (ValueError "the 'grid' used need to be of length 'n'"))
  /\ (0 < dt -> Z.of_nat (length g) = n ->
      __init__ n dt grid = Ok {| n := n; dt := dt; t := g |})
  /\ (0 < dt -> grid = None -> (n < 0)%Z ->
      __init__ n dt grid
      = Raise (ValueError "the 'grid' used need to be of length 'n'")).
Proof.
  intro g.
  assert (Hpos : 0 < dt -> Qle_bool dt 0 = false).
  { intro H. destruct (Qle_bool dt 0) eqn:E; [|reflexivity].
    apply Qle_bool_iff in E. lra. }
  assert (Hbad : 0 < dt -> Z.of_nat (length g) <> n ->
            __init__ n dt grid
            = Raise (ValueError "the 'grid' used need to be of length 'n'")).
  { intros H Hne. unfold __init__. rewrite (Hpos H). fold g.
    destruct (n =? Z.of_nat (length g))%Z eqn:E; [|reflexivity].
    apply Z.eqb_eq in E. congruence. }
  split; [|split; [exact Hbad|split]].
  - intro H. unfold __init__. apply Qle_bool_iff in H. now rewrite H.
  - intros H Heq. unfold __init__. rewrite (Hpos H). fold g.
    rewrite <- Heq, Z.eqb_refl. reflexivity.
  - intros H Hg Hn. apply Hbad; [exact H|]. lia.
Qed.

Lemma generator_init_cases_witness :
  __init__ (-3) 1 None
  = Raise (ValueError "the 'grid' used need to be of length 'n'")
  /\ __init__ 2 1 (Some [5; 7]) = Ok {| n := 2; dt := 1; t := [5; 7] |}.
Proof.
  split.
  - apply (proj2 (proj2 (proj2 (generator_init_cases (-3) 1 None)))).
    + unfold Qlt. simpl. lia.
    + reflexivity.
    + lia.
  - apply (proj1 (proj2 (proj2 (generator_init_cases 2 1 (Some [5; 7]))))).
    + unfold Qlt. simpl. lia.
    + reflexivity.
Defined.

Lemma slice_bound_le (len : nat) (i : Z) : (Py.slice_bound len i <= len)%nat.
Proof. unfold Py.slice_bound. destruct (Z.ltb_spec i 0); lia. Qed.

Lemma update_span_length (f : Q -> Q) (l : list Q) (a : Z) (b : option Z) :
  length (Py.update_span f l a b) = length l.
Proof.
  unfold Py.update_span.
  set (lo := Py.slice_bound (length l) a).
  set (hi := match b with
             | Some b0 => Py.slice_bound (length l) b0
             | None => length l
             end).
  assert (Hlo : (lo <= length l)%nat) by apply slice_bound_le.
  assert (Hhi : (hi <= length l)%nat).
  { unfold hi. destruct b; [apply slice_bound_le | lia]. }
  rewrite !length_app, length_map, slice_length, length_firstn, length_skipn.
  lia.
Qed.

Lemma insert_sorted_length (x : Q) (l : list Q) :
  length (Py.insert_sorted x l) = S (length l).
Proof.
  induction l as [|y r IH]; simpl; [reflexivity|].
  destruct (Qle_bool x y); simpl; [reflexivity | now rewrite IH].
Qed.

Lemma sort_length (l : list Q) : length (Py.sort l) = length l.
Proof.
  induction l as [|x r IH]; simpl; [reflexivity|].
  now rewrite insert_sorted_length, IH.
Qed.

Lemma add_each_length (k : nat) : forall t eps r,
  add_each k t eps = Ok r -> length r = length t.
Proof.
  induction k as [|k IH]; intros t eps r H; simpl in H.
  - now injection H as <-.
  - destruct t as [|x t']; [discriminate|].
    destruct eps as [|e eps']; [discriminate|].
    destruct (add_each k t' eps') as [r'|err] eqn:E; [|discriminate].
    simpl in H. injection H as <-. simpl. f_equal. now apply (IH t' eps').
Qed.

Lemma add_irregularities_length (self self' : state) (eps : list Q) :
  _add_irregularities self eps = Ok self' -> length (t self') = length (t self).
Proof.
  unfold _add_irregularities.
  destruct (add_each (Z.to_nat (n self)) (t self) eps) as [r|e] eqn:E;
    [|discriminate].
  simpl. intro H. injection H as <-. simpl. now apply add_each_length in E.
Qed.

Lemma normalize_length (self self' : state) (off : Q) :
  _normalize self off = Ok self' -> length (t self') = length (t self).
Proof.
  unfold _normalize. destruct (Py.min (t self)) as [m|e]; [|discriminate].
  simpl. destruct (Py.Qltb m off); intro H; injection H as <-; simpl;
    [apply length_map | reflexivity].
Qed.

Lemma base_length (self self' : state) (kw : settings) :
  _base self kw = Ok self' -> length (t self') = length (t self).
Proof.
  unfold _base.
  destruct (_add_irregularities self (s_epsilon kw)) as [s1|e] eqn:E;
    [|discriminate].
  simpl. intro H. apply normalize_length in H.
  apply add_irregularities_length in E. congruence.
Qed.

Lemma auto_mix_length (self self' : state) (d : draws) :
  _auto_mix self d = Ok self' -> length (t self') = length (t self).
Proof.
  unfold _auto_mix.
  destruct (Py.Qltb ((5 # 100) * dt self) 0); [discriminate|].
  match goal with |- context [_add_irregularities ?s ?e] =>
    destruct (_add_irregularities s e) as [s1|err] eqn:E end; [|discriminate].
  simpl. intro H. apply normalize_length in H.
  apply add_irregularities_length in E. simpl in H, E.
  rewrite H, sort_length, E, !update_span_length, sort_length. reflexivity.
Qed.

Lemma compute_keeps_length (n : Z) (dt : Q) (grid : option (list Q)) (self : state)
  (struct : string) (clear : bool) (kw : kwargs) (d : draws) (out : list Q) :
  __init__ n dt grid = Ok self ->
  compute self struct clear kw d = Ok out ->
  length out = Z.to_nat n.
Proof.
  intros Hinit Hc.
  destruct (init_ok _ _ _ _ Hinit) as (En & Edt & Hdt & Hlen).
  unfold compute in Hc.
  destruct (_set_kwargs self kw d) as [s|e]; [|discriminate].
  cbn [bind] in Hc.
  set (start := if clear
                then with_t self (map (fun i => i * IrregularTimeSamples.dt self)
                                      (Py.arange (IrregularTimeSamples.n self)))
                else self) in Hc.
  assert (Hstart : length (t start) = Z.to_nat n).
  { unfold start. destruct clear; [|exact Hlen].
    simpl. now rewrite length_map, arange_length, En. }
  destruct (Py.contains "slight" struct).
  { destruct (_base start s) as [s'|e] eqn:E; [|discriminate].
    simpl in Hc. injection Hc as <-. apply base_length in E. congruence. }
  destruct (Py.contains "outlier" struct).
  { unfold _outlier in Hc.
    match type of Hc with context [_base ?s0 s] =>
      destruct (_base s0 s) as [s'|e] eqn:E end; [|discriminate].
    simpl in Hc. injection Hc as <-. apply base_length in E.
    simpl in E. rewrite update_span_length in E. congruence. }
  destruct (Py.contains "change" struct && Py.contains "spacing" struct).
  { unfold _change_spacing in Hc. destruct (s_gamma s) as [g|]; [|discriminate].
    match type of Hc with context [_base ?s0 s] =>
      destruct (_base s0 s) as [s'|e] eqn:E end; [|discriminate].
    simpl in Hc. injection Hc as <-. apply base_length in E.
    simpl in E. rewrite update_span_length in E. congruence. }
  destruct (Py.contains "automix" struct).
  { destruct (_auto_mix start d) as [s'|e] eqn:E; [|discriminate].
    simpl in Hc. injection Hc as <-. apply auto_mix_length in E. congruence. }
  simpl in Hc. injection Hc as <-. exact Hstart.
Qed.

(** Whatever the recipe, a grid that [compute] returns has the [n]
    timestamps the generator was built with. *)
Theorem compute_length (n : Z) (dt : Q) (grid : option (list Q)) (self : state)
  (struct : string) (clear : bool) (kw : kwargs) (d : draws) (out : list Q) :
  __init__ n dt grid = Ok self ->
  compute self struct clear kw d = Ok out ->
  length out = Z.to_nat n.
Proof. apply compute_keeps_length. Qed.

Lemma compute_length_witness :
  length [0 * 1 + (1 # 10); 1 * 1 + 0] = Z.to_nat 2.
Proof.
  apply (compute_length 2 1 None two_ticks "slight" true jitter_up zero_draws);
    reflexivity.
Defined.

(** A generator with no timestamp ([n = 0]) can be built, but [compute]
    never returns for it: for a generator whose [n] is not positive every
    recipe raises an invalid-argument error while the keyword arguments
    are filled. *)
Theorem compute_refuses_empty (self : state) (struct : string) (clear : bool)
  (kw : kwargs) (d : draws) :
  (IrregularTimeSamples.n self <= 0)%Z ->
  exists msg, compute self struct clear kw d = Raise (ValueError msg).
Proof.
  intro Hn. unfold compute, _set_kwargs.
  destruct (Py.Qltb _ 0); [eexists; reflexivity|].
  apply Z.leb_le in Hn. rewrite Hn. eexists. reflexivity.
Qed.

Lemma compute_refuses_empty_witness :
  __init__ 0 1 None = Ok no_ticks
  /\ exists msg, compute no_ticks "slight" true no_options zero_draws
                 = Raise (ValueError msg).
Proof.
  split; [reflexivity|].
  apply (compute_refuses_empty no_ticks "slight" true no_options zero_draws).
  simpl. lia.
Defined.

Lemma set_kwargs_ok (self : state) (kw : kwargs) (d : draws) :
  (1 <= IrregularTimeSamples.n self)%Z ->
  0 <= default (sigma kw) (5 # 100) * IrregularTimeSamples.dt self ->
  exists s, _set_kwargs self kw d = Ok s
            /\ s_gamma s = gamma kw
            /\ s_epsilon s = default (epsilon kw) (normal_kwargs d)
            /\ s_offset s = default (offset kw) 0.
Proof.
  intros Hn Hs. unfold _set_kwargs.
  apply Qltb_ge in Hs. rewrite Hs.
  destruct (IrregularTimeSamples.n self <=? 0)%Z eqn:E;
    [apply Z.leb_le in E; lia|].
  eexists. split; [reflexivity|]. simpl. auto.
Qed.

(** The recipe that rescales a span reads [gamma] without a default:
    when the key is missing it raises a type error. *)
Theorem change_spacing_needs_gamma (self : state) (struct : string)
  (clear : bool) (kw : kwargs) (d : draws) :
  (1 <= IrregularTimeSamples.n self)%Z ->
  0 <= default (sigma kw) (5 # 100) * IrregularTimeSamples.dt self ->
  Py.contains "slight" struct = false ->
  Py.contains "outlier" struct = false ->
  Py.contains "change" struct = true ->
  Py.contains "spacing" struct = true ->
  gamma kw = None ->
  compute self struct clear kw d
  = Raise (TypeError "unsupported operand type(s) for *=").
Proof.
  intros Hn Hs H1 H2 H3 H4 Hg.
  destruct (set_kwargs_ok self kw d Hn Hs) as (s & Hset & Hgam & _).
  unfold compute. rewrite Hset. cbn [bind]. rewrite H1, H2, H3, H4.
  cbn [andb]. unfold _change_spacing. rewrite Hgam, Hg. reflexivity.
Qed.

Lemma change_spacing_needs_gamma_witness :
  compute two_ticks "change spacing" true no_options zero_draws
  = Raise (TypeError "unsupported operand type(s) for *=").
Proof.
  apply change_spacing_needs_gamma; try reflexivity.
  - simpl. lia.
  - vm_compute. discriminate.
Defined.

(** A tag that names no recipe is not an error: the grid is returned
    without jitter or normalization, the regular grid when [clear] is
    set. *)
Theorem compute_unknown_recipe (self : state) (struct : string) (clear : bool)
  (kw : kwargs) (d : draws) :
  (1 <= IrregularTimeSamples.n self)%Z ->
  0 <= default (sigma kw) (5 # 100) * IrregularTimeSamples.dt self ->
  Py.contains "slight" struct = false ->
  Py.contains "outlier" struct = false ->
  Py.contains "change" struct && Py.contains "spacing" struct = false ->
  Py.contains "automix" struct = false ->
  compute self struct clear kw d
  = Ok (if clear
        then map (fun i => i * IrregularTimeSamples.dt self)
                 (Py.arange (IrregularTimeSamples.n self))
        else t self).
Proof.
  intros Hn Hs H1 H2 H3 H4.
  destruct (set_kwargs_ok self kw d Hn Hs) as (s & Hset & _).
  unfold compute. rewrite Hset. cbn [bind]. rewrite H1, H2, H3, H4.
  cbn [bind]. now destruct clear.
Qed.

Lemma compute_unknown_recipe_witness :
  compute two_ticks "change" true jitter_up zero_draws
  = Ok (map (fun i => i * 1) (Py.arange 2)).
Proof.
  apply (compute_unknown_recipe two_ticks "change" true jitter_up zero_draws);
    try reflexivity.
  - simpl. lia.
  - vm_compute. discriminate.
Defined.

Lemma add_each_short (k : nat) : forall t eps,
  (k <= length t)%nat -> (length eps < k)%nat ->
  add_each k t eps = Raise IndexError.
Proof.
  induction k as [|k IH]; intros t eps Ht He; [lia|].
  simpl. destruct t as [|x t']; [simpl in Ht; lia|].
  destruct eps as [|e eps']; [reflexivity|].
  simpl in Ht, He. rewrite IH by lia. reflexivity.
Qed.

(** A jitter sequence with fewer than [n] entries makes the recipe
    [slight] raise an index error. *)
Theorem slight_short_epsilon (n : Z) (dt : Q) (grid : option (list Q))
  (self : state) (struct : string) (clear : bool) (kw : kwargs) (d : draws)
  (eps : list Q) :
  __init__ n dt grid = Ok self ->
  (1 <= n)%Z ->
  0 <= default (sigma kw) (5 # 100) ->
  Py.contains "slight" struct = true ->
  epsilon kw = Some eps ->
  (length eps < Z.to_nat n)%nat ->
  compute self struct clear kw d = Raise IndexError.
Proof.
  intros Hinit Hn Hsig Hslight Heps Hshort.
  destruct (init_ok _ _ _ _ Hinit) as (En & Edt & Hdt & Hlen).
  destruct (set_kwargs_ok self kw d) as (s & Hset & _ & Hse & _);
    [lia | rewrite Edt; nra |].
  unfold compute. rewrite Hset. cbn [bind]. rewrite Hslight.
  unfold _base, _add_irregularities. rewrite Hse, Heps. cbn [default].
  rewrite add_each_short; [reflexivity | | ].
  - destruct clear; simpl; [rewrite length_map, arange_length|]; lia.
  - destruct clear; simpl; lia.
Qed.

Lemma slight_short_epsilon_witness :
  compute two_ticks "slight" true short_jitter zero_draws = Raise IndexError.
Proof.
  apply (slight_short_epsilon 2 1 None two_ticks "slight" true short_jitter
           zero_draws [3 # 10]); try reflexivity.
  - lia.
  - vm_compute. discriminate.
  - simpl. lia.
Defined.

Lemma insert_sorted_in (x : Q) (l : list Q) (y : Q) :
  In y (Py.insert_sorted x l) -> y = x \/ In y l.
Proof.
  induction l as [|z r IH]; simpl.
  - intros [<- | []]. now left.
  - destruct (Qle_bool x z); simpl.
    + intros [<- | H]; [now left | now right].
    + intros [<- | H]; [right; now left|].
      destruct (IH H) as [-> | H']; [now left | right; now right].
Qed.

Lemma insert_sorted_sorted (x : Q) (l : list Q) :
  StronglySorted Qle l -> StronglySorted Qle (Py.insert_sorted x l).
Proof.
  induction 1 as [|z r Hr IH Hz]; simpl.
  - constructor; constructor.
  - destruct (Qle_bool x z) eqn:E.
    + apply Qle_bool_iff in E. constructor.
      * now constructor.
      * constructor; [exact E|].
        eapply Forall_impl; [|exact Hz]. intros a Ha. simpl in Ha. lra.
    + assert (Hzx : z <= x).
      { destruct (Qlt_le_dec x z) as [L|L]; [|exact L].
        assert (Qle_bool x z = true) by (apply Qle_bool_iff; lra). congruence. }
      constructor; [exact IH|].
      apply Forall_forall. intros y Hy.
      destruct (insert_sorted_in x r y Hy) as [-> | Hy']; [exact Hzx|].
      rewrite Forall_forall in Hz. now apply Hz.
Qed.

Lemma sort_sorted (l : list Q) : StronglySorted Qle (Py.sort l).
Proof.
  induction l as [|x r IH]; simpl; [constructor|].
  now apply insert_sorted_sorted.
Qed.

Lemma shift_sorted (c : Q) (l : list Q) :
  StronglySorted Qle l -> StronglySorted Qle (map (fun x => x + c) l).
Proof.
  induction 1 as [|z r Hr IH Hz]; simpl; constructor; [exact IH|].
  apply Forall_map. eapply Forall_impl; [|exact Hz].
  intros a Ha. simpl in Ha. simpl. lra.
Qed.

(** The recipe [automix] returns its timestamps in ascending order. *)
Theorem automix_ascending (self : state) (struct : string) (clear : bool)
  (kw : kwargs) (d : draws) (out : list Q) :
  Py.contains "slight" struct = false ->
  Py.contains "outlier" struct = false ->
  Py.contains "change" struct && Py.contains "spacing" struct = false ->
  Py.contains "automix" struct = true ->
  compute self struct clear kw d = Ok out ->
  StronglySorted Qle out.
Proof.
  intros H1 H2 H3 H4 Hc. unfold compute in Hc.
  destruct (_set_kwargs self kw d) as [s|e]; [|discriminate].
  cbn [bind] in Hc. rewrite H1, H2, H3, H4 in Hc.
  match type of Hc with context [_auto_mix ?s0 d] =>
    destruct (_auto_mix s0 d) as [s'|e] eqn:E end; [|discriminate].
  simpl in Hc. injection Hc as <-.
  unfold _auto_mix in E.
  destruct (Py.Qltb _ 0) in E; [discriminate|].
  match type of E with context [_add_irregularities ?s0 ?e0] =>
    destruct (_add_irregularities s0 e0) as [s1|err] end; [|discriminate].
  cbn [bind] in E. unfold _normalize in E. cbn [t with_t] in E.
  destruct (Py.min (Py.sort (t s1))) as [m|err]; [|discriminate].
  cbn [bind] in E. destruct (Py.Qltb m (uniform_offset d));
    injection E as <-; cbn [t with_t].
  - apply shift_sorted. apply sort_sorted.
  - apply sort_sorted.
Qed.

Lemma automix_ascending_witness :
  exists out,
    compute two_ticks "automix" true no_options zero_draws = Ok out
    /\ StronglySorted Qle out.
Proof.
  assert (H : exists out,
            compute two_ticks "automix" true no_options zero_draws = Ok out).
  { eexists. vm_compute. reflexivity. }
  destruct H as [out H]. exists out. split; [exact H|].
  apply (automix_ascending two_ticks "automix" true no_options zero_draws out);
    try reflexivity.
  exact H.
Defined.

End GeneratorRecipes.

(** ** Time series: the constructor *)

Lemma arange_in (n : Z) (x : Q) :
  In x (Py.arange n) -> exists i, (0 <= i < n)%Z /\ x = inject_Z i.
Proof.
  unfold Py.arange. intro H. apply in_map_iff in H.
  destruct H as (k & <- & Hk). apply in_seq in Hk.
  exists (Z.of_nat k). split; [lia | reflexivity].
Qed.

Lemma regular_grid_nth (off delta : Q) (n : Z) (i : nat) (x : Q) :
  nth_error (map (fun i => off + i * delta) (Py.arange n)) i = Some x ->
  (i < Z.to_nat n)%nat /\ x = off + inject_Z (Z.of_nat i) * delta.
Proof.
  intro H.
  assert (Hi : (i < Z.to_nat n)%nat).
  { rewrite <- (arange_length n), <- (length_map (fun i => off + i * delta)).
    apply nth_error_Some. congruence. }
  split; [exact Hi|].
  rewrite nth_error_map, (arange_nth n i Hi) in H. simpl in H. congruence.
Qed.

(** The regular grid [offset + i * delta]: its length, its ends, and
    that no timestamp is repeated. *)
Lemma regular_grid_facts (off delta : Q) (n : Z) :
  0 < delta -> (1 <= n)%Z ->
  let l := map (fun i => off + i * delta) (Py.arange n) in
  length l = Z.to_nat n
  /\ distinct l
  /\ exists lo hi,
       Py.min l = Ok lo /\ lo == off
       /\ Py.max l = Ok hi /\ hi == off + inject_Z (n - 1) * delta.
Proof.
  intros Hd Hn l.
  assert (Hlen : length l = Z.to_nat n).
  { unfold l. now rewrite length_map, arange_length. }
  assert (Hin : forall x, In x l ->
            exists i, (0 <= i < n)%Z /\ x = off + inject_Z i * delta).
  { intros x Hx. unfold l in Hx. apply in_map_iff in Hx.
    destruct Hx as (q & <- & Hq). apply arange_in in Hq.
    destruct Hq as (i & Hi & ->). now exists i. }
  split; [exact Hlen|]. split.
  - intros i j x y Hi Hj E.
    apply regular_grid_nth in Hi, Hj. destruct Hi as [Hi ->], Hj as [Hj ->].
    assert (Hij : inject_Z (Z.of_nat i) == inject_Z (Z.of_nat j)).
    { destruct (Q_dec (inject_Z (Z.of_nat i)) (inject_Z (Z.of_nat j)))
        as [[L|L]|L]; [| |exact L]; exfalso; nra. }
    unfold Qeq in Hij. simpl in Hij. lia.
  - destruct (min_nonempty l) as [lo Hlo].
    { intro E. rewrite E in Hlen. simpl in Hlen. lia. }
    destruct (max_nonempty l) as [hi Hhi].
    { intro E. rewrite E in Hlen. simpl in Hlen. lia. }
    exists lo, hi. split; [exact Hlo|]. split; [|split; [exact Hhi|]].
    + assert (Hmin : is_min (off + inject_Z (Z.of_nat 0) * delta) l).
      { split.
        - apply (nth_error_In l 0). unfold l.
          now rewrite nth_error_map, (arange_nth n 0) by lia.
        - intros x Hx. destruct (Hin x Hx) as (i & Hi & ->).
          assert (inject_Z 0 <= inject_Z i) by (rewrite <- Zle_Qle; lia).
          simpl. nra. }
      pose proof (is_min_unique l lo _ (min_is_min _ _ Hlo) Hmin) as E.
      rewrite E. simpl. unfold inject_Z. lra.
    + assert (Hmax : is_max (off + inject_Z (Z.of_nat (Z.to_nat (n - 1))) * delta) l).
      { split.
        - apply (nth_error_In l (Z.to_nat (n - 1))). unfold l.
          now rewrite nth_error_map, (arange_nth n (Z.to_nat (n - 1))) by lia.
        - intros x Hx. destruct (Hin x Hx) as (i & Hi & ->).
          rewrite Z2Nat.id by lia.
          assert (inject_Z i <= inject_Z (n - 1)) by (rewrite <- Zle_Qle; lia).
          nra. }
      pose proof (is_max_unique l hi _ (max_is_max _ _ Hhi) Hmax) as E.
      rewrite E. rewrite Z2Nat.id by lia. reflexivity.
Qed.

(** A series built on a regular grid: as many timestamps as samples, no
    timestamp repeated, the epoch at the offset (0 when the key is
    absent) and a duration of [(n - 1) * delta_t]; the other keyword
    arguments are not read. *)
Theorem regular_series (a : Array) (dt : Q) (struct : string) (clear : bool)
  (grid : option (list Q)) (kw : IrregularTimeSamples.kwargs)
  (d : IrregularTimeSamples.draws) :
  (1 <= len a)%nat ->
  0 < dt ->
  let off := match IrregularTimeSamples.offset kw with
             | Some o => o
             | None => 0
             end in
  exists s lo dur,
    TimeSeries__init__ a None (Some dt) true struct clear grid kw d = Ok s
    /\ ts_data s = a
    /\ _delta (_times s) = dt
    /\ length (times_value (_times s)) = len a
    /\ distinct (times_value (_times s))
    /\ epoch s = Ok lo /\ lo == off
    /\ ts_duration s = Ok dur
    /\ dur == inject_Z (Z.of_nat (len a) - 1) * dt.
Proof.
  intros Hlen Hdt off.
  destruct (regular_grid_facts off dt (Z.of_nat (len a)) Hdt ltac:(lia))
    as (Hl & Hdist & lo & hi & Hlo & Elo & Hhi & Ehi).
  set (l := map (fun i => off + i * dt) (Py.arange (Z.of_nat (len a)))) in *.
  exists {| ts_data := a; _times := {| times_value := l; _delta := dt |} |},
         lo, (hi - lo).
  split.
  { unfold TimeSeries__init__, TimesSamples__init__.
    destruct (len a <? 1)%nat eqn:E; [apply Nat.ltb_lt in E; lia|].
    destruct (Qle_bool dt 0) eqn:E'; [apply Qle_bool_iff in E'; lra|].
    reflexivity. }
  cbn [ts_data _times times_value _delta].
  split; [reflexivity|]. split; [reflexivity|].
  split; [rewrite Hl; lia|]. split; [exact Hdist|].
  split; [exact Hlo|]. split; [exact Elo|].
  split.
  { unfold ts_duration, duration. cbn [_times times_value].
    now rewrite Hhi, Hlo. }
  rewrite Ehi, Elo. lra.
Qed.

Lemma regular_series_witness :
  exists s lo dur,
    TimeSeries__init__ (RealArray [10; 20; 30]) None (Some (1 # 2)) true
      "slight" true None offset_only zero_draws = Ok s
    /\ ts_data s = RealArray [10; 20; 30]
    /\ _delta (_times s) = 1 # 2
    /\ length (times_value (_times s)) = 3%nat
    /\ distinct (times_value (_times s))
    /\ epoch s = Ok lo /\ lo == 3
    /\ ts_duration s = Ok dur
    /\ dur == inject_Z (3 - 1) * (1 # 2).
Proof.
  apply (regular_series (RealArray [10; 20; 30]) (1 # 2) "slight" true None
           offset_only zero_draws).
  - simpl. lia.
  - reflexivity.
Defined.

(** On the irregular path every key of the generator is forwarded to a
    constructor that accepts none of them: a series asked for with
    [delta_t] and, say, an offset or a jitter is a type error, so through
    [TimeSeries] the generator only runs on its defaults. *)
Theorem irregular_series_rejects_options (a : Array) (dt : Q) (struct : string)
  (clear : bool) (grid : option (list Q)) (kw : IrregularTimeSamples.kwargs)
  (d : IrregularTimeSamples.draws) :
  (1 <= len a)%nat ->
  0 < dt ->
  has_option kw = true ->
  TimeSeries__init__ a None (Some dt) false struct clear grid kw d
  = Raise (TypeError "__init__() got an unexpected keyword argument").
Proof.
  intros Hlen Hdt Hopt. unfold TimeSeries__init__, TimesSamples__init__.
  destruct (len a <? 1)%nat eqn:E; [apply Nat.ltb_lt in E; lia|].
  destruct (Qle_bool dt 0) eqn:E'; [apply Qle_bool_iff in E'; lra|].
  now rewrite Hopt.
Qed.

Lemma irregular_series_rejects_options_witness :
  TimeSeries__init__ (RealArray [10; 20; 30]) None (Some (1 # 2)) false
    "slight" true None offset_only zero_draws
  = Raise (TypeError "__init__() got an unexpected keyword argument").
Proof.
  apply irregular_series_rejects_options.
  - simpl. lia.
  - reflexivity.
  - reflexivity.
Defined.

(** A series that builds its own time grid, by whatever path and recipe,
    has as many timestamps as samples. *)
Theorem built_series_lengths (a : Array) (delta_t : option Q) (regular : bool)
  (struct : string) (clear : bool) (grid : option (list Q))
  (kw : IrregularTimeSamples.kwargs) (d : IrregularTimeSamples.draws)
  (s : TimeSeries) :
  TimeSeries__init__ a None delta_t regular struct clear grid kw d = Ok s ->
  length (times_value (_times s)) = len (ts_data s).
Proof.
  unfold TimeSeries__init__, TimesSamples__init__.
  destruct (len a <? 1)%nat; [discriminate|].
  destruct delta_t as [dt|]; [|discriminate].
  destruct (Qle_bool dt 0); [discriminate|].
  destruct regular.
  - cbn [bind]. intro H. injection H as <-. cbn [ts_data _times times_value].
    rewrite length_map, arange_length. lia.
  - destruct (has_option kw); [discriminate|].
    destruct (IrregularTimeSamples.__init__ (Z.of_nat (len a)) dt grid)
      as [arr|e] eqn:Ei; [|discriminate].
    cbn [bind].
    destruct (IrregularTimeSamples.compute arr struct clear kw d)
      as [v|e] eqn:Ec; [|discriminate].
    cbn [bind]. intro H. injection H as <-. cbn [ts_data _times times_value].
    rewrite (compute_keeps_length _ _ _ _ _ _ _ _ _ Ei Ec). lia.
Qed.

Lemma built_series_lengths_witness :
  exists s,
    TimeSeries__init__ (RealArray [10; 20]) None (Some 1) false "slight" true
      None no_options zero_draws = Ok s
    /\ length (times_value (_times s)) = len (ts_data s).
Proof.
  assert (H : exists s,
            TimeSeries__init__ (RealArray [10; 20]) None (Some 1) false "slight"
              true None no_options zero_draws = Ok s).
  { eexists. vm_compute. reflexivity. }
  destruct H as [s H]. exists s. split; [exact H|].
  exact (built_series_lengths _ _ _ _ _ _ _ _ s H).
Defined.

(** ** Frequency grids: sizing, copies, the zero entry *)

Lemma round_comp (x y : Q) : x == y -> Py.round x = Py.round y.
Proof.
  intro H. unfold Py.round. rewrite (Qfloor_comp x y H).
  assert (E : Qcompare (x - inject_Z (Qfloor y)) (1 # 2)
              = Qcompare (y - inject_Z (Qfloor y)) (1 # 2)).
  { apply Qcompare_comp; [now rewrite H | reflexivity]. }
  now rewrite E.
Qed.

Lemma round_integer (k : Z) : Py.round (inject_Z k) = k.
Proof.
  unfold Py.round. rewrite Qfloor_Z.
  assert (E : Qcompare (inject_Z k - inject_Z k) (1 # 2) = Lt).
  { apply (proj1 (Qlt_alt _ _)). generalize (inject_Z k). intro q. lra. }
  now rewrite E.
Qed.

(** What the sizing path builds. *)
Lemma sizing_explicit (input_time : list Q)
  (minimum_frequency maximum_frequency samples_per_peak : option Q)
  (nyquist_factor : Q) (n_samples : option Z) (df0 : option Q) (hi lo : Q) :
  Py.max input_time = Ok hi ->
  Py.min input_time = Ok lo ->
  (maximum_frequency = None -> n_samples = None) ->
  let spp := match samples_per_peak with Some s => s | None => 5 end in
  let df := 1 / (hi - lo) / spp in
  let minf := match minimum_frequency with Some m => m | None => 0 end in
  let maxf := match maximum_frequency with
              | Some M => M
              | None => nyquist_factor
                        * ((5 # 10) * inject_Z (Z.of_nat (length input_time))
                           / (hi - lo))
              end in
  let N := (1 + Py.round ((maxf - minf) / df))%Z in
  FrequencySamples_init None (Some input_time) minimum_frequency
    maximum_frequency samples_per_peak nyquist_factor n_samples df0
  = Ok {| freq_value := map (fun i => minf + df * i) (Py.arange N);
          _df := df;
          _n_per_peak := spp |}.
Proof.
  intros Hhi Hlo Hscope spp df minf maxf N.
  unfold FrequencySamples_init. rewrite Hhi, Hlo. cbn [bind].
  destruct maximum_frequency as [M|]; [reflexivity|].
  now rewrite (Hscope eq_refl).
Qed.

Lemma spacing_positive (hi lo spp : Q) :
  lo < hi -> 0 < spp -> 0 < 1 / (hi - lo) / spp.
Proof.
  intros Hd Hs. unfold Qdiv. rewrite Qmult_1_l.
  apply Qmult_lt_0_compat; apply Qinv_lt_0_compat; lra.
Qed.

Lemma sized_grid_nth (minf df : Q) (N : Z) (i : nat) (x : Q) :
  nth_error (map (fun i => minf + df * i) (Py.arange N)) i = Some x ->
  (i < Z.to_nat N)%nat /\ x = minf + df * inject_Z (Z.of_nat i).
Proof.
  intro H.
  assert (Hi : (i < Z.to_nat N)%nat).
  { rewrite <- (arange_length N), <- (length_map (fun i => minf + df * i)).
    apply nth_error_Some. congruence. }
  split; [exact Hi|].
  rewrite nth_error_map, (arange_nth N i Hi) in H. simpl in H. congruence.
Qed.

(** A sized grid is strictly ascending: for a time grid of positive
    duration and a positive oversampling factor, an entry is below every
    later entry. *)
Theorem sized_grid_ascending (input_time : list Q)
  (minimum_frequency maximum_frequency samples_per_peak : option Q)
  (nyquist_factor : Q) (n_samples : option Z) (df0 : option Q) (hi lo : Q)
  (g : FrequencySamples) :
  Py.max input_time = Ok hi ->
  Py.min input_time = Ok lo ->
  lo < hi ->
  0 < match samples_per_peak with Some s => s | None => 5 end ->
  FrequencySamples_init None (Some input_time) minimum_frequency
    maximum_frequency samples_per_peak nyquist_factor n_samples df0 = Ok g ->
  forall i j x y,
    (i < j)%nat ->
    nth_error (freq_value g) i = Some x ->
    nth_error (freq_value g) j = Some y ->
    x < y.
Proof.
  intros Hhi Hlo Hd Hs Hinit i j x y Hij Hx Hy.
  pose proof (spacing_positive hi lo _ Hd Hs) as Hdf.
  unfold FrequencySamples_init in Hinit. rewrite Hhi, Hlo in Hinit.
  cbn [bind] in Hinit. injection Hinit as <-. cbn [freq_value] in Hx, Hy.
  apply sized_grid_nth in Hx, Hy. destruct Hx as [_ ->], Hy as [_ ->].
  assert (inject_Z (Z.of_nat i) < inject_Z (Z.of_nat j))
    by (rewrite <- Zlt_Qlt; lia).
  nra.
Qed.

Lemma sized_grid_ascending_witness :
  exists g x y,
    FrequencySamples_init None (Some [0; 1]) None (Some 1) None 2 None None = Ok g
    /\ nth_error (freq_value g) 1 = Some x
    /\ nth_error (freq_value g) 4 = Some y
    /\ x < y.
Proof.
  eexists. eexists. eexists.
  split; [reflexivity|]. split; [reflexivity|]. split; [reflexivity|].
  eapply (sized_grid_ascending [0; 1] None (Some 1) None 2 None None 1 0)
    with (i := 1%nat) (j := 4%nat).
  - reflexivity.
  - reflexivity.
  - unfold Qlt. simpl. lia.
  - unfold Qlt. simpl. lia.
  - reflexivity.
  - lia.
  - reflexivity.
  - reflexivity.
Defined.

(** With the default minimum frequency a sized grid that is not empty
    has its zero at index 0 and nowhere else, so that its split has an
    empty negative side. *)
Theorem default_grid_zero_first (input_time : list Q)
  (maximum_frequency samples_per_peak : option Q)
  (nyquist_factor : Q) (n_samples : option Z) (df0 : option Q) (hi lo : Q)
  (g : FrequencySamples) :
  Py.max input_time = Ok hi ->
  Py.min input_time = Ok lo ->
  lo < hi ->
  0 < match samples_per_peak with Some s => s | None => 5 end ->
  FrequencySamples_init None (Some input_time) None
    maximum_frequency samples_per_peak nyquist_factor n_samples df0 = Ok g ->
  freq_value g <> [] ->
  zero_idx g = Some O
  /\ exists pos, split_by_zero g = (Some [], Some pos)
                 /\ Forall nonzero pos
                 /\ length pos = (length (freq_value g) - 1)%nat.
Proof.
  intros Hhi Hlo Hd Hs Hinit Hne.
  pose proof (spacing_positive hi lo _ Hd Hs) as Hdf.
  unfold FrequencySamples_init in Hinit. rewrite Hhi, Hlo in Hinit.
  cbn [bind] in Hinit.
  set (df := 1 / (hi - lo) / _) in *.
  match type of Hinit with context [Py.arange ?k] => set (N := k) in * end.
  injection Hinit as <-. cbn [freq_value] in *.
  set (l := map (fun i => 0 + df * i) (Py.arange N)) in *.
  assert (Htail : forall k x, nth_error l (S k) = Some x -> nonzero x).
  { intros k x Hx. apply sized_grid_nth in Hx. destruct Hx as [_ ->].
    assert (inject_Z 0 < inject_Z (Z.of_nat (S k)))
      by (rewrite <- Zlt_Qlt; lia).
    unfold nonzero. intro E. change (inject_Z 0) with 0 in H.
    set (q := inject_Z (Z.of_nat (S k))) in *. nra. }
  destruct l as [|x0 r] eqn:El; [congruence|].
  assert (Hx0 : x0 == 0).
  { assert (H0 : nth_error l 0 = Some x0) by (rewrite El; reflexivity).
    apply sized_grid_nth in H0. destruct H0 as [_ ->]. simpl.
    unfold inject_Z. lra. }
  assert (Hz : zero_idx {| freq_value := x0 :: r; _df := df;
                           _n_per_peak := match samples_per_peak with
                                          | Some s => s | None => 5 end |}
               = Some O).
  { unfold zero_idx, has_zero. cbn [freq_value existsb first_zero].
    apply Qeq_bool_iff in Hx0. now rewrite Hx0. }
  split; [exact Hz|]. exists r. split.
  - unfold split_by_zero. rewrite Hz. reflexivity.
  - split; [|simpl; lia].
    apply Forall_forall. intros x Hx.
    destruct (In_nth_error r x Hx) as [k Hk]. now apply (Htail k).
Qed.

Lemma default_grid_zero_first_witness :
  exists g pos,
    FrequencySamples_init None (Some [0; 1]) None (Some 1) None 2 None None = Ok g
    /\ zero_idx g = Some O
    /\ split_by_zero g = (Some [], Some pos)
    /\ Forall nonzero pos.
Proof.
  assert (H : exists g, FrequencySamples_init None (Some [0; 1]) None (Some 1)
                          None 2 None None = Ok g).
  { eexists. reflexivity. }
  destruct H as [g H].
  destruct (default_grid_zero_first [0; 1] (Some 1) None 2 None None 1 0 g)
    as (Hz & pos & Hsplit & Hpos & _).
  - reflexivity.
  - reflexivity.
  - unfold Qlt. simpl. lia.
  - unfold Qlt. simpl. lia.
  - exact H.
  - injection H as <-. discriminate.
  - exists g, pos. auto.
Defined.

(** With every default (minimum frequency 0, no maximum frequency, no
    [n_samples], oversampling factor 5 and Nyquist factor 2), a grid
    sized from [n] timestamps of positive duration has [5 n + 1]
    entries: the quotient that is rounded is the integer [5 n], whatever
    the duration. *)
Theorem default_grid_size (input_time : list Q) (samples_per_peak : option Q)
  (nyquist_factor : Q) (df0 : option Q) (hi lo : Q) :
  Py.max input_time = Ok hi ->
  Py.min input_time = Ok lo ->
  lo < hi ->
  match samples_per_peak with Some s => s | None => 5 end == 5 ->
  nyquist_factor == 2 ->
  exists g,
    FrequencySamples_init None (Some input_time) None None samples_per_peak
      nyquist_factor None df0 = Ok g
    /\ length (freq_value g) = (5 * length input_time + 1)%nat.
Proof.
  intros Hhi Hlo Hd H5 Hn.
  rewrite (sizing_explicit input_time None None samples_per_peak
             nyquist_factor None df0 hi lo Hhi Hlo (fun _ => eq_refl)).
  set (spp := match samples_per_peak with Some s => s | None => 5 end) in *.
  set (n := Z.of_nat (length input_time)).
  eexists. split; [reflexivity|].
  cbn [freq_value]. rewrite length_map, arange_length.
  assert (E : (nyquist_factor * ((5 # 10) * inject_Z n / (hi - lo)) - 0)
              / (1 / (hi - lo) / spp)
              == inject_Z (5 * n)).
  { rewrite Hn, H5, inject_Z_mult. field. intro Z0. lra. }
  rewrite (round_comp _ _ E), round_integer. unfold n. lia.
Qed.

Lemma default_grid_size_witness :
  exists g,
    FrequencySamples_init None (Some [0; 1; 3]) None None None 2 None None = Ok g
    /\ length (freq_value g) = 16%nat.
Proof.
  apply (default_grid_size [0; 1; 3] None 2 None 3 0); reflexivity.
Defined.

(** A series on a sized grid reports the duration of the time grid the
    grid was sized from: [1 / basic_df] is [max(t) - min(t)]. *)
Theorem sized_grid_duration (input_time : list Q)
  (minimum_frequency maximum_frequency samples_per_peak : option Q)
  (nyquist_factor : Q) (n_samples : option Z) (df0 : option Q) (hi lo : Q)
  (g : FrequencySamples) (s : FrequencySeries) :
  Py.max input_time = Ok hi ->
  Py.min input_time = Ok lo ->
  lo < hi ->
  ~ match samples_per_peak with Some s => s | None => 5 end == 0 ->
  FrequencySamples_init None (Some input_time) minimum_frequency
    maximum_frequency samples_per_peak nyquist_factor n_samples df0 = Ok g ->
  _freqs s = g ->
  basic_df g == 1 / (hi - lo) /\ fs_duration s == hi - lo.
Proof.
  intros Hhi Hlo Hd Hs Hinit Hg.
  unfold FrequencySamples_init in Hinit. rewrite Hhi, Hlo in Hinit.
  cbn [bind] in Hinit. injection Hinit as <-.
  unfold fs_duration. rewrite Hg. unfold basic_df. cbn [_df _n_per_peak].
  split; field; repeat split; try exact Hs; intro Z0; lra.
Qed.

Lemma sized_grid_duration_witness :
  exists g,
    FrequencySamples_init None (Some [1; 3]) None (Some 1) None 2 None None = Ok g
    /\ basic_df g == 1 / (3 - 1)
    /\ fs_duration {| fs_data := RealArray [0]; _freqs := g; _epoch := 1 |}
       == 3 - 1.
Proof.
  assert (H : exists g, FrequencySamples_init None (Some [1; 3]) None (Some 1)
                          None 2 None None = Ok g).
  { eexists. reflexivity. }
  destruct H as [g H]. exists g. split; [exact H|].
  apply (sized_grid_duration [1; 3] None (Some 1) None 2 None None 3 1 g
           {| fs_data := RealArray [0]; _freqs := g; _epoch := 1 |});
    try reflexivity.
  - intro E. discriminate E.
  - exact H.
Defined.

(** A grid made from another grid, or from bare values through
    [_return], keeps the values and the oversampling factor but takes
    the [basic_df] of the source as its bin spacing: the [basic_df] of
    the result is that of the source times the oversampling factor, and
    it is unchanged only when the factor is 1 or the spacing is 0. *)
Theorem copy_rescales_spacing (g : FrequencySamples) (v : list Q)
  (input_time : option (list Q))
  (minimum_frequency maximum_frequency samples_per_peak0 : option Q)
  (nyquist_factor : Q) (n_samples : option Z) (df0 : option Q) :
  exists copy wrapped,
    FrequencySamples_init (Some (FromGrid g)) input_time minimum_frequency
      maximum_frequency samples_per_peak0 nyquist_factor n_samples df0 = Ok copy
    /\ FrequencySamples_return g (FromValues v) = Ok wrapped
    /\ freq_value copy = freq_value g
    /\ freq_value wrapped = v
    /\ samples_per_peak copy = samples_per_peak g
    /\ samples_per_peak wrapped = samples_per_peak g
    /\ _df copy = basic_df g
    /\ _df wrapped = basic_df g
    /\ basic_df copy == basic_df g * samples_per_peak g
    /\ (basic_df copy == basic_df g
        <-> basic_df g == 0 \/ samples_per_peak g == 1).
Proof.
  eexists. eexists. split; [reflexivity|]. split; [reflexivity|].
  cbn [freq_value _df _n_per_peak samples_per_peak].
  do 6 (split; [reflexivity|]).
  change (basic_df {| freq_value := freq_value g; _df := basic_df g;
                      _n_per_peak := _n_per_peak g |})
    with (basic_df g * _n_per_peak g).
  unfold samples_per_peak.
  set (b := basic_df g). set (s := _n_per_peak g).
  split; [reflexivity|]. split.
  - intro H. assert (E : b * (s - 1) == 0) by nra.
    apply Qmult_integral in E. destruct E as [E|E]; [now left | right; lra].
  - intros [E|E]; rewrite E; ring.
Qed.

(** Wrapping the values of a grid of at least two entries, sized from
    a time grid of positive duration with an oversampling factor that is
    not zero, finds the bin spacing again, as the difference of the
    first two values; the oversampling factor becomes 1, so the
    [basic_df] of the wrapped grid is the [df] of the sized one. *)
Theorem rewrap_recovers_spacing (input_time : list Q)
  (minimum_frequency maximum_frequency samples_per_peak : option Q)
  (nyquist_factor : Q) (n_samples : option Z) (df0 : option Q) (hi lo : Q)
  (g : FrequencySamples) :
  Py.max input_time = Ok hi ->
  Py.min input_time = Ok lo ->
  lo < hi ->
  ~ match samples_per_peak with Some s => s | None => 5 end == 0 ->
  FrequencySamples_init None (Some input_time) minimum_frequency
    maximum_frequency samples_per_peak nyquist_factor n_samples df0 = Ok g ->
  (2 <= length (freq_value g))%nat ->
  exists w,
    FrequencySamples_init (Some (FromValues (freq_value g))) None None None
      None 2 None None = Ok w
    /\ freq_value w = freq_value g
    /\ _df w == _df g
    /\ _n_per_peak w = 1
    /\ basic_df w == _df g.
Proof.
  intros Hhi Hlo _ _ Hinit Hlen.
  unfold FrequencySamples_init in Hinit. rewrite Hhi, Hlo in Hinit.
  cbn [bind] in Hinit. injection Hinit as <-. cbn [freq_value _df] in *.
  set (df := 1 / (hi - lo) / _) in *.
  set (minf := match minimum_frequency with Some m => m | None => 0 end) in *.
  match goal with |- context [Py.arange ?k] => set (N := k) in * end.
  set (l := map (fun i => minf + df * i) (Py.arange N)) in *.
  destruct (nth_error_defined l 0) as [x0 H0]; [lia|].
  destruct (nth_error_defined l 1) as [x1 H1]; [lia|].
  pose proof (index_nat l 0 x0 H0) as I0.
  pose proof (index_nat l 1 x1 H1) as I1.
  apply sized_grid_nth in H0, H1. destruct H0 as [_ E0], H1 as [_ E1].
  unfold FrequencySamples_init.
  change 1%Z with (Z.of_nat 1). rewrite I1. cbn [bind].
  change 0%Z with (Z.of_nat 0). rewrite I0. cbn [bind].
  eexists. split; [reflexivity|]. cbn [freq_value _df _n_per_peak].
  split; [reflexivity|].
  assert (E : x1 - x0 == df).
  { rewrite E0, E1.
    change (inject_Z (Z.of_nat 0)) with 0. change (inject_Z (Z.of_nat 1)) with 1.
    clearbody df minf. lra. }
  split; [exact E|]. split; [reflexivity|].
  unfold basic_df. cbn [_df _n_per_peak]. rewrite E. apply Qmult_1_r.
Qed.

Lemma rewrap_recovers_spacing_witness :
  exists g w,
    FrequencySamples_init None (Some [0; 1]) None (Some 1) None 2 None None = Ok g
    /\ FrequencySamples_init (Some (FromValues (freq_value g))) None None None
         None 2 None None = Ok w
    /\ _df w == _df g
    /\ basic_df w == _df g.
Proof.
  assert (H : exists g, FrequencySamples_init None (Some [0; 1]) None (Some 1)
                          None 2 None None = Ok g).
  { eexists. reflexivity. }
  destruct H as [g H].
  destruct (rewrap_recovers_spacing [0; 1] None (Some 1) None 2 None None 1 0 g)
    as (w & Hw & _ & Hdf & _ & Hb).
  - reflexivity.
  - reflexivity.
  - unfold Qlt. simpl. lia.
  - intro E. discriminate E.
  - exact H.
  - injection H as <-. simpl. lia.
  - exists g, w. auto.
Defined.

Lemma first_zero_parts (l : list Q) :
  existsb (fun x => Qeq_bool x 0) l = true ->
  exists z,
    l = firstn (first_zero l) l ++ z :: skipn (first_zero l + 1) l
    /\ z == 0
    /\ Forall nonzero (firstn (first_zero l) l).
Proof.
  induction l as [|x r IH]; simpl; [discriminate|].
  destruct (Qeq_bool x 0) eqn:E; simpl.
  - intros _. exists x. apply Qeq_bool_iff in E. repeat split; auto.
  - intro H. destruct (IH H) as (z & Hl & Hz & Hneg). exists z.
    split; [now rewrite <- Hl|]. split; [exact Hz|].
    constructor; [|exact Hneg].
    intro Hx. apply Qeq_bool_iff in Hx. congruence.
Qed.

Lemma no_zero_all_nonzero (l : list Q) :
  existsb (fun x => Qeq_bool x 0) l = false -> Forall nonzero l.
Proof.
  induction l as [|x r IH]; simpl; [constructor|].
  intro H. apply orb_false_iff in H. destruct H as [Hx Hr].
  constructor; [|now apply IH].
  intro E. apply Qeq_bool_iff in E. congruence.
Qed.

(** The split at the zero entry loses nothing: on a grid with a zero the
    two parts and the zero between them make up the grid, the first part
    has no zero and its length is the zero index; on a grid without a
    zero there is no index and no part, and no entry is zero. *)
Theorem split_by_zero_parts (self : FrequencySamples) :
  match split_by_zero self with
  | (Some neg, Some pos) =>
      exists z,
        freq_value self = neg ++ z :: pos
        /\ z == 0
        /\ Forall nonzero neg
        /\ zero_idx self = Some (length neg)
        /\ has_zero self = true
  | (None, None) =>
      Forall nonzero (freq_value self)
      /\ zero_idx self = None
      /\ has_zero self = false
  | _ => False
  end.
Proof.
  unfold split_by_zero, zero_idx.
  destruct (has_zero self) eqn:Hz.
  - destruct (first_zero_parts (freq_value self) Hz) as (z & Hl & Hz0 & Hneg).
    exists z. split; [exact Hl|]. split; [exact Hz0|]. split; [exact Hneg|].
    split; [|reflexivity]. f_equal. rewrite length_firstn.
    pose proof (first_zero_lt (freq_value self) Hz). lia.
  - split; [now apply no_zero_all_nonzero | auto].
Qed.

(** ** The periodogram on a grid without a zero, and on the grid [0] *)

Lemma all_nonzero_no_zero (l : list Q) :
  Forall nonzero l -> existsb (fun x => Qeq_bool x 0) l = false.
Proof.
  induction 1 as [|x r Hx Hr IH]; simpl; [reflexivity|].
  rewrite IH, orb_false_r.
  destruct (Qeq_bool x 0) eqn:E; [|reflexivity].
  apply Qeq_bool_iff in E. contradiction.
Qed.

Lemma mul_error (a w : list Q) (e : exn) :
  Py.mul a w = Raise e -> exists msg, e = ValueError msg.
Proof.
  unfold Py.mul. destruct (length a =? length w)%nat; [discriminate|].
  destruct w as [|x [|y r]]; try discriminate;
    intro H; injection H as <-; eexists; reflexivity.
Qed.

Lemma imul_error (a : Array) (w : list Q) (e : exn) :
  imul a w = Raise e -> exists msg, e = ValueError msg.
Proof.
  destruct a as [v|v]; simpl.
  - destruct (Py.mul v w) as [r|e'] eqn:E; simpl; [discriminate|].
    intro H. injection H as <-. now apply mul_error in E.
  - destruct (Py.mul (map fst v) w) as [re|e'] eqn:E; simpl.
    + destruct (Py.mul (map snd v) w) as [im|e''] eqn:E'; simpl; [discriminate|].
      intro H. injection H as <-. now apply mul_error in E'.
    + intro H. injection H as <-. now apply mul_error in E.
Qed.

Lemma snd_tbind_lift {A B : Type} (r : result A) (f : A -> traced B) :
  snd (tbind (lift r) f)
  = match r with
    | Ok a => snd (f a)
    | Raise e => Raise e
    end.
Proof.
  destruct r as [a|e]; [now rewrite tbind_lift_ok | reflexivity].
Qed.

Section SpectrumEdges.
Context {kernel : Periodogram} {taper : Window}.

(** On a grid that is not empty and has no zero, [lomb_scargle] calls
    the kernel once, on the magnitudes of all the frequencies, none of
    which is zero; bin [i] is the power at [|f_i|] divided by the power
    of the taper, the grid of the result is the grid itself and its
    epoch the least of the times. *)
Theorem lomb_scargle_without_zero (self : FrequencySamples) (times : list Q)
  (data : Array) (norm : string) (e : Q) :
  one_power_per_frequency ->
  window_fits ->
  Py.min times = Ok e ->
  freq_value self <> [] ->
  Forall nonzero (freq_value self) ->
  let window := tukey (len data) (1 # 8) in
  let bins := power norm times data window (map Qabs (freq_value self)) in
  let run := lomb_scargle self times data "astropy" norm in
  fst run = [map Qabs (freq_value self)]
  /\ Forall (Forall nonzero) (fst run)
  /\ snd run = Ok {| fs_data := RealArray (map (fun p => p / taper_power window)
                                             bins);
                     _freqs := self;
                     _epoch := e |}.
Proof.
  intros Hpow Hwin He Hne Hnz window bins run.
  destruct (imul_ok data window) as (tapered & Htap & _); [apply Hwin|].
  assert (Hrun : run = ([map Qabs (freq_value self)],
                        Ok {| fs_data := RealArray
                                (map (fun p => p / taper_power window) bins);
                              _freqs := self; _epoch := e |})).
  { unfold run, lomb_scargle.
    change (negb (String.eqb "astropy" "astropy")) with false. cbv iota.
    fold window. rewrite Htap, tbind_lift_ok.
    unfold zero_idx, has_zero. rewrite (all_nonzero_no_zero _ Hnz).
    unfold lomb_power. fold bins. rewrite tbind_ok.
    unfold lift. rewrite He, tbind_ok. cbn [fst snd app].
    rewrite FrequencySeries_init_ok; [reflexivity | |].
    - simpl. unfold bins. rewrite length_map, Hpow, length_map.
      destruct (freq_value self); [congruence | simpl; lia].
    - simpl. unfold bins. now rewrite length_map, Hpow, length_map. }
  rewrite Hrun. cbn [fst snd]. split; [reflexivity|]. split; [|reflexivity].
  constructor; [|constructor]. apply Forall_map.
  eapply Forall_impl; [|exact Hnz]. intros f Hf. now apply Qabs_nonzero.
Qed.

(** The grid of the single frequency zero cannot be estimated: whatever
    the kernel and the window return, [lomb_scargle] raises an
    invalid-argument error, there being no other bin to take the least
    power from. *)
Theorem lomb_scargle_single_zero (self : FrequencySamples) (times : list Q)
  (data : Array) (norm : string) (z : Q) :
  freq_value self = [z] ->
  z == 0 ->
  exists msg,
    snd (lomb_scargle self times data "astropy" norm) = Raise (ValueError msg).
Proof.
  intros Hg Hz. unfold lomb_scargle.
  change (negb (String.eqb "astropy" "astropy")) with false. cbv iota.
  rewrite snd_tbind_lift.
  destruct (imul data (tukey (len data) (1 # 8))) as [tapered|err] eqn:Etap.
  2:{ destruct (imul_error _ _ _ Etap) as [msg ->]. now exists msg. }
  assert (Hidx : zero_idx self = Some O).
  { unfold zero_idx, has_zero. rewrite Hg. simpl.
    apply Qeq_bool_iff in Hz. now rewrite Hz. }
  rewrite Hidx, Hg. cbn [length skipn Nat.sub].
  unfold lomb_power. rewrite tbind_ok. cbn [fst snd].
  set (tail := power norm times data (tukey (len data) (1 # 8)) []).
  unfold assign_span.
  destruct (length tail =? 0)%nat eqn:E0.
  - apply Nat.eqb_eq in E0. apply length_zero_iff_nil in E0. rewrite E0.
    rewrite tbind_lift_ok. cbn [Py.min lift tbind snd]. eexists. reflexivity.
  - destruct tail as [|x [|y r]].
    + discriminate.
    + cbn [repeat]. rewrite tbind_lift_ok.
      cbn [Py.min lift tbind snd]. eexists. reflexivity.
    + cbn [lift tbind snd]. eexists. reflexivity.
Qed.

End SpectrumEdges.

Lemma lomb_scargle_without_zero_witness :
  fst (@lomb_scargle reciprocal_kernel rectangular off_zero_grid [0; 1; 2]
         (RealArray [1; 1; 1]) "astropy" "psd")
  = [map Qabs (freq_value off_zero_grid)]
  /\ Forall (Forall nonzero)
       (fst (@lomb_scargle reciprocal_kernel rectangular off_zero_grid [0; 1; 2]
               (RealArray [1; 1; 1]) "astropy" "psd")).
Proof.
  destruct (@lomb_scargle_without_zero reciprocal_kernel rectangular
              off_zero_grid [0; 1; 2] (RealArray [1; 1; 1]) "psd" 0)
    as (Hcalls & Hnz & _).
  - exact reciprocal_kernel_contract.
  - exact rectangular_fits.
  - reflexivity.
  - discriminate.
  - repeat constructor; intro H; discriminate H.
  - split; assumption.
Defined.

Lemma lomb_scargle_single_zero_witness :
  exists msg,
    snd (@lomb_scargle reciprocal_kernel rectangular only_zero_grid [0; 1; 2]
           (RealArray [1; 1; 1]) "astropy" "psd") = Raise (ValueError msg).
Proof.
  apply (@lomb_scargle_single_zero reciprocal_kernel rectangular only_zero_grid
           [0; 1; 2] (RealArray [1; 1; 1]) "psd" 0); reflexivity.
Defined.

(** ** Frequency series: what the constructor guarantees *)

Lemma FrequencySamples_values_kept (v : list Q)
  (minimum_frequency samples_per_peak : option Q) (n_samples : option Z)
  (g : FrequencySamples) :
  FrequencySamples_init (Some (FromValues v)) None minimum_frequency None
    samples_per_peak 2 n_samples None = Ok g ->
  freq_value g = v.
Proof.
  unfold FrequencySamples_init.
  destruct (Py.index v 1) as [a1|e]; [|discriminate]. cbn [bind].
  destruct (Py.index v 0) as [a0|e]; [|discriminate]. cbn [bind].
  intro H. now injection H as <-.
Qed.

(** Every frequency series that the constructor returns, by the path of
    a given grid or by the path of [delta_f], has at least one sample and
    one sample for each frequency of its grid. *)
Theorem FrequencySeries_invariant (initial_array : payload)
  (frequency_grid : option FrequencySamples)
  (delta_f minimum_frequency samples_per_peak epoch : option Q)
  (s : FrequencySeries) :
  FrequencySeries__init__ initial_array frequency_grid delta_f
    minimum_frequency samples_per_peak epoch = Ok s ->
  (1 <= len (fs_data s))%nat
  /\ len (fs_data s) = length (freq_value (_freqs s))
  /\ fs_data s = payload_data initial_array
  /\ (forall g, frequency_grid = Some g -> _freqs s = g).
Proof.
  unfold FrequencySeries__init__.
  destruct (len (payload_data initial_array) <? 1)%nat eqn:E1; [discriminate|].
  apply Nat.ltb_ge in E1.
  match goal with |- bind ?G _ = _ -> _ => destruct G as [g|e] eqn:Eg end;
    [|discriminate].
  cbn [bind].
  match goal with |- bind ?G _ = _ -> _ => destruct G as [ep|e] end;
    [|discriminate].
  cbn [bind].
  destruct (len (payload_data initial_array) =? length (freq_value g))%nat
    eqn:E2; [|discriminate].
  apply Nat.eqb_eq in E2. intro H. injection H as <-.
  cbn [fs_data _freqs]. repeat split; auto.
  intros g0 ->.
  destruct (Py.min (freq_value g0)); [|discriminate].
  cbn [bind] in Eg. congruence.
Qed.

Lemma FrequencySeries_invariant_witness :
  exists s,
    FrequencySeries__init__ (Bare (RealArray [1; 2; 3])) None (Some (1 # 2))
      None None (Some 0) = Ok s
    /\ (1 <= len (fs_data s))%nat
    /\ len (fs_data s) = length (freq_value (_freqs s)).
Proof.
  assert (H : exists s,
            FrequencySeries__init__ (Bare (RealArray [1; 2; 3])) None
              (Some (1 # 2)) None None (Some 0) = Ok s).
  { eexists. vm_compute. reflexivity. }
  destruct H as [s H]. exists s. split; [exact H|].
  destruct (FrequencySeries_invariant _ _ _ _ _ _ s H) as (H1 & H2 & _).
  split; assumption.
Defined.

Lemma linspace_first_two (stop : Q) (k : nat) :
  exists x0 x1,
    nth_error (linspace stop (S (S k))) 0 = Some x0
    /\ nth_error (linspace stop (S (S k))) 1 = Some x1
    /\ x0 == 0
    /\ x1 == stop / inject_Z (Z.of_nat (S k)).
Proof.
  unfold linspace.
  set (step := stop / inject_Z (Z.of_nat (S k))).
  destruct k as [|k].
  - exists (inject_Z (Z.of_nat 0) * step + 0), stop.
    split; [reflexivity|]. split; [reflexivity|].
    split; [change (inject_Z (Z.of_nat 0)) with 0; lra|].
    unfold step. change (inject_Z (Z.of_nat 1)) with 1. field.
  - exists (inject_Z (Z.of_nat 0) * step + 0),
           (inject_Z (Z.of_nat 1) * step + 0).
    split; [reflexivity|]. split; [reflexivity|].
    change (inject_Z (Z.of_nat 0)) with 0.
    change (inject_Z (Z.of_nat 1)) with 1. split; lra.
Qed.

Lemma linspace_length (stop : Q) (num : nat) :
  length (linspace stop num) = num.
Proof.
  destruct num as [|[|k]]; try reflexivity.
  unfold linspace. rewrite length_app, length_map, length_seq. simpl. lia.
Qed.

(** Built from [delta_f], a series of [n >= 2] samples does not get a
    grid of spacing [delta_f] starting at the minimum frequency: its
    grid is the sequence of [n] values from 0 to [1 / delta_f], so that
    its spacing is [1 / (delta_f * (n - 1))], and the minimum frequency
    is not used. *)
Theorem FrequencySeries_from_delta_f (a : Array) (delta_f : Q)
  (minimum_frequency samples_per_peak : option Q) (epoch : Q) :
  (2 <= len a)%nat ->
  0 < delta_f ->
  let spp := match samples_per_peak with Some x => x | None => 1 end in
  exists s,
    FrequencySeries__init__ (Bare a) None (Some delta_f) minimum_frequency
      samples_per_peak (Some epoch) = Ok s
    /\ fs_data s = a
    /\ _epoch s = epoch
    /\ freq_value (_freqs s) = linspace (1 / delta_f) (len a)
    /\ _n_per_peak (_freqs s) = spp
    /\ _df (_freqs s)
       == 1 / (delta_f * inject_Z (Z.of_nat (len a) - 1))
    /\ basic_df (_freqs s)
       == spp / (delta_f * inject_Z (Z.of_nat (len a) - 1)).
Proof.
  intros Hlen Hd spp.
  unfold FrequencySeries__init__. cbn [payload_data].
  destruct (len a <? 1)%nat eqn:E1; [apply Nat.ltb_lt in E1; lia|].
  cbn [bind].
  destruct (Qle_bool delta_f 0) eqn:E2; [apply Qle_bool_iff in E2; lra|].
  destruct (len a) as [|[|k]] eqn:Ek; [lia | lia |].
  destruct (linspace_first_two (1 / delta_f) k) as (x0 & x1 & H0 & H1 & Ex0 & Ex1).
  assert (Hmf : exists mf,
            match minimum_frequency with
            | Some x => Ok x
            | None => Ok 0
            end = Ok mf).
  { destruct minimum_frequency; eexists; reflexivity. }
  destruct Hmf as [mf Hmf]. rewrite Hmf. cbn [bind].
  unfold FrequencySamples_init.
  pose proof (index_nat _ 1 x1 H1) as I1. pose proof (index_nat _ 0 x0 H0) as I0.
  change (Z.of_nat 1) with 1%Z in I1. change (Z.of_nat 0) with 0%Z in I0.
  eexists. split.
  { rewrite I1. cbn [bind]. rewrite I0. cbn [bind freq_value].
    rewrite linspace_length, Nat.eqb_refl. reflexivity. }
  cbn [fs_data _epoch _freqs freq_value _n_per_peak _df].
  split; [reflexivity|]. split; [reflexivity|]. split; [reflexivity|].
  split; [reflexivity|].
  assert (Hk : inject_Z (Z.of_nat (S (S k)) - 1) == inject_Z (Z.of_nat (S k))).
  { replace (Z.of_nat (S (S k)) - 1)%Z with (Z.of_nat (S k)) by lia.
    reflexivity. }
  assert (Hpos : 0 < inject_Z (Z.of_nat (S k))).
  { change 0 with (inject_Z 0). rewrite <- Zlt_Qlt. lia. }
  assert (Edf : x1 - x0 == 1 / (delta_f * inject_Z (Z.of_nat (S (S k)) - 1))).
  { rewrite Ex0, Ex1, Hk. field. split; intro Z0; lra. }
  split; [exact Edf|].
  unfold basic_df. cbn [_df _n_per_peak]. fold spp. rewrite Edf, Hk.
  field. split; intro Z0; lra.
Qed.

Lemma FrequencySeries_from_delta_f_witness :
  exists s,
    FrequencySeries__init__ (Bare (RealArray [1; 2; 3])) None (Some (1 # 2))
      (Some 7) None (Some 0) = Ok s
    /\ freq_value (_freqs s) = linspace (1 / (1 # 2)) 3
    /\ basic_df (_freqs s) == 1 / ((1 # 2) * inject_Z (Z.of_nat 3 - 1)).
Proof.
  destruct (FrequencySeries_from_delta_f (RealArray [1; 2; 3]) (1 # 2)
              (Some 7) None 0) as (s & Hs & _ & _ & Hg & _ & _ & Hb).
  - simpl. lia.
  - reflexivity.
  - exists s. split; [exact Hs|]. split; [exact Hg|]. exact Hb.
Defined.

(** ** Slices between two times *)

Lemma argmin_error (l : list Q) (e : exn) :
  Py.argmin l = Raise e -> exists msg, e = ValueError msg.
Proof.
  destruct l; simpl; [|discriminate].
  intro H. injection H as <-. eexists. reflexivity.
Qed.

Lemma get_time_slice_same (data : TimeSeries) (a : Q) :
  exists msg, get_time_slice data a a = Raise (ValueError msg).
Proof.
  unfold get_time_slice.
  destruct (Py.argmin _) as [i|e] eqn:E.
  - cbn [bind]. unfold _getslice, TimeSeries_init.
    rewrite getslice_len, Nat.sub_diag. simpl. eexists. reflexivity.
  - destruct (argmin_error _ _ E) as [msg ->]. cbn [bind]. now exists msg.
Qed.

(** A slice of a series between two times runs from the timestamp
    nearest to the first to the one nearest to the second, which it
    leaves out: it holds the samples at the indices [i .. j - 1], it
    exists only when [i < j], its time grid has lost the nominal
    spacing, and a slice from a time to the same time is always
    refused. *)
Theorem get_time_slice_bounds (data : TimeSeries) (start_time end_time : Q) :
  (forall seg,
     get_time_slice data start_time end_time = Ok seg ->
     exists i j,
       Py.argmin (map (fun x => Qabs (x - start_time))
                      (times_value (_times data))) = Ok i
       /\ Py.argmin (map (fun x => Qabs (x - end_time))
                         (times_value (_times data))) = Ok j
       /\ (i < j)%nat
       /\ (i < len (ts_data data))%nat
       /\ ts_data seg = getslice (ts_data data) i j
       /\ times_value (_times seg) = Py.slice (times_value (_times data)) i j
       /\ _delta (_times seg) = - (1))
  /\ exists msg,
       get_time_slice data start_time start_time = Raise (ValueError msg).
Proof.
  split; [|apply get_time_slice_same].
  intros seg. unfold get_time_slice.
  destruct (Py.argmin _) as [i|e]; [|discriminate]. cbn [bind].
  destruct (Py.argmin _) as [j|e]; [|discriminate]. cbn [bind].
  unfold _getslice, TimeSeries_init. rewrite getslice_len.
  destruct (Nat.min (j - i) (len (ts_data data) - i) <? 1)%nat eqn:E;
    [discriminate|].
  apply Nat.ltb_ge in E. intro H. injection H as <-.
  exists i, j. cbn [ts_data _times TimesSamples_of_array times_value _delta].
  repeat split; try reflexivity; lia.
Qed.

Lemma get_time_slice_bounds_witness :
  exists seg i j,
    get_time_slice five_samples 1 3 = Ok seg
    /\ (i < j)%nat
    /\ ts_data seg = getslice (ts_data five_samples) i j.
Proof.
  assert (H : exists seg, get_time_slice five_samples 1 3 = Ok seg).
  { eexists. vm_compute. reflexivity. }
  destruct H as [seg H].
  destruct (proj1 (get_time_slice_bounds five_samples 1 3) seg H)
    as (i & j & _ & _ & Hij & _ & Hd & _).
  exists seg, i, j. auto.
Defined.

(** ** Match: what it never returns, and what it delegates *)

Section MatchMore.
Context {regression_backend : Regression} {nfft : Nfft} {filter : MatchFilter}.

Lemma to_frequencyseries_bare (fuel : nat) (t : TimeSeries) :
  exists e,
    to_frequencyseries fuel t None "regression" None no_kwargs = Some (Raise e).
Proof.
  unfold to_frequencyseries. destruct (kind (ts_data t)).
  - destruct (_return t (ts_data t)); eexists; reflexivity.
  - eexists. reflexivity.
Qed.

Lemma match_time_series_raises (fuel : nat) (self : FrequencySeries)
  (t : TimeSeries) (psd : option Array) (tol : Q) :
  exists e,
    FrequencySeries_match fuel self (ATimeSeries t) psd tol = Some (Raise e).
Proof.
  unfold FrequencySeries_match.
  destruct (ts_duration t) as [d|e]; [|eexists; reflexivity].
  destruct (Py.Qltb tol _); [eexists; reflexivity|].
  destruct (to_frequencyseries_bare fuel t) as [e ->]. eexists. reflexivity.
Qed.

(** Given a time series to compare with, [FrequencySeries.match] never
    returns a score: for every series, tolerance and PSD it raises,
    before the match filter is called. *)
Theorem match_never_scores_time_series (fuel : nat) (self : FrequencySeries)
  (t : TimeSeries) (psd : option Array) (tol : Q) :
  exists e,
    FrequencySeries_match fuel self (ATimeSeries t) psd tol = Some (Raise e).
Proof. apply match_time_series_raises. Qed.

(** [TimeSeries.match] converts its own series and hands the other one
    on: against a time series it never returns a score, with or without
    a regressor or a window; without a regressor and without a window
    the default method refuses a real series of at least one sample
    whatever it is compared with. *)
Theorem TimeSeries_match_never_scores (fuel : nat) (self : TimeSeries)
  (other : series) (psd : option Array)
  (frequency_grid : option FrequencySamples) (method : string) (tol : Q)
  (window : option (list Q)) (kwargs : conversion_kwargs) :
  (forall t sc,
     TimeSeries_match fuel self (ATimeSeries t) psd frequency_grid method tol
       window kwargs <> Some (Ok sc))
  /\ (kind (ts_data self) = real -> (1 <= len (ts_data self))%nat ->
      reg kwargs = None ->
      TimeSeries_match fuel self other psd frequency_grid "regression" tol None
        kwargs
      = Some (Raise (ValueError "need a Regressor object"))).
Proof.
  split.
  - intros t sc. unfold TimeSeries_match.
    destruct (to_frequencyseries fuel self frequency_grid method window kwargs)
      as [[f|e]|]; try discriminate.
    destruct (match_time_series_raises fuel f t psd tol) as [e ->].
    discriminate.
  - intros Hk Hlen Hreg. unfold TimeSeries_match, to_frequencyseries.
    rewrite Hk. unfold _return, TimeSeries_init.
    destruct (len (ts_data self) <? 1)%nat eqn:E;
      [apply Nat.ltb_lt in E; lia|].
    cbn [String.eqb Ascii.eqb Bool.eqb]. rewrite Hreg. reflexivity.
Qed.

(** Between two frequency series, [match] checks the lengths and
    nothing else: when the other series, and the PSD if there is one,
    have the length of this one, the result is that of the match filter
    on the three of them, the tolerance playing no part; otherwise an
    assertion fails. *)
Theorem match_between_frequency_series (fuel : nat)
  (self other : FrequencySeries) (psd : option Array) (tol : Q) :
  (len (fs_data other) = len (fs_data self) ->
   (forall p, psd = Some p -> len p = len (fs_data self)) ->
   FrequencySeries_match fuel self (AFrequencySeries other) psd tol
   = Some (filter_match self other psd))
  /\ (len (fs_data other) <> len (fs_data self)
      \/ (exists p, psd = Some p /\ len p <> len (fs_data self)) ->
      FrequencySeries_match fuel self (AFrequencySeries other) psd tol
      = Some (Raise AssertionError)).
Proof.
  split; [|apply match_lengths_enforced].
  intros Hlen Hpsd. unfold FrequencySeries_match.
  rewrite Hlen, Nat.eqb_refl. cbn [negb].
  destruct psd as [p|]; [|reflexivity].
  rewrite (Hpsd p eq_refl), Nat.eqb_refl. reflexivity.
Qed.

End MatchMore.

Lemma TimeSeries_match_never_scores_witness :
  @TimeSeries_match identity_regression stalled_solver constant_filter O
    two_samples (AFrequencySeries unit_spectrum) None None "regression" (1 # 10)
    None no_kwargs
  = Some (Raise (ValueError "need a Regressor object")).
Proof.
  apply (proj2 (@TimeSeries_match_never_scores identity_regression
                  stalled_solver constant_filter O two_samples
                  (AFrequencySeries unit_spectrum) None None "regression"
                  (1 # 10) None no_kwargs)).
  - reflexivity.
  - simpl. lia.
  - reflexivity.
Defined.

Lemma match_between_frequency_series_witness :
  @FrequencySeries_match identity_regression stalled_solver constant_filter O
    unit_spectrum (AFrequencySeries unit_spectrum) None (1 # 10)
  = Some (@filter_match constant_filter unit_spectrum unit_spectrum None).
Proof.
  apply (proj1 (@match_between_frequency_series identity_regression
                  stalled_solver constant_filter O unit_spectrum unit_spectrum
                  None (1 # 10))).
  - reflexivity.
  - intros p H. discriminate H.
Defined.

(** ** Conversion to the frequency domain *)

Section ConversionMore.
Context {regression_backend : Regression} {nfft : Nfft}.

(** The regression path of [to_frequencyseries]: a complex series is a
    type error whatever the method; for a real series and a regressor
    whose transform has one coefficient for each frequency, the result
    holds these coefficients on the requested grid, or on the
    regressor's own grid when none is requested, and its epoch is the
    least time of the series. *)
Theorem to_frequencyseries_regression (fuel : nat) (self : TimeSeries)
  (frequency_grid : option FrequencySamples) (r : Regressor)
  (Nf0 : option Z) (flags0 : option solver_flags) (a : Array) (e : Q) :
  let grid := match frequency_grid with
              | Some f => f
              | None => frequency r
              end in
  (kind (ts_data self) = complex ->
   forall method window kwargs,
     to_frequencyseries fuel self frequency_grid method window kwargs
     = Some (Raise (TypeError "transform only work with real timeSeries data")))
  /\ (kind (ts_data self) = real ->
      (1 <= len (ts_data self))%nat ->
      get_ft r self (Dictionary (_times self) grid) = Ok a ->
      epoch self = Ok e ->
      (1 <= len a)%nat ->
      len a = length (freq_value grid) ->
      to_frequencyseries fuel self frequency_grid "regression" None
        {| reg := Some r; Nf := Nf0; flags := flags0 |}
      = Some (Ok {| fs_data := a; _freqs := grid; _epoch := e |})).
Proof.
  intro grid. split.
  - intros Hk method window kwargs. unfold to_frequencyseries. now rewrite Hk.
  - intros Hk Hlen Hft He Ha Hag. unfold to_frequencyseries. rewrite Hk.
    unfold _return, TimeSeries_init.
    destruct (len (ts_data self) <? 1)%nat eqn:E;
      [apply Nat.ltb_lt in E; lia|].
    cbn [String.eqb Ascii.eqb Bool.eqb reg]. unfold regression. fold grid.
    assert (Eself : {| ts_data := ts_data self; _times := _times self |} = self)
      by now destruct self.
    rewrite Eself, Hft. cbn [bind]. rewrite He. cbn [bind].
    now rewrite FrequencySeries_init_ok.
Qed.

Lemma refinement_residuals (fuel : nat) : forall tol solv count solv' count',
  refinement_loop fuel tol solv count = Some (Ok (solv', count')) ->
  (forall k, (1 <= k <= Z.to_nat (count' - count))%nat ->
     exists rk, Py.max (r_iter (Nat.iter k loop_one_step solv)) = Ok rk
                /\ tol <= rk)
  /\ (count' <> 500%Z ->
      exists rl, Py.max (r_iter solv') = Ok rl /\ rl < tol).
Proof.
  induction fuel as [|fuel IH]; intros tol solv count solv' count' H;
    [discriminate|].
  cbn [refinement_loop] in H.
  destruct (Py.max (r_iter (loop_one_step solv))) as [r|e] eqn:Er;
    [|discriminate].
  destruct (Py.Qltb r tol) eqn:Et.
  - injection H as <- <-. split.
    + intros k Hk. lia.
    + intros _. exists r. split; [exact Er | now apply Qltb_lt].
  - apply Qltb_ge in Et. destruct (count =? 500)%Z eqn:E5.
    + apply Z.eqb_eq in E5. injection H as <- <-. split.
      * intros k Hk. lia.
      * intro Hne. congruence.
    + destruct (IH _ _ _ _ _ H) as [Hres Hlast]. split; [|exact Hlast].
      intros k Hk. destruct k as [|k]; [lia|].
      destruct k as [|k].
      * exists r. split; [exact Er | exact Et].
      * rewrite Nat.iter_succ_r. apply Hres.
        assert (count <= count')%Z.
        { apply Z.eqb_neq in E5.
          destruct (Z.le_gt_cases count 500) as [L|L].
          - apply (refinement_steps fuel tol (loop_one_step solv) (count + 1)
                     solv' count') in H; lia.
          - lia. }
        lia.
Qed.

(** The refinement loop of [ts_nfft], in full.  With 501 units of fuel
    or more it ends.  When it returns the solver after [count + 1]
    steps, [count] is at most 500, every earlier step left a residual at
    or above the tolerance, and a loop left before the cap was left on a
    residual below the tolerance. *)
Theorem refinement_loop_spec (fuel : nat) (tol : Q) (solv : solver) :
  (501 <= fuel)%nat ->
  exists r,
    refinement_loop fuel tol solv 0 = Some r
    /\ forall solv' count,
         r = Ok (solv', count) ->
         (0 <= count <= 500)%Z
         /\ solv' = Nat.iter (Z.to_nat count + 1) loop_one_step solv
         /\ (forall k, (1 <= k <= Z.to_nat count)%nat ->
               exists rk, Py.max (r_iter (Nat.iter k loop_one_step solv)) = Ok rk
                          /\ tol <= rk)
         /\ ((count < 500)%Z ->
               exists rl, Py.max (r_iter solv') = Ok rl /\ rl < tol).
Proof.
  intro Hf.
  destruct (refinement_terminates fuel tol solv 0) as [r Hr]; [lia | lia |].
  exists r. split; [exact Hr|].
  intros solv' count ->.
  destruct (refinement_steps fuel tol solv 0 solv' count ltac:(lia) Hr)
    as [Hc Hs].
  destruct (refinement_residuals fuel tol solv 0 solv' count Hr) as [Hres Hlast].
  split; [lia|]. split.
  - rewrite Hs. f_equal. lia.
  - split.
    + intros k Hk. apply Hres. rewrite Z.sub_0_r. exact Hk.
    + intro Hlt. apply Hlast. lia.
Qed.

End ConversionMore.

Lemma to_frequencyseries_regression_witness :
  @to_frequencyseries identity_regression stalled_solver O two_samples
    (Some unit_spectrum_grid) "regression" None
    (@Build_conversion_kwargs identity_regression stalled_solver
       (Some unit_spectrum_grid) None None)
  = Some (Ok {| fs_data := RealArray [1; 2];
                _freqs := unit_spectrum_grid;
                _epoch := 0 |}).
Proof.
  apply (proj2 (@to_frequencyseries_regression identity_regression
                  stalled_solver O two_samples (Some unit_spectrum_grid)
                  unit_spectrum_grid None None (RealArray [1; 2]) 0)).
  - reflexivity.
  - simpl. lia.
  - reflexivity.
  - reflexivity.
  - simpl. lia.
  - reflexivity.
Defined.

Lemma refinement_loop_spec_witness :
  exists r, @refinement_loop stalled_solver 600 (6 # 10) O 0 = Some r.
Proof.
  destruct (@refinement_loop_spec stalled_solver 600 (6 # 10) O) as (r & Hr & _).
  - lia.
  - exists r. exact Hr.
Defined.

(** ** The segmented estimator with any overlap *)

Lemma segments_step_succ (i s d k : nat) :
  segments_step i s d (S k) = (i, (i + d)%nat) :: segments_step (i + s) s d k.
Proof.
  unfold segments_step. rewrite <- cons_seq, <- seq_shift. simpl.
  rewrite Nat.add_0_r. f_equal. rewrite map_map.
  apply map_ext. intro q. f_equal; lia.
Qed.

Lemma segments_step_length (i s d k : nat) : length (segments_step i s d k) = k.
Proof. unfold segments_step. now rewrite length_map, length_seq. Qed.

Lemma segments_step_bounds (s d k : nat) : forall i a b,
  In (a, b) (segments_step i s d k) ->
  exists q, (q < k)%nat /\ a = (i + q * s)%nat /\ b = (a + d)%nat.
Proof.
  intros i a b H. unfold segments_step in H.
  apply in_map_iff in H. destruct H as (q & E & Hq).
  apply in_seq in Hq. injection E as <- <-. exists q. lia.
Qed.

Section Overlap.
Context {kernel : Periodogram} {taper : Window}.
Variables (self : FrequencySamples) (data : TimeSeries) (d : nat) (over : Q).

Let times : list Q := times_value (_times data).
Let L : nat := length times.
Let zeros : Array := RealArray (repeat 0 (length (freq_value self))).

Hypothesis same_length : len (ts_data data) = L.
Hypothesis different : distinct times.
Hypothesis width : (0 < d < L)%nat.
Hypothesis kernel_contract : one_power_per_frequency.
Hypothesis window_contract : window_fits.
Hypothesis grid_contract : estimable self.


Section Step.
Variable s : nat.
Hypothesis step : Py.int (inject_Z (Z.of_nat d) * over) = Z.of_nat s.
Hypothesis forward : (1 <= s)%nat.

Lemma welch_loop_step_run (fuel : nat) : forall i acc counter,
  (ceil_div (L - d - i) s < fuel)%nat ->
  welch_loop fuel self times data (Z.of_nat d) over acc (Z.of_nat i) counter
  = Some (acc' <- welch_sum self data
                    (segments_step i s d (ceil_div (L - d - i) s)) acc ;;
          Ok (acc', (counter + Z.of_nat (ceil_div (L - d - i) s))%Z)).
Proof.
  induction fuel as [|fuel IH]; intros i acc counter Hf; [lia|].
  cbn [welch_loop]. rewrite same_length.
  destruct (Z.ltb_spec (Z.of_nat i) (Z.of_nat L - Z.of_nat d)) as [Hlt|Hge].
  - destruct (nth_error_defined times i) as [ti Hi]; [fold L; lia|].
    destruct (nth_error_defined times (i + d)) as [tj Hj]; [fold L; lia|].
    rewrite (index_nat times i ti Hi). cbn [bind].
    rewrite <- Nat2Z.inj_add, (index_nat times (i + d) tj Hj). cbn [bind].
    rewrite (welch_segment_indices self data different
               acc i (i + d) ti tj Hi Hj).
    rewrite step, <- Nat2Z.inj_add.
    rewrite (ceil_div_step (L - d - i) s) by lia.
    rewrite segments_step_succ. cbn [welch_sum].
    replace (L - d - i - s)%nat with (L - d - (i + s))%nat by lia.
    destruct (q <- segment_periodogram self data i (i + d) ;; iadd acc q)
      as [acc1|e]; cbn [bind]; [|reflexivity].
    rewrite IH.
    + destruct (welch_sum self data _ acc1) as [acc'|e]; cbn [bind];
        [|reflexivity].
      do 3 f_equal. lia.
    + rewrite (ceil_div_step (L - d - i) s) in Hf by lia.
      replace (L - d - i - s)%nat with (L - d - (i + s))%nat in Hf by lia. lia.
  - replace (L - d - i)%nat with O by lia.
    rewrite ceil_div_zero by lia. cbn [segments_step seq map welch_sum bind].
    now rewrite Z.add_0_r.
Qed.

(** For a series of [L] samples at pairwise different timestamps, a
    width [0 < d < L], a grid that is not empty and is not the single
    frequency zero, a kernel that returns one power for each frequency
    and a window of the length it is asked for: with any overlap
    fraction that moves the window forward, by [s = int(d * over) >= 1]
    samples, [lomb_welch] returns; the loop processes the
    [m = ceil((L - d) / s)] segments [q s .. q s + d - 1], the final
    segment is added, and the result is the sum of the [m + 1]
    periodograms divided by [m + 1]. *)
Theorem lomb_welch_overlap (fuel : nat) :
  (ceil_div (L - d) s < fuel)%nat ->
  let m := ceil_div (L - d) s in
  let segments := segments_step 0 s d m ++ [((L - d - 1)%nat, (L - 1)%nat)] in
  exists total e,
    length segments = (m + 1)%nat
    /\ welch_sum self data segments zeros = Ok total
    /\ epoch data = Ok e
    /\ lomb_welch fuel self times data (Z.of_nat d) over
       = Some (Ok {| fs_data := div_scalar total (inject_Z (Z.of_nat m + 1));
                     _freqs := self;
                     _epoch := e |}).
Proof.
  intros Hfuel m segments.
  assert (Hgrid : freq_value self <> []).
  { unfold estimable in grid_contract.
    destruct (freq_value self); [contradiction | discriminate]. }
  destruct (epoch_defined data d same_length width) as [e He].
  assert (Hbounds : forall a b, In (a, b) segments ->
            (a < b)%nat /\ (a < len (ts_data data))%nat
            /\ (a < length (times_value (_times data)))%nat).
  { intros a b Hab. fold times. fold L. rewrite same_length.
    unfold segments in Hab. apply in_app_iff in Hab.
    destruct Hab as [Hab | [Hab | []]].
    - apply segments_step_bounds in Hab. destruct Hab as (q & Hq & -> & ->).
      destruct (ceil_div_least (L - d) s) as [_ Hleast]; [lia|].
      assert (q * s < L - d)%nat.
      { destruct (Nat.le_gt_cases (L - d) (q * s)) as [Hle|Hgt]; [|exact Hgt].
        specialize (Hleast q Hle). fold m in Hleast. lia. }
      lia.
    - injection Hab as <- <-. lia. }
  destruct (welch_sum_ok kernel_contract window_contract self data segments
              (repeat 0 (length (freq_value self))) grid_contract Hbounds)
    as (total & Htotal & _); [apply repeat_length|].
  fold zeros in Htotal.
  pose proof (welch_loop_step_run fuel 0 zeros 0) as Hrun.
  replace (L - d - 0)%nat with (L - d)%nat in Hrun by lia.
  fold m in Hrun. specialize (Hrun Hfuel). simpl (Z.of_nat 0) in Hrun.
  unfold segments in Htotal. rewrite welch_sum_app in Htotal.
  destruct (welch_sum self data (segments_step 0 s d m) zeros) as [loop_sum|err]
    eqn:Eloop; [|discriminate].
  cbn [bind] in Hrun, Htotal. rewrite Z.add_0_l in Hrun.
  exists (RealArray total), e.
  split.
  { unfold segments. rewrite length_app, segments_step_length. reflexivity. }
  split.
  { unfold segments. rewrite welch_sum_app, Eloop. exact Htotal. }
  split; [exact He|].
  pose proof (lomb_welch_after_loop self data d same_length different width
                fuel over loop_sum (Z.of_nat m) e Hgrid He Hrun) as Hfin.
  fold times in Hfin. fold L in Hfin. rewrite Hfin.
  cbn [welch_sum] in Htotal.
  destruct (q <- segment_periodogram self data (L - d - 1) (L - 1) ;;
            iadd loop_sum q) as [t|err]; cbn [bind] in *; [|discriminate].
  now injection Htotal as ->.
Qed.

End Step.

Hypothesis stuck : Py.int (inject_Z (Z.of_nat d) * over) = 0%Z.



End Overlap.

Section WholeSeries.
Context {kernel : Periodogram} {taper : Window}.

(** A segment as wide as the series is refused: the loop has nothing to
    do, and the final segment runs from the last timestamp to itself,
    an empty slice. *)
Theorem lomb_welch_full_width (fuel : nat) (self : FrequencySamples)
  (data : TimeSeries) (over : Q) :
  let times := times_value (_times data) in
  len (ts_data data) = length times ->
  (1 <= length times)%nat ->
  freq_value self <> [] ->
  exists msg,
    lomb_welch (S fuel) self times data (Z.of_nat (length times)) over
    = Some (Raise (ValueError msg)).
Proof.
  intros times Hlen HL Hgrid. unfold lomb_welch.
  destruct (min_nonempty times) as [e He].
  { intro E. rewrite E in HL. simpl in HL. lia. }
  unfold epoch. fold times. rewrite He. cbn [bind].
  rewrite FrequencySeries_init_ok.
  2:{ simpl. rewrite repeat_length.
      destruct (freq_value self); [congruence | simpl; lia]. }
  2:{ simpl. apply repeat_length. }
  cbn [fs_data welch_loop]. rewrite Hlen.
  destruct (Z.ltb_spec 0 (Z.of_nat (length times) - Z.of_nat (length times)))
    as [Hlt|Hge]; [lia|].
  destruct (nth_error_defined times (length times - 1)) as [tl Hl]; [lia|].
  assert (I1 : Py.index times (Z.of_nat (length times)
                               - Z.of_nat (length times) - 1) = Ok tl).
  { unfold Py.index.
    replace (Z.of_nat (length times) - Z.of_nat (length times) - 1)%Z
      with (-1)%Z by lia.
    cbn [Z.ltb Z.compare].
    destruct ((0 <=? -1 + Z.of_nat (length times))%Z
              && (-1 + Z.of_nat (length times) <? Z.of_nat (length times))%Z)
      eqn:E.
    - replace (Z.to_nat (-1 + Z.of_nat (length times)))
        with (length times - 1)%nat by lia.
      now rewrite Hl.
    - apply andb_false_iff in E. destruct E as [E|E].
      + apply Z.leb_gt in E. lia.
      + apply Z.ltb_ge in E. lia. }
  assert (I2 : Py.index times (Z.of_nat (length times) - 1) = Ok tl).
  { replace (Z.of_nat (length times) - 1)%Z
      with (Z.of_nat (length times - 1)) by lia.
    now apply index_nat. }
  rewrite I1. cbn [bind]. rewrite I2. cbn [bind].
  unfold welch_segment.
  destruct (get_time_slice_same data tl) as [msg ->]. cbn [bind].
  now exists msg.
Qed.

End WholeSeries.

Lemma lomb_welch_overlap_witness :
  exists total e,
    length (segments_step 0 1 2 3 ++ [(2%nat, 4%nat)]) = 4%nat
    /\ @welch_sum summing_kernel rectangular two_bins five_samples
         (segments_step 0 1 2 3 ++ [(2%nat, 4%nat)]) (RealArray (repeat 0 2))
       = Ok total
    /\ epoch five_samples = Ok e
    /\ @lomb_welch summing_kernel rectangular 10 two_bins [0; 1; 2; 3; 4]
         five_samples 2 (1 # 2)
       = Some (Ok {| fs_data := div_scalar total (inject_Z 4);
                     _freqs := two_bins;
                     _epoch := e |}).
Proof.
  apply (@lomb_welch_overlap summing_kernel rectangular two_bins five_samples 2
           (1 # 2) eq_refl five_samples_distinct
           (conj (le_S _ _ (le_n 1)) (le_S _ _ (le_S _ _ (le_n 3))))
           summing_kernel_contract rectangular_fits I 1 eq_refl (le_n 1) 10).
  vm_compute. lia.
Defined.


Lemma lomb_welch_full_width_witness :
  exists msg,
    @lomb_welch summing_kernel rectangular 1 two_bins [0; 1; 2; 3; 4]
      five_samples 5 1 = Some (Raise (ValueError msg)).
Proof.
  apply (@lomb_welch_full_width summing_kernel rectangular O two_bins
           five_samples 1).
  - reflexivity.
  - simpl. lia.
  - discriminate.
Defined.

(** ** What [ts_nfft] returns *)

Lemma fftfreq_shape (n : Z) (l : list Q) :
  fftfreq n = Ok l ->
  (1 <= n)%Z
  /\ length l = Z.to_nat n
  /\ (exists x0, nth_error l 0 = Some x0 /\ x0 == 0)
  /\ ((3 <= n)%Z -> exists x1, nth_error l 1 = Some x1 /\ x1 == 1 / inject_Z n)
  /\ (n = 2%Z -> exists x1, nth_error l 1 = Some x1 /\ x1 == - (1) / inject_Z n).
Proof.
  unfold fftfreq.
  destruct (n =? 0)%Z eqn:E0; [discriminate|].
  destruct (n <? 0)%Z eqn:E1; [discriminate|].
  apply Z.eqb_neq in E0. apply Z.ltb_ge in E1.
  intro H. injection H as <-.
  set (val := 1 / (inject_Z n * 1)).
  assert (Hn : (1 <= n)%Z) by lia.
  assert (Hinj : 0 < inject_Z n).
  { change 0 with (inject_Z 0). rewrite <- Zlt_Qlt. lia. }
  split; [exact Hn|]. split.
  { rewrite length_map, length_app, !length_map, !length_seq.
    assert (((n - 1) / 2 + 1 + n / 2 = n)%Z) by (Z.div_mod_to_equations; lia).
    assert ((0 <= (n - 1) / 2)%Z) by (apply Z.div_pos; lia).
    assert ((0 <= n / 2)%Z) by (apply Z.div_pos; lia).
    lia. }
  assert (HN : (1 <= (n - 1) / 2 + 1)%Z).
  { assert ((0 <= (n - 1) / 2)%Z) by (apply Z.div_pos; lia). lia. }
  destruct (Z.to_nat ((n - 1) / 2 + 1)) as [|k] eqn:Ek; [lia|].
  split.
  { exists (inject_Z (Z.of_nat 0) * val). split; [reflexivity|].
    change (inject_Z (Z.of_nat 0)) with 0. lra. }
  split.
  - intro H3.
    assert ((1 <= (n - 1) / 2)%Z) by (apply Z.div_le_lower_bound; lia).
    destruct k as [|k]; [lia|].
    exists (inject_Z (Z.of_nat 1) * val). split; [reflexivity|].
    change (inject_Z (Z.of_nat 1)) with 1. unfold val. field. lra.
  - intros ->. vm_compute in Ek. assert (k = O) by lia. subst k.
    eexists. split; [reflexivity|]. reflexivity.
Qed.

Section Transform.
Context {nfft : Nfft}.

(** A series that [ts_nfft] returns has [Nf >= 2] coefficients on a grid
    of [Nf] frequencies with oversampling factor 1, and its epoch is the
    least time of the series.  For [Nf >= 3] its spacing is
    [1 / duration], so that it reports the duration of the time series;
    for [Nf = 2] the two frequencies are [0] and [-1 / duration] and the
    duration it reports is the opposite. *)
Theorem ts_nfft_result (fuel : nat) (self series : TimeSeries) (Nf0 : option Z)
  (tol : Q) (flags0 : option solver_flags) (f : FrequencySeries) :
  ts_nfft fuel self series Nf0 tol flags0 = Some (Ok f) ->
  let n := match Nf0 with
           | Some k => k
           | None => Z.of_nat (len (ts_data self))
           end in
  exists d e,
    ts_duration self = Ok d
    /\ epoch self = Ok e
    /\ _epoch f = e
    /\ (2 <= n)%Z
    /\ len (fs_data f) = Z.to_nat n
    /\ length (freq_value (_freqs f)) = Z.to_nat n
    /\ _n_per_peak (_freqs f) = 1
    /\ ((3 <= n)%Z -> ~ d == 0 -> fs_duration f == d)
    /\ (n = 2%Z -> ~ d == 0 -> fs_duration f == - d).
Proof.
  intros H n. unfold ts_nfft in H. fold n in H.
  destruct (Solver n _ _ _ _) as [solv|err]; [|discriminate].
  destruct (refinement_loop fuel tol solv 0) as [[[solv' c]|err]|];
    try discriminate.
  injection H as H.
  destruct (fftfreq n) as [l|err] eqn:El; [|discriminate].
  cbn [bind] in H.
  destruct (ts_duration self) as [d|err]; [|discriminate].
  cbn [bind] in H.
  set (v := map (fun x => x * inject_Z n / d) l) in H.
  unfold FrequencySamples_init in H.
  destruct (Py.index v 1) as [a1|err] eqn:I1; [|discriminate].
  cbn [bind] in H.
  destruct (Py.index v 0) as [a0|err] eqn:I0; [|discriminate].
  cbn [bind] in H.
  destruct (epoch self) as [e|err]; [|discriminate].
  cbn [bind] in H.
  unfold FrequencySeries_init in H. cbn [freq_value] in H.
  destruct (len (f_hat_iter solv') <? 1)%nat; [discriminate|].
  destruct (Py.min v); [|discriminate]. cbn [bind] in H.
  destruct (len (f_hat_iter solv') =? length v)%nat eqn:Elen;
    [|discriminate].
  apply Nat.eqb_eq in Elen. injection H as <-.
  cbn [fs_data _freqs _epoch freq_value _df _n_per_peak].
  destruct (fftfreq_shape n l El) as (Hn & Hl & (x0 & H0 & E0) & H3 & H2).
  assert (Hv : length v = Z.to_nat n) by (unfold v; now rewrite length_map).
  assert (Hn2 : (2 <= n)%Z).
  { unfold Py.index in I1. cbn [Z.ltb Z.compare] in I1.
    destruct ((0 <=? 1)%Z && (1 <? Z.of_nat (length v))%Z) eqn:E;
      [|discriminate].
    apply andb_true_iff in E. destruct E as [_ E]. apply Z.ltb_lt in E. lia. }
  assert (Ha0 : a0 == 0).
  { assert (Hv0 : nth_error v 0 = Some (x0 * inject_Z n / d))
      by (unfold v; now rewrite nth_error_map, H0).
    apply (index_nat v 0) in Hv0. change (Z.of_nat 0) with 0%Z in Hv0.
    rewrite Hv0 in I0. injection I0 as <-. rewrite E0. unfold Qdiv. ring. }
  assert (Hinj : 0 < inject_Z n).
  { change 0 with (inject_Z 0). rewrite <- Zlt_Qlt. lia. }
  exists d, e. split; [reflexivity|]. split; [reflexivity|].
  split; [reflexivity|]. split; [exact Hn2|].
  split; [lia|]. split; [exact Hv|]. split; [reflexivity|].
  unfold fs_duration, basic_df. cbn [_freqs _df _n_per_peak]. split.
  - intros Hge Hd. destruct (H3 Hge) as (x1 & H1 & E1).
    assert (Hv1 : nth_error v 1 = Some (x1 * inject_Z n / d))
      by (unfold v; now rewrite nth_error_map, H1).
    apply (index_nat v 1) in Hv1. change (Z.of_nat 1) with 1%Z in Hv1.
    rewrite Hv1 in I1. injection I1 as <-. rewrite Ha0, E1.
    field. repeat split; try exact Hd; intro Z0; lra.
  - intros Heq Hd. destruct (H2 Heq) as (x1 & H1 & E1).
    assert (Hv1 : nth_error v 1 = Some (x1 * inject_Z n / d))
      by (unfold v; now rewrite nth_error_map, H1).
    apply (index_nat v 1) in Hv1. change (Z.of_nat 1) with 1%Z in Hv1.
    rewrite Hv1 in I1. injection I1 as <-. rewrite Ha0, E1.
    field. repeat split; try exact Hd; intro Z0; lra.
Qed.

End Transform.

Lemma ts_nfft_result_witness :
  exists f d,
    @ts_nfft stalled_solver 501 two_samples two_samples None (6 # 10) None
    = Some (Ok f)
    /\ ts_duration two_samples = Ok d
    /\ len (fs_data f) = 2%nat
    /\ fs_duration f == - d.
Proof.
  assert (H : exists f,
            @ts_nfft stalled_solver 501 two_samples two_samples None (6 # 10)
              None = Some (Ok f)).
  { eexists. vm_compute. reflexivity. }
  destruct H as [f H].
  destruct (@ts_nfft_result stalled_solver 501 two_samples two_samples None
              (6 # 10) None f H)
    as (d & e & Hd & _ & _ & _ & Hlen & _ & _ & _ & H2).
  exists f, d. split; [exact H|]. split; [exact Hd|]. split; [exact Hlen|].
  apply H2; [reflexivity|].
  vm_compute in Hd. injection Hd as <-. intro E. discriminate E.
Defined.
